(** * Bright Data SDK for Python: scraper glue code, checked against its code

    A shallow embedding of the scraper classes of the SDK
    ([brightdata/scrapers/...], [brightdata/api/base.py]) and the
    properties its specification states about them.

    Python values are dynamically typed, so the embedding starts from a
    small universe of Python values ([pyval]); exceptions are values of
    [exn], and code that can raise returns an [outcome].  Coroutines are
    state transformers over a [world] that holds what the code can observe
    of the interpreter (whether an event loop runs), of the engine and of
    the remote service. *)

From Stdlib Require Import ZArith String Ascii List Bool Lia DecimalString.
From Stdlib Require Import Floats Uint63.
From stdpp Require Import base option list gmap strings.

Local Open Scope string_scope.
Local Open Scope list_scope.
Local Open Scope Z_scope.

(** ** Python values *)

#[local] Set Warnings "-register-all".

(** The values that flow through the scrapers: JSON data of the remote API
    and the arguments of the public methods.  A [PDict] keeps its items in
    insertion order, as a Python dict does. *)
Inductive pyval : Type :=
| PNone
| PBool (b : bool)
| PInt (z : Z)
| PFloat (f : float)
| PStr (s : string)
| PList (l : list pyval)
| PDict (d : list (string * pyval)).

(** Structural induction that reaches into lists and dict items. *)
Fixpoint pyval_ind' (P : pyval -> Prop)
    (HNone : P PNone)
    (HBool : forall b, P (PBool b))
    (HInt : forall z, P (PInt z))
    (HFloat : forall f, P (PFloat f))
    (HStr : forall s, P (PStr s))
    (HList : forall l, Forall P l -> P (PList l))
    (HDict : forall d, Forall (fun kv => P (snd kv)) d -> P (PDict d))
    (v : pyval) {struct v} : P v :=
  let rec := pyval_ind' P HNone HBool HInt HFloat HStr HList HDict in
  match v with
  | PNone => HNone
  | PBool b => HBool b
  | PInt z => HInt z
  | PFloat f => HFloat f
  | PStr s => HStr s
  | PList l =>
      HList l ((fix go (xs : list pyval) : Forall P xs :=
                  match xs with
                  | [] => List.Forall_nil P
                  | x :: xs' => @List.Forall_cons pyval P x xs' (rec x) (go xs')
                  end) l)
  | PDict d =>
      HDict d ((fix go (d : list (string * pyval))
                  : Forall (fun kv => P (snd kv)) d :=
                  match d with
                  | [] => List.Forall_nil _
                  | kv :: d' => @List.Forall_cons _ _ kv d' (rec (snd kv)) (go d')
                  end) d)
  end.

(** [x is None] *)
Definition is_none (v : pyval) : bool :=
  match v with PNone => true | _ => false end.

(** [isinstance(v, str)], [isinstance(v, list)] *)
Definition isinstance_str (v : pyval) : bool :=
  match v with PStr _ => true | _ => false end.

Definition isinstance_list (v : pyval) : bool :=
  match v with PList _ => true | _ => false end.

(** [isinstance(v, (str, bool, int))]; [bool] is a subclass of [int]. *)
Definition isinstance_str_bool_int (v : pyval) : bool :=
  match v with PStr _ | PBool _ | PInt _ => true | _ => false end.

(** Truth value of a Python float: everything but [0.0] and [-0.0]. *)
Definition float_truthy (f : float) : bool := negb (PrimFloat.eqb f 0%float).

(** Truth value testing, [bool(v)]. *)
Definition truthy (v : pyval) : bool :=
  match v with
  | PNone => false
  | PBool b => b
  | PInt z => negb (z =? 0)
  | PFloat f => float_truthy f
  | PStr s => negb (String.eqb s "")
  | PList l => match l with [] => false | _ => true end
  | PDict d => match d with [] => false | _ => true end
  end.

(** [[x] * n]: no element when [n] is zero or negative. *)
Definition list_mul {A} (x : A) (n : Z) : list A := repeat x (Z.to_nat n).

(** [l[:n]]: a negative bound counts from the end. *)
Definition slice_to {A} (l : list A) (n : Z) : list A :=
  if n <? 0 then take (Z.to_nat (Z.of_nat (length l) + n)) l
  else take (Z.to_nat n) l.

(** [len(l)] *)
Definition len {A} (l : list A) : Z := Z.of_nat (length l).

(** [d.get(key)] on a dict: the value under [key], [None] when absent. *)
Fixpoint dict_get (d : list (string * pyval)) (key : string) : pyval :=
  match d with
  | [] => PNone
  | (k, v) :: d' => if String.eqb k key then v else dict_get d' key
  end.

(** [str(n)] for an [int]. *)
Definition str_of_int (n : Z) : string := NilZero.string_of_int (Z.to_int n).

(** [str(b).lower()] for a [bool]. *)
Definition str_of_bool_lower (b : bool) : string :=
  if b then "true" else "false".

(** [s.upper()] for a str of ASCII characters ([is_ascii], below): the
    letters a to z become A to Z and every other character stays.  Outside
    ASCII Python's result is another one (and may differ in length), so
    the properties speak of the value of [str_upper] for ASCII strings
    only; country codes are ASCII. *)
Definition ascii_upper (c : ascii) : ascii :=
  let n := nat_of_ascii c in
  if ((97 <=? n) && (n <=? 122))%nat then ascii_of_nat (n - 32) else c.

Fixpoint str_upper (s : string) : string :=
  match s with
  | EmptyString => EmptyString
  | String c s' => String (ascii_upper c) (str_upper s')
  end.

(** [s.isascii()] *)
Fixpoint is_ascii (s : string) : bool :=
  match s with
  | EmptyString => true
  | String c s' => (nat_of_ascii c <? 128)%nat && is_ascii s'
  end.

(** [needle in haystack] for strings, as a proposition. *)
Definition str_contains (haystack needle : string) : Prop :=
  exists pre post, haystack = pre +:+ needle +:+ post.

(** ** Exceptions and outcomes *)

(** The exceptions the modelled code raises.  [ValidationError] and
    [APIError] are the SDK's own ([brightdata/exceptions]); [APIError]
    carries the [status_code] keyword it is built with. *)
Inductive exn : Type :=
| ValidationError (msg : string)
| APIError (msg : string) (status_code : Z)
| RuntimeError (msg : string)
| TypeError (msg : string)
| AttributeError (msg : string)
| TimeoutError (msg : string).

Inductive outcome (A : Type) : Type :=
| Return (a : A)
| Raise (e : exn).
Arguments Return {A} a.
Arguments Raise {A} e.

Definition obind {A B} (o : outcome A) (k : A -> outcome B) : outcome B :=
  match o with
  | Return a => k a
  | Raise e => Raise e
  end.

(** ** The world a coroutine runs in *)

(** What the scrapers ask of their collaborators, in call order. *)
Inductive event : Type :=
| EvAsyncioRun
| EvEngineEnter
| EvEngineExit
| EvExecute (payload : list (list (string * pyval))) (dataset_id : string).

(** [loop_running]: whether [asyncio.get_running_loop()] finds a loop;
    [events]: the calls made so far; [st]: the state of the engine and of
    the remote service, of a type [W] the scrapers never look into. *)
Record world (W : Type) : Type := World {
  loop_running : bool;
  events : list event;
  st : W
}.
Arguments World {W} _ _ _.
Arguments loop_running {W} _.
Arguments events {W} _.
Arguments st {W} _.

Definition set_loop {W} (b : bool) (w : world W) : world W :=
  World b (events w) (st w).

Definition log_event {W} (e : event) (w : world W) : world W :=
  World (loop_running w) (events w ++ [e]) (st w).

(** A computation that may raise and may change the world: a plain
    Python call as well as an awaited coroutine. *)
Definition io (W A : Type) : Type := world W -> outcome A * world W.

Definition ret {W A} (a : A) : io W A := fun w => (Return a, w).

Definition raise {W A} (e : exn) : io W A := fun w => (Raise e, w).

Definition bind {W A B} (m : io W A) (k : A -> io W B) : io W B :=
  fun w =>
    match m w with
    | (Return a, w') => k a w'
    | (Raise e, w') => (Raise e, w')
    end.

Definition emit {W} (e : event) : io W unit :=
  fun w => (Return tt, log_event e w).

(** A collaborator's operation acts on [st] alone. *)
Definition lift {W A} (f : W -> outcome A * W) : io W A :=
  fun w =>
    let '(r, s') := f (st w) in
    (r, World (loop_running w) (events w) s').

Definition lift_pure {W A} (o : outcome A) : io W A := fun w => (o, w).

Declare Scope io_scope.
Delimit Scope io_scope with io.
Notation "x <- m ;; k" := (bind m (fun x => k))
  (at level 100, m at next level, right associativity) : io_scope.
Notation "m ;;; k" := (bind m (fun _ => k))
  (at level 100, right associativity) : io_scope.

(** [try: body  except RuntimeError: handler] *)
Definition try_except_RuntimeError {W A} (body handler : io W A) : io W A :=
  fun w =>
    match body w with
    | (Raise (RuntimeError _), w') => handler w'
    | r => r
    end.

(** ** Result objects *)

(** A point in time ([datetime]), in microseconds since the epoch. *)
Definition datetime : Type := Z.

(** Modelled from the spec: the result wrapper [ScrapeResult] of
    [brightdata/models], which is not among the sources.  The spec calls
    it a typed result wrapper around pass-through JSON; the attributes
    below are the ones the scrapers read, write or pass to its
    constructor. *)
Record ScrapeResult : Type := SR {
  success : bool;
  data : pyval;
  url : string;
  platform : option string;
  method : option string;
  trigger_sent_at : option datetime;
  snapshot_id_received_at : option datetime;
  snapshot_polled_at : list datetime;
  data_fetched_at : option datetime;
  snapshot_id : option string;
  cost : option float
}.

(** [result.url = u] and [result.data = d], assignments to attributes. *)
Definition set_url (u : string) (r : ScrapeResult) : ScrapeResult :=
  SR (success r) (data r) u (platform r) (method r) (trigger_sent_at r)
     (snapshot_id_received_at r) (snapshot_polled_at r) (data_fetched_at r)
     (snapshot_id r) (cost r).

Definition set_data (d : pyval) (r : ScrapeResult) : ScrapeResult :=
  SR (success r) d (url r) (platform r) (method r) (trigger_sent_at r)
     (snapshot_id_received_at r) (snapshot_polled_at r) (data_fetched_at r)
     (snapshot_id r) (cost r).

(** Modelled from the spec: the job handle [ScrapeJob] of
    [brightdata/scrapers/job.py], which is not among the sources; it keeps
    the snapshot id (the vendor-assigned job handle of the glossary) and
    the platform constants it is built with. *)
Record ScrapeJob : Type := Job {
  job_snapshot_id : string;
  job_platform_name : string;
  job_cost_per_record : float
}.

(** A request payload: one JSON object per input. *)
Definition payload : Type := list (list (string * pyval)).

(** An argument of type [Union[str, List[...]]]. *)
Inductive str_or_list (A : Type) : Type :=
| OneStr (s : string)
| ManyOf (l : list A).
Arguments OneStr {A} s.
Arguments ManyOf {A} l.

(** A return value of type [Union[ScrapeResult, List[ScrapeResult]]]. *)
Inductive result_or_list : Type :=
| OneResult (r : ScrapeResult)
| ResultList (rs : list ScrapeResult).

(** [float(n)] for the length of a list (below [2^63]). *)
Definition float_of_len (n : Z) : float := PrimFloat.of_uint63 (Uint63.of_Z n).

(** [x or ""] for an [Optional[str]]. *)
Definition or_empty (x : option string) : string :=
  match x with
  | Some s => s
  | None => ""
  end.

(** ** The collaborators of the scrapers *)

(** The classes, helpers and constants the scrapers use whose code is not
    among the sources, taken as parameters: the engine's context manager
    ([AsyncEngine.__aenter__], [__aexit__]), the shared workflow executor,
    the dataset API client, the base scraper's methods, the URL validators
    and the constants of [brightdata/constants].  All of them act on the
    collaborator state [W] only; entering and leaving the engine context
    are taken not to raise, and leaving it not to swallow an exception of
    the body. *)
Class Collaborators (W : Type) : Type := {
  engine_aenter : W -> W;
  engine_aexit : W -> W;
  workflow_execute :
    payload -> string -> Z -> Z -> bool -> option string ->
    (pyval -> pyval) -> W -> outcome ScrapeResult * W;
  api_client_trigger : payload -> string -> W -> outcome string * W;
  _check_status_async : string -> W -> outcome string * W;
  _fetch_results_async : string -> W -> outcome pyval * W;
  base_normalize_result : pyval -> pyval;
  get_caller_function_name : option string;
  validate_url : string -> outcome unit;
  validate_url_list : list string -> outcome unit;
  DEFAULT_POLL_INTERVAL : Z;
  DEFAULT_TIMEOUT_SHORT : Z;
  DEFAULT_TIMEOUT_MEDIUM : Z;
  COST_PER_RECORD_TIKTOK : float;
  COST_PER_RECORD_PERPLEXITY : float
}.

(** ** The asyncio runtime and the engine context *)

Section Runtime.
Context {W : Type} `{Collaborators W}.

(** [asyncio.get_running_loop()]: raises [RuntimeError] when no loop runs. *)
Definition get_running_loop : io W unit :=
  fun w =>
    if loop_running w then (Return tt, w)
    else (Raise (RuntimeError "no running event loop"), w).

(** Driving a coroutine to completion on a fresh event loop. *)
Definition run_until_complete {A} (coro : io W A) : io W A :=
  fun w => let '(r, w') := coro (set_loop true w) in (r, set_loop false w').

(** [asyncio.run(coro)]: refuses to start inside a running loop. *)
Definition asyncio_run {A} (coro : io W A) : io W A :=
  fun w =>
    let w1 := log_event EvAsyncioRun w in
    if loop_running w1
    then (Raise (RuntimeError
                   "asyncio.run() cannot be called from a running event loop"),
          w1)
    else run_until_complete coro w1.

(** [async with self.engine: body]: the engine is entered, the body runs,
    and the engine is left whether the body returned or raised. *)
Definition async_with_engine {A} (body : io W A) : io W A :=
  fun w =>
    let w1 := log_event EvEngineEnter
                (World (loop_running w) (events w) (engine_aenter (st w))) in
    let '(r, w2) := body w1 in
    (r, log_event EvEngineExit
          (World (loop_running w2) (events w2) (engine_aexit (st w2)))).

(** [await self.workflow_executor.execute(...)], recorded as a call. *)
Definition call_execute (p : payload) (dataset_id : string)
    (poll_interval poll_timeout : Z) (include_errors : bool)
    (sdk_function : option string) (normalize_func : pyval -> pyval)
    : io W ScrapeResult :=
  (emit (EvExecute p dataset_id) ;;;
   lift (workflow_execute p dataset_id poll_interval poll_timeout
           include_errors sdk_function normalize_func))%io.

(** The value a coroutine produces when it is awaited to completion
    inside the engine context, in the words of the specification. *)
Definition awaited_in_engine_context {A} (coro : io W A) (w : world W)
    : outcome A :=
  fst (async_with_engine coro w).

(** The value a coroutine produces when it is awaited as it is, with the
    engine context not entered. *)
Definition awaited_outside_engine_context {A} (coro : io W A) (w : world W)
    : outcome A :=
  fst (coro w).

End Runtime.

(** ** [brightdata/api/base.py]: [BaseAPI] *)

Module BaseAPI.
Section BaseAPI.
Context {W : Type} `{Collaborators W}.

(** The arguments ([*args], [**kwargs]) and the abstract method
    [_execute_async] a subclass implements. *)
Variable Args R : Type.
Variable _execute_async : Args -> io W R.

Definition _execute_sync (args : Args) : io W R :=
  try_except_RuntimeError
    (get_running_loop ;;;
     raise (RuntimeError
              "Cannot call sync method from async context. Use async method instead."))%io
    (asyncio_run (async_with_engine (_execute_async args))).

End BaseAPI.
End BaseAPI.

(** ** [brightdata/scrapers/tiktok/scraper.py]: [TikTokScraper] *)

Module TikTokScraper.
Section TikTokScraper.
Context {W : Type} `{Collaborators W}.

Definition DATASET_ID_PROFILES : string := "gd_l1villgoiiidt09ci".
Definition DATASET_ID_POSTS : string := "gd_lu702nij2f790tmv9h".
Definition DATASET_ID_COMMENTS : string := "gd_lkf2st302ap89utw5k".
Definition DATASET_ID_POSTS_BY_PROFILE_FAST : string := "gd_m7n5v2gq296pex2f5m".
Definition DATASET_ID_POSTS_BY_URL_FAST : string := "gd_m736hjp71lejc5dc0l".
Definition DATASET_ID_POSTS_BY_SEARCH_URL_FAST : string := "gd_m7n5ixlw1gc4no56kx".
Definition PLATFORM_NAME : string := "tiktok".
Definition COST_PER_RECORD : float := COST_PER_RECORD_TIKTOK.

(** [self.normalize_result], inherited from the base scraper. *)
Definition normalize_result : pyval -> pyval := base_normalize_result.

(** *** Helper methods *)

Definition _normalize_param (param : pyval) (target_length : Z)
    (default_value : pyval) : list pyval :=
  if is_none param then list_mul default_value target_length
  else if isinstance_str_bool_int param then list_mul param target_length
  else match param with
       | PList l =>
           if len l <? target_length then
             let last_val := if truthy param then List.last l PNone
                             else default_value in
             l ++ list_mul last_val (target_length - len l)
           else slice_to l target_length
       | _ => list_mul default_value target_length
       end.

(** *** Core scraping logic *)

Definition is_single {A} (url : str_or_list A) : bool :=
  match url with OneStr _ => true | ManyOf _ => false end.

(** [url_list = [url] if is_single else url] *)
Definition url_list_of (url : str_or_list string) : list string :=
  match url with OneStr u => [u] | ManyOf l => l end.

(** [result.cost / len(result.data) if result.cost else None] *)
Definition cost_share (c : option float) (n : Z) : option float :=
  match c with
  | Some x => if float_truthy x then Some (PrimFloat.div x (float_of_len n)) else None
  | None => None
  end.

(** [result.data] read as a list ([[]] when it is not one), and [l[0]]. *)
Definition items_of (v : pyval) : list pyval :=
  match v with PList l => l | _ => [] end.

Definition item0 (l : list pyval) : pyval := nth 0 l PNone.

(** [url if isinstance(url, str) else url[0]] *)
Definition first_url (url : str_or_list string) : string :=
  match url with OneStr u => u | ManyOf l => nth 0 l "" end.

(** What [_scrape_urls] makes of the workflow result. *)
Definition fan_out (url : str_or_list string) (result : ScrapeResult)
    : result_or_list :=
  if is_single url && isinstance_list (data result)
     && (len (items_of (data result)) =? 1)
  then OneResult (set_data (item0 (items_of (data result)))
                    (set_url (first_url url) result))
  else if negb (is_single url) && isinstance_list (data result)
  then ResultList
         (map (fun '(url_item, data_item) =>
                 SR true data_item url_item (platform result) (method result)
                    (trigger_sent_at result) (snapshot_id_received_at result)
                    (snapshot_polled_at result) (data_fetched_at result)
                    (snapshot_id result)
                    (cost_share (cost result) (len (items_of (data result)))))
              (zip (url_list_of url) (items_of (data result))))
  else OneResult result.

Definition _scrape_urls (url : str_or_list string) (dataset_id : string)
    (timeout : Z) (country : option string) : io W result_or_list :=
  let url_list := url_list_of url in
  let p := map (fun u => [("url", PStr u); ("country", PStr (or_empty country))])
               url_list in
  let sdk_function := get_caller_function_name in
  (result <- call_execute p dataset_id DEFAULT_POLL_INTERVAL timeout true
               sdk_function normalize_result ;;
   ret (fan_out url result))%io.

(** The single-URL unwrapping of [comments] and [posts_by_url_fast]. *)
Definition unwrap_single (url : str_or_list string) (result : ScrapeResult)
    : ScrapeResult :=
  if is_single url && isinstance_list (data result)
     && (len (items_of (data result)) =? 1)
  then set_data (item0 (items_of (data result))) (set_url (first_url url) result)
  else result.

(** [validate_url(url)] for a string, [validate_url_list(url)] otherwise. *)
Definition validate (url : str_or_list string) : io W unit :=
  match url with
  | OneStr u => lift_pure (validate_url u)
  | ManyOf l => lift_pure (validate_url_list l)
  end.

(** *** Profiles *)

Definition profiles (url : str_or_list string) (country : option string)
    (timeout : Z) : io W result_or_list :=
  (validate url ;;;
   _scrape_urls url DATASET_ID_PROFILES timeout country)%io.

Definition profiles_sync (url : str_or_list string) (country : option string)
    (timeout : Z) : io W result_or_list :=
  let _run := async_with_engine (profiles url country timeout) in
  asyncio_run _run.

Definition trigger_payload (url : str_or_list string) (country : option string)
    : payload :=
  map (fun u => [("url", PStr u); ("country", PStr (or_empty country))])
      (url_list_of url).

Definition profiles_trigger (url : str_or_list string) (country : option string)
    : io W ScrapeJob :=
  (snapshot_id <- lift (api_client_trigger (trigger_payload url country)
                          DATASET_ID_PROFILES) ;;
   ret (Job snapshot_id PLATFORM_NAME COST_PER_RECORD))%io.

Definition profiles_trigger_sync (url : str_or_list string)
    (country : option string) : io W ScrapeJob :=
  asyncio_run (profiles_trigger url country).

Definition profiles_status (snapshot_id : string) : io W string :=
  lift (_check_status_async snapshot_id).

Definition profiles_status_sync (snapshot_id : string) : io W string :=
  asyncio_run (profiles_status snapshot_id).

Definition profiles_fetch (snapshot_id : string) : io W pyval :=
  lift (_fetch_results_async snapshot_id).

Definition profiles_fetch_sync (snapshot_id : string) : io W pyval :=
  asyncio_run (profiles_fetch snapshot_id).

(** *** Posts *)

Definition posts (url : str_or_list string) (country : option string)
    (timeout : Z) : io W result_or_list :=
  (validate url ;;;
   _scrape_urls url DATASET_ID_POSTS timeout country)%io.

Definition posts_sync (url : str_or_list string) (country : option string)
    (timeout : Z) : io W result_or_list :=
  let _run := async_with_engine (posts url country timeout) in
  asyncio_run _run.

Definition posts_trigger (url : str_or_list string) (country : option string)
    : io W ScrapeJob :=
  (snapshot_id <- lift (api_client_trigger (trigger_payload url country)
                          DATASET_ID_POSTS) ;;
   ret (Job snapshot_id PLATFORM_NAME COST_PER_RECORD))%io.

Definition posts_trigger_sync (url : str_or_list string)
    (country : option string) : io W ScrapeJob :=
  asyncio_run (posts_trigger url country).

Definition posts_status (snapshot_id : string) : io W string :=
  lift (_check_status_async snapshot_id).

Definition posts_status_sync (snapshot_id : string) : io W string :=
  asyncio_run (posts_status snapshot_id).

Definition posts_fetch (snapshot_id : string) : io W pyval :=
  lift (_fetch_results_async snapshot_id).

Definition posts_fetch_sync (snapshot_id : string) : io W pyval :=
  asyncio_run (posts_fetch snapshot_id).

(** *** Comments *)

Definition url_only_payload (url : str_or_list string) : payload :=
  map (fun u => [("url", PStr u)]) (url_list_of url).

Definition comments (url : str_or_list string) (timeout : Z)
    : io W ScrapeResult :=
  (validate url ;;;
   let sdk_function := get_caller_function_name in
   result <- call_execute (url_only_payload url) DATASET_ID_COMMENTS
               DEFAULT_POLL_INTERVAL timeout true sdk_function normalize_result ;;
   ret (unwrap_single url result))%io.

Definition comments_sync (url : str_or_list string) (timeout : Z)
    : io W ScrapeResult :=
  let _run := async_with_engine (comments url timeout) in
  asyncio_run _run.

Definition comments_trigger (url : str_or_list string) : io W ScrapeJob :=
  (snapshot_id <- lift (api_client_trigger (url_only_payload url)
                          DATASET_ID_COMMENTS) ;;
   ret (Job snapshot_id PLATFORM_NAME COST_PER_RECORD))%io.

Definition comments_trigger_sync (url : str_or_list string) : io W ScrapeJob :=
  asyncio_run (comments_trigger url).

Definition comments_status (snapshot_id : string) : io W string :=
  lift (_check_status_async snapshot_id).

Definition comments_status_sync (snapshot_id : string) : io W string :=
  asyncio_run (comments_status snapshot_id).

Definition comments_fetch (snapshot_id : string) : io W pyval :=
  lift (_fetch_results_async snapshot_id).

Definition comments_fetch_sync (snapshot_id : string) : io W pyval :=
  asyncio_run (comments_fetch snapshot_id).

(** *** Fast API variants *)

Definition posts_by_profile_fast (url : str_or_list string) (timeout : Z)
    : io W result_or_list :=
  (validate url ;;;
   _scrape_urls url DATASET_ID_POSTS_BY_PROFILE_FAST timeout None)%io.

Definition posts_by_profile_fast_sync (url : str_or_list string) (timeout : Z)
    : io W result_or_list :=
  let _run := async_with_engine (posts_by_profile_fast url timeout) in
  asyncio_run _run.

Definition posts_by_url_fast (url : str_or_list string) (timeout : Z)
    : io W ScrapeResult :=
  (validate url ;;;
   let sdk_function := get_caller_function_name in
   result <- call_execute (url_only_payload url) DATASET_ID_POSTS_BY_URL_FAST
               DEFAULT_POLL_INTERVAL timeout true sdk_function normalize_result ;;
   ret (unwrap_single url result))%io.

Definition posts_by_url_fast_sync (url : str_or_list string) (timeout : Z)
    : io W ScrapeResult :=
  let _run := async_with_engine (posts_by_url_fast url timeout) in
  asyncio_run _run.

(** One payload item of [posts_by_search_url_fast]. *)
Definition search_url_item (u : string) (c n : pyval) (start_date : option string)
    : list (string * pyval) :=
  [("url", PStr u); ("country", c)]
  ++ (if is_none n then [] else [("num_of_posts", n)])
  ++ (match start_date with
      | Some d => if String.eqb d "" then [] else [("start_date", PStr d)]
      | None => []
      end).

Definition posts_by_search_url_fast (url : str_or_list string)
    (num_of_posts country : pyval) (start_date : option string) (timeout : Z)
    : io W ScrapeResult :=
  let urls := url_list_of url in
  let batch_size := len urls in
  let nums := _normalize_param num_of_posts batch_size PNone in
  let countries := _normalize_param country batch_size (PStr "") in
  let p := map (fun i => search_url_item (nth i urls "") (nth i countries PNone)
                           (nth i nums PNone) start_date)
               (seq 0 (Z.to_nat batch_size)) in
  let sdk_function := get_caller_function_name in
  call_execute p DATASET_ID_POSTS_BY_SEARCH_URL_FAST DEFAULT_POLL_INTERVAL
    timeout true sdk_function normalize_result.

Definition posts_by_search_url_fast_sync (url : str_or_list string)
    (num_of_posts country : pyval) (start_date : option string) (timeout : Z)
    : io W ScrapeResult :=
  let _run := async_with_engine
                (posts_by_search_url_fast url num_of_posts country start_date
                   timeout) in
  asyncio_run _run.

End TikTokScraper.
End TikTokScraper.

(** ** [brightdata/scrapers/perplexity/scraper.py]: [PerplexityScraper] *)

(** [type(v).__name__] *)
Definition type_name (v : pyval) : string :=
  match v with
  | PNone => "NoneType"
  | PBool _ => "bool"
  | PInt _ => "int"
  | PFloat _ => "float"
  | PStr _ => "str"
  | PList _ => "list"
  | PDict _ => "dict"
  end.

(** [v.upper()]: only a [str] has the method. *)
Definition py_upper (v : pyval) : outcome pyval :=
  match v with
  | PStr s => Return (PStr (str_upper s))
  | _ => Raise (AttributeError
                  ("'" +:+ type_name v +:+ "' object has no attribute 'upper'"))
  end.

(** A [for] loop that builds a list and stops at the first exception. *)
Fixpoint for_each {A B} (f : A -> outcome B) (l : list A) : outcome (list B) :=
  match l with
  | [] => Return []
  | x :: l' => obind (f x) (fun y => obind (for_each f l') (fun ys => Return (y :: ys)))
  end.

Module PerplexityScraper.
Section PerplexityScraper.
Context {W : Type} `{Collaborators W}.

Definition DATASET_ID : string := "gd_m7dhdot1vw9a7gc1n".
Definition PLATFORM_NAME : string := "perplexity".
Definition MIN_POLL_TIMEOUT : Z := DEFAULT_TIMEOUT_SHORT.
Definition COST_PER_RECORD : float := COST_PER_RECORD_PERPLEXITY.
Definition PERPLEXITY_URL : string := "https://www.perplexity.ai".

Definition normalize_result : pyval -> pyval := base_normalize_result.

Definition _normalize_param (param : pyval) (target_length : Z)
    (default_value : pyval) : list pyval :=
  if is_none param then list_mul default_value target_length
  else if isinstance_str_bool_int param then list_mul param target_length
  else match param with
       | PList l =>
           if len l <? target_length then
             let last_val := if truthy param then List.last l PNone
                             else default_value in
             l ++ list_mul last_val (target_length - len l)
           else slice_to l target_length
       | _ => list_mul default_value target_length
       end.

(** The [prompt] argument as a Python value, for its truth value. *)
Definition prompt_value (prompt : str_or_list pyval) : pyval :=
  match prompt with OneStr s => PStr s | ManyOf l => PList l end.

(** [prompts = [prompt] if isinstance(prompt, str) else prompt] *)
Definition prompts_of (prompt : str_or_list pyval) : list pyval :=
  match prompt with OneStr s => [PStr s] | ManyOf l => l end.

(** [not p or not isinstance(p, str)] *)
Definition bad_prompt (p : pyval) : bool :=
  negb (truthy p) || negb (isinstance_str p).

(** One payload item, built as the loop body builds [item]. *)
Definition build_item (p c i e : pyval) : outcome (list (string * pyval)) :=
  let item := [("url", PStr PERPLEXITY_URL); ("prompt", p)] in
  obind (if truthy c
         then obind (py_upper c) (fun u => Return (item ++ [("country", u)]))
         else Return item)
    (fun item =>
       let item := if is_none i then item else item ++ [("index", i)] in
       let item := if is_none e then item
                   else item ++ [("export_markdown_file", e)] in
       Return item).

(** [for i in range(batch_size): ... payload.append(item)] *)
Definition build_payload (prompts countries indices export_markdowns : list pyval)
    : outcome payload :=
  for_each (fun i => build_item (nth i prompts PNone) (nth i countries PNone)
                       (nth i indices PNone) (nth i export_markdowns PNone))
           (seq 0 (length prompts)).

(** The part of [search] that runs before the workflow is executed:
    validation of the prompt and construction of the payload. *)
Definition search_payload (prompt : str_or_list pyval)
    (country index export_markdown_file : pyval) : outcome payload :=
  if negb (truthy (prompt_value prompt))
  then Raise (ValidationError "Prompt is required")
  else
    let prompts := prompts_of prompt in
    let batch_size := len prompts in
    let countries := _normalize_param country batch_size (PStr "US") in
    let indices := _normalize_param index batch_size PNone in
    let export_markdowns := _normalize_param export_markdown_file batch_size PNone in
    if existsb bad_prompt prompts
    then Raise (ValidationError "Each prompt must be a non-empty string")
    else build_payload prompts countries indices export_markdowns.

(** [poll_timeout or self.MIN_POLL_TIMEOUT] *)
Definition timeout_or_min (poll_timeout : option Z) : Z :=
  match poll_timeout with
  | Some t => if t =? 0 then MIN_POLL_TIMEOUT else t
  | None => MIN_POLL_TIMEOUT
  end.

Definition search (prompt : str_or_list pyval)
    (country index export_markdown_file : pyval)
    (poll_interval : Z) (poll_timeout : option Z) : io W ScrapeResult :=
  (p <- lift_pure (search_payload prompt country index export_markdown_file) ;;
   let timeout := timeout_or_min poll_timeout in
   let sdk_function := get_caller_function_name in
   result <- call_execute p DATASET_ID poll_interval timeout true sdk_function
               normalize_result ;;
   ret (set_url PERPLEXITY_URL result))%io.

Definition search_sync (prompt : str_or_list pyval)
    (country index export_markdown_file : pyval)
    (poll_interval : Z) (poll_timeout : option Z) : io W ScrapeResult :=
  let _run := async_with_engine
                (search prompt country index export_markdown_file
                   poll_interval poll_timeout) in
  asyncio_run _run.

(** The part of [search_trigger] before the trigger request. *)
Definition search_trigger_payload (prompt : str_or_list pyval)
    (country index export_markdown_file : pyval) : outcome payload :=
  if negb (truthy (prompt_value prompt))
  then Raise (ValidationError "Prompt is required")
  else
    let prompts := prompts_of prompt in
    let batch_size := len prompts in
    let countries := _normalize_param country batch_size (PStr "US") in
    let indices := _normalize_param index batch_size PNone in
    let export_markdowns := _normalize_param export_markdown_file batch_size PNone in
    build_payload prompts countries indices export_markdowns.

Definition search_trigger (prompt : str_or_list pyval)
    (country index export_markdown_file : pyval) : io W ScrapeJob :=
  (p <- lift_pure (search_trigger_payload prompt country index
                     export_markdown_file) ;;
   snapshot_id <- lift (api_client_trigger p DATASET_ID) ;;
   ret (Job snapshot_id PLATFORM_NAME COST_PER_RECORD))%io.

Definition search_trigger_sync (prompt : str_or_list pyval)
    (country index export_markdown_file : pyval) : io W ScrapeJob :=
  let _run := async_with_engine
                (search_trigger prompt country index export_markdown_file) in
  asyncio_run _run.

Definition search_status (snapshot_id : string) : io W string :=
  lift (_check_status_async snapshot_id).

Definition search_status_sync (snapshot_id : string) : io W string :=
  let _run := async_with_engine (search_status snapshot_id) in
  asyncio_run _run.

Definition search_fetch (snapshot_id : string) : io W pyval :=
  lift (_fetch_results_async snapshot_id).

Definition search_fetch_sync (snapshot_id : string) : io W pyval :=
  let _run := async_with_engine (search_fetch snapshot_id) in
  asyncio_run _run.

End PerplexityScraper.
End PerplexityScraper.

(** ** The base scraper of [new-sdk] *)

(** The result object [ScrapeResult] of [new-sdk], as its scrapers build
    it: the class ([brightdata/models]) is not among the sources, the
    attributes are the keyword arguments the scrapers pass to its
    constructor. *)
Record SearchResult : Type := SearchResultOf {
  sr_success : bool;
  sr_url : string;
  sr_status : string;
  sr_error : option string;
  sr_platform : option string
}.

(** The methods the scrapers of [new-sdk] inherit from [BaseWebScraper]
    ([_execute_workflow_async], [_poll_and_fetch_async]), the URL
    validator and the clock ([datetime.now(timezone.utc)]), whose code is
    not among the sources, taken as parameters.  The poll takes the
    snapshot id, the poll interval, the timeout and the two time stamps it
    is called with. *)
Class SearchBase (W : Type) : Type := {
  _execute_workflow_async :
    payload -> bool -> Z -> Z -> W -> outcome SearchResult * W;
  _poll_and_fetch_async :
    pyval -> Z -> Z -> datetime -> datetime -> W -> outcome SearchResult * W;
  datetime_now : W -> datetime * W;
  base_validate_url : string -> outcome unit
}.

(** Truth value of an [Optional[str]]. *)
Definition opt_truthy (x : option string) : bool :=
  match x with
  | Some s => negb (String.eqb s "")
  | None => false
  end.

(** [if x: item[key] = x] for an [Optional[str]]. *)
Definition add_if_truthy (key : string) (x : option string)
    (item : list (string * pyval)) : list (string * pyval) :=
  match x with
  | Some s => if String.eqb s "" then item else item ++ [(key, PStr s)]
  | None => item
  end.

(** [if x is not None: item[key] = x] for an [Optional[float]]. *)
Definition add_if_not_none_float (key : string) (x : option float)
    (item : list (string * pyval)) : list (string * pyval) :=
  match x with
  | Some f => item ++ [(key, PFloat f)]
  | None => item
  end.

(** [x or default] for an [Optional[int]]. *)
Definition int_or (x : option Z) (default : Z) : Z :=
  match x with
  | Some t => if t =? 0 then default else t
  | None => default
  end.

(** ** [new-sdk/.../scrapers/amazon/scraper.py]: [AmazonScraper] *)

Module AmazonScraper.

Definition normalize_result (data : pyval) : pyval :=
  if negb (isinstance_list data) then data
  else data.

Definition DATASET_ID : string := "gd_l7q7dkf244hwxbl93".
Definition PLATFORM_NAME : string := "amazon".
Definition MIN_POLL_TIMEOUT : Z := 240.

(** The payload [products_async] builds: the keyword and [max_results]
    always, the category when it is truthy, the price and rating filters
    when they are not [None]. *)
Definition products_payload (keyword : string) (category : option string)
    (max_results : Z) (min_price max_price min_rating : option float)
    : payload :=
  let item := [("keyword", PStr keyword); ("max_results", PInt max_results)] in
  let item := add_if_truthy "category" category item in
  let item := add_if_not_none_float "min_price" min_price item in
  let item := add_if_not_none_float "max_price" max_price item in
  let item := add_if_not_none_float "min_rating" min_rating item in
  [item].

(** One payload item of [_build_scrape_payload]: an optional parameter is
    added when its keyword was passed, whatever its value. *)
Definition scrape_item (kwargs : gmap string pyval) (u : string)
    : list (string * pyval) :=
  let item := [("url", PStr u)] in
  let item := match kwargs !! "reviews_count" with
              | Some v => item ++ [("reviews_count", v)]
              | None => item
              end in
  let item := match kwargs !! "images_count" with
              | Some v => item ++ [("images_count", v)]
              | None => item
              end in
  item.

Definition _build_scrape_payload (urls : list string)
    (kwargs : gmap string pyval) : payload :=
  map (scrape_item kwargs) urls.

Section Search.
Context {W : Type} `{Collaborators W} `{SearchBase W}.

Definition products_async (keyword : string) (category : option string)
    (max_results : Z) (min_price max_price min_rating : option float)
    (poll_interval : Z) (poll_timeout : option Z) : io W SearchResult :=
  let p := products_payload keyword category max_results min_price max_price
             min_rating in
  let timeout := int_or poll_timeout MIN_POLL_TIMEOUT in
  lift (_execute_workflow_async p true poll_interval timeout).

Definition products (keyword : string) (category : option string)
    (max_results : Z) (min_price max_price min_rating : option float)
    (poll_interval : Z) (poll_timeout : option Z) : io W SearchResult :=
  asyncio_run (products_async keyword category max_results min_price
                 max_price min_rating poll_interval poll_timeout).

Definition reviews_async (product_url : string) (max_reviews : Z)
    (poll_interval : Z) (poll_timeout : option Z) : io W SearchResult :=
  (lift_pure (base_validate_url product_url) ;;;
   let p := [[("url", PStr product_url); ("reviews_count", PInt max_reviews)]] in
   let timeout := int_or poll_timeout MIN_POLL_TIMEOUT in
   lift (_execute_workflow_async p true poll_interval timeout))%io.

Definition reviews (product_url : string) (max_reviews : Z)
    (poll_interval : Z) (poll_timeout : option Z) : io W SearchResult :=
  asyncio_run (reviews_async product_url max_reviews poll_interval poll_timeout).

End Search.

End AmazonScraper.

(** ** [new-sdk/.../scrapers/linkedin/scraper.py]: [LinkedInScraper] *)

(** An HTTP response as the scraper reads it: [response.status], the
    value [await response.json()] parses from the body, and
    [await response.text()]. *)
Record response : Type := Response {
  status : Z;
  json : pyval;
  text : string
}.

(** The session of the engine ([self.engine._session]) and the trigger
    endpoint of the base scraper ([self.TRIGGER_URL]), whose code is not
    among the sources.  [session_post url body params] sends the request
    with the session's own headers and yields the vendor's response. *)
Class Session (W : Type) : Type := {
  TRIGGER_URL : string;
  session_post : string -> payload -> list (string * string) -> W -> response * W
}.

Module LinkedInScraper.
Section LinkedInScraper.
Context {W : Type} `{Session W}.

(** [data.get("snapshot_id")]: only a dict has the method. *)
Definition get_snapshot_id (data : pyval) : outcome pyval :=
  match data with
  | PDict d => Return (dict_get d "snapshot_id")
  | _ => Raise (AttributeError
                  ("'" +:+ type_name data +:+ "' object has no attribute 'get'"))
  end.

(** [f"Trigger failed (HTTP {response.status}): {error_text}"] *)
Definition trigger_failed_message (status : Z) (error_text : string) : string :=
  "Trigger failed (HTTP " +:+ str_of_int status +:+ "): " +:+ error_text.

(** What the method makes of the response. *)
Definition on_response (r : response) : outcome pyval :=
  if status r =? 200 then
    let data := json r in
    get_snapshot_id data
  else
    let error_text := text r in
    Raise (APIError (trigger_failed_message (status r) error_text) (status r)).

Definition _trigger_async_with_dataset (p : payload) (dataset_id : string)
    (include_errors : bool) : io W pyval :=
  let params := [("dataset_id", dataset_id);
                 ("include_errors", str_of_bool_lower include_errors)] in
  (r <- lift (fun s => let '(r, s') := session_post TRIGGER_URL p params s in
                       (Return r, s')) ;;
   lift_pure (on_response r))%io.

End LinkedInScraper.

Definition DATASET_ID : string := "gd_l1oojb10z2jye29kh".
Definition DATASET_ID_COMPANIES : string := "gd_lhkq90okie75oj8mo".
Definition DATASET_ID_JOBS : string := "gd_lj4v2v5oqpp3qb79j".
Definition PLATFORM_NAME : string := "linkedin".
Definition MIN_POLL_TIMEOUT : Z := 300.

(** [if max_results: payload[0]["max_results"] = max_results] *)
Definition add_max_results (max_results : Z) (item : list (string * pyval))
    : list (string * pyval) :=
  if max_results =? 0 then item else item ++ [("max_results", PInt max_results)].

Definition profiles_payload (keyword location company title : option string)
    (max_results : Z) : payload :=
  let item := [] in
  let item := add_if_truthy "keyword" keyword item in
  let item := add_if_truthy "location" location item in
  let item := add_if_truthy "company" company item in
  let item := add_if_truthy "title" title item in
  let item := add_max_results max_results item in
  [item].

Definition companies_payload (keyword location industry : option string)
    (max_results : Z) : payload :=
  let item := [] in
  let item := add_if_truthy "keyword" keyword item in
  let item := add_if_truthy "location" location item in
  let item := add_if_truthy "industry" industry item in
  let item := add_max_results max_results item in
  [item].

Definition jobs_payload (keyword : string)
    (location experience_level job_type : option string) (max_results : Z)
    : payload :=
  let item := [("keyword", PStr keyword); ("max_results", PInt max_results)] in
  let item := add_if_truthy "location" location item in
  let item := add_if_truthy "experience_level" experience_level item in
  let item := add_if_truthy "job_type" job_type item in
  [item].

(** The result returned when the trigger gave no snapshot id. *)
Definition trigger_failure (error : string) : SearchResult :=
  SearchResultOf false "" "error" (Some error) (Some PLATFORM_NAME).

Section Search.
Context {W : Type} `{Collaborators W} `{Session W} `{SearchBase W}.

Definition now : io W datetime :=
  lift (fun s => let '(t, s') := datetime_now s in (Return t, s')).

(** The part the three searches share: inside the engine context, trigger
    on the given dataset, give up when no snapshot id came back, otherwise
    read the clock twice and poll. *)
Definition trigger_and_poll (p : payload) (dataset_id : string)
    (error : string) (poll_interval timeout : Z) : io W SearchResult :=
  async_with_engine
    (snapshot_id <- _trigger_async_with_dataset p dataset_id true ;;
     if negb (truthy snapshot_id) then ret (trigger_failure error)
     else
       snapshot_id_received_at <- now ;;
       request_sent_at <- now ;;
       lift (_poll_and_fetch_async snapshot_id poll_interval timeout
               request_sent_at snapshot_id_received_at))%io.

Definition profiles_async (keyword location company title : option string)
    (max_results poll_interval : Z) (poll_timeout : option Z)
    : io W SearchResult :=
  if negb (existsb opt_truthy [keyword; location; company; title]) then
    raise (ValidationError
      "At least one search parameter required (keyword, location, company, or title)")
  else
    let p := profiles_payload keyword location company title max_results in
    let timeout := int_or poll_timeout MIN_POLL_TIMEOUT in
    trigger_and_poll p DATASET_ID "Failed to trigger profile search"
      poll_interval timeout.

Definition profiles (keyword location company title : option string)
    (max_results poll_interval : Z) (poll_timeout : option Z)
    : io W SearchResult :=
  asyncio_run (profiles_async keyword location company title max_results
                 poll_interval poll_timeout).

Definition companies_async (keyword location industry : option string)
    (max_results poll_interval : Z) (poll_timeout : option Z)
    : io W SearchResult :=
  if negb (existsb opt_truthy [keyword; location; industry]) then
    raise (ValidationError
      "At least one search parameter required (keyword, location, or industry)")
  else
    let p := companies_payload keyword location industry max_results in
    let timeout := int_or poll_timeout MIN_POLL_TIMEOUT in
    trigger_and_poll p DATASET_ID_COMPANIES "Failed to trigger company search"
      poll_interval timeout.

Definition companies (keyword location industry : option string)
    (max_results poll_interval : Z) (poll_timeout : option Z)
    : io W SearchResult :=
  asyncio_run (companies_async keyword location industry max_results
                 poll_interval poll_timeout).

Definition jobs_async (keyword : string)
    (location experience_level job_type : option string)
    (max_results poll_interval : Z) (poll_timeout : option Z)
    : io W SearchResult :=
  if String.eqb keyword "" then
    raise (ValidationError "Keyword required for job search")
  else
    let p := jobs_payload keyword location experience_level job_type
               max_results in
    let timeout := int_or poll_timeout MIN_POLL_TIMEOUT in
    trigger_and_poll p DATASET_ID_JOBS "Failed to trigger job search"
      poll_interval timeout.

Definition jobs (keyword : string)
    (location experience_level job_type : option string)
    (max_results poll_interval : Z) (poll_timeout : option Z)
    : io W SearchResult :=
  asyncio_run (jobs_async keyword location experience_level job_type
                 max_results poll_interval poll_timeout).

End Search.
End LinkedInScraper.

(** ** [brightdata/scrapers/tiktok/search.py]: [TikTokSearchScraper] *)

(** [self.workflow_executor.execute] as the discovery methods call it:
    with the extra query parameters and without a normalizer. *)
Class Discovery (W : Type) : Type := {
  workflow_execute_discovery :
    payload -> string -> Z -> Z -> bool -> option string ->
    list (string * string) -> W -> outcome ScrapeResult * W
}.

(** [if x is not None: item[key] = x] for an [Optional[int]]. *)
Definition add_if_not_none_int (key : string) (x : option Z)
    (item : list (string * pyval)) : list (string * pyval) :=
  match x with
  | Some n => item ++ [(key, PInt n)]
  | None => item
  end.

(** [if x: item[key] = x] for an [Optional[List[str]]]. *)
Definition add_if_nonempty (key : string) (x : option (list string))
    (item : list (string * pyval)) : list (string * pyval) :=
  match x with
  | Some (y :: l) => item ++ [(key, PList (map PStr (y :: l)))]
  | _ => item
  end.

Module TikTokSearchScraper.

Definition DATASET_ID_PROFILES : string := "gd_l1villgoiiidt09ci".
Definition DATASET_ID_POSTS : string := "gd_lu702nij2f790tmv9h".
Definition PLATFORM_NAME : string := "tiktok".

Section Init.
Variable AsyncEngine : Type.
(** [AsyncEngine(self.bearer_token)] *)
Variable AsyncEngine_new : string -> AsyncEngine.
(** [os.getenv] *)
Variable getenv : string -> option string.

Record t : Type := Scraper {
  bearer_token : string;
  engine : AsyncEngine
}.

Definition token_required : string :=
  "Bearer token required for TikTok search. " +:+
  "Provide bearer_token parameter or set BRIGHTDATA_API_TOKEN environment variable.".

Definition __init__ (bearer_token_arg : option string)
    (engine_arg : option AsyncEngine) : outcome t :=
  let token := if opt_truthy bearer_token_arg then bearer_token_arg
               else getenv "BRIGHTDATA_API_TOKEN" in
  match token with
  | Some tok =>
      if String.eqb tok "" then Raise (ValidationError token_required)
      else Return (Scraper tok (match engine_arg with
                                | Some e => e
                                | None => AsyncEngine_new tok
                                end))
  | None => Raise (ValidationError token_required)
  end.

End Init.

Section TikTokSearchScraper.
Context {W : Type} `{Collaborators W} `{Discovery W}.

Definition _execute_discovery (p : payload) (dataset_id discover_by : string)
    (timeout : Z) : io W ScrapeResult :=
  let sdk_function := get_caller_function_name in
  let extra_params := [("type", "discover_new"); ("discover_by", discover_by)] in
  (emit (EvExecute p dataset_id) ;;;
   lift (workflow_execute_discovery p dataset_id DEFAULT_POLL_INTERVAL timeout
           true sdk_function extra_params))%io.

Definition _normalize_param (param : pyval) (target_length : Z)
    (default_value : pyval) : list pyval :=
  if is_none param then list_mul default_value target_length
  else if isinstance_str_bool_int param then list_mul param target_length
  else match param with
       | PList l =>
           if len l <? target_length then
             let last_val := if truthy param then List.last l PNone
                             else default_value in
             l ++ list_mul last_val (target_length - len l)
           else slice_to l target_length
       | _ => list_mul default_value target_length
       end.

Definition profiles_payload (search_url : str_or_list string) (country : pyval)
    : payload :=
  let urls := TikTokScraper.url_list_of search_url in
  let batch_size := len urls in
  let countries := _normalize_param country batch_size (PStr "") in
  map (fun i => [("search_url", PStr (nth i urls ""));
                 ("country", nth i countries PNone)])
      (seq 0 (Z.to_nat batch_size)).

Definition profiles (search_url : str_or_list string) (country : pyval)
    (timeout : Z) : io W ScrapeResult :=
  _execute_discovery (profiles_payload search_url country) DATASET_ID_PROFILES
    "search_url" timeout.

Definition profiles_sync (search_url : str_or_list string) (country : pyval)
    (timeout : Z) : io W ScrapeResult :=
  let _run := async_with_engine (profiles search_url country timeout) in
  asyncio_run _run.

Definition posts_by_keyword_payload (keyword : str_or_list string)
    (num_of_posts : option Z) (posts_to_not_include : option (list string))
    (country : pyval) : payload :=
  let keywords := TikTokScraper.url_list_of keyword in
  let batch_size := len keywords in
  let countries := _normalize_param country batch_size (PStr "") in
  map (fun i =>
         let item := [("search_keyword", PStr (nth i keywords ""));
                      ("country", nth i countries PNone)] in
         let item := add_if_not_none_int "num_of_posts" num_of_posts item in
         add_if_nonempty "posts_to_not_include" posts_to_not_include item)
      (seq 0 (Z.to_nat batch_size)).

Definition posts_by_keyword (keyword : str_or_list string)
    (num_of_posts : option Z) (posts_to_not_include : option (list string))
    (country : pyval) (timeout : Z) : io W ScrapeResult :=
  _execute_discovery
    (posts_by_keyword_payload keyword num_of_posts posts_to_not_include country)
    DATASET_ID_POSTS "keyword" timeout.

Definition posts_by_keyword_sync (keyword : str_or_list string)
    (num_of_posts : option Z) (posts_to_not_include : option (list string))
    (country : pyval) (timeout : Z) : io W ScrapeResult :=
  let _run := async_with_engine
                (posts_by_keyword keyword num_of_posts posts_to_not_include
                   country timeout) in
  asyncio_run _run.

Definition posts_by_profile_item (num_of_posts : option Z)
    (posts_to_not_include : option (list string))
    (what_to_collect start_date end_date post_type country sort_by : option string)
    (u : string) : list (string * pyval) :=
  let item := [("url", PStr u)] in
  let item := add_if_not_none_int "num_of_posts" num_of_posts item in
  let item := add_if_nonempty "posts_to_not_include" posts_to_not_include item in
  let item := add_if_truthy "what_to_collect" what_to_collect item in
  let item := add_if_truthy "start_date" start_date item in
  let item := add_if_truthy "end_date" end_date item in
  let item := add_if_truthy "post_type" post_type item in
  let item := add_if_truthy "country" country item in
  add_if_truthy "sort_by" sort_by item.

Definition posts_by_profile (url : str_or_list string) (num_of_posts : option Z)
    (posts_to_not_include : option (list string))
    (what_to_collect start_date end_date post_type country sort_by : option string)
    (timeout : Z) : io W ScrapeResult :=
  let urls := TikTokScraper.url_list_of url in
  let p := map (posts_by_profile_item num_of_posts posts_to_not_include
                  what_to_collect start_date end_date post_type country sort_by)
               urls in
  _execute_discovery p DATASET_ID_POSTS "profile_url" timeout.

Definition posts_by_profile_sync (url : str_or_list string)
    (num_of_posts : option Z) (posts_to_not_include : option (list string))
    (what_to_collect start_date end_date post_type country sort_by : option string)
    (timeout : Z) : io W ScrapeResult :=
  let _run := async_with_engine
                (posts_by_profile url num_of_posts posts_to_not_include
                   what_to_collect start_date end_date post_type country
                   sort_by timeout) in
  asyncio_run _run.

Definition posts_by_url (url : str_or_list string) (timeout : Z)
    : io W ScrapeResult :=
  let urls := TikTokScraper.url_list_of url in
  let p := map (fun u => [("URL", PStr u)]) urls in
  _execute_discovery p DATASET_ID_POSTS "url" timeout.

Definition posts_by_url_sync (url : str_or_list string) (timeout : Z)
    : io W ScrapeResult :=
  let _run := async_with_engine (posts_by_url url timeout) in
  asyncio_run _run.

End TikTokSearchScraper.
End TikTokSearchScraper.

(** ** [brightdata/scrapers/youtube/scraper.py]: [YouTubeScraper] *)

Module YouTubeScraper.
Section YouTubeScraper.
Context {W : Type} `{Collaborators W}.

Definition DATASET_ID_VIDEOS : string := "gd_lk56epmy2i5g7lzu0k".
Definition DATASET_ID_CHANNELS : string := "gd_lk538t2k2p1k3oos71".
Definition DATASET_ID_COMMENTS : string := "gd_lk9q0ew71spt1mxywf".
Definition PLATFORM_NAME : string := "youtube".

(** [self.normalize_result], inherited from the base scraper. *)
Definition normalize_result : pyval -> pyval := base_normalize_result.

(** [validate_url(url)] for a string, [validate_url_list(url)] otherwise. *)
Definition validate (url : str_or_list string) : io W unit :=
  match url with
  | OneStr u => lift_pure (validate_url u)
  | ManyOf l => lift_pure (validate_url_list l)
  end.

(** The end of the three collection methods: a single URL whose data is a
    list of one item gets the URL and that item; every other result is
    returned as it came. *)
Definition unwrap_single (url : str_or_list string) (result : ScrapeResult)
    : ScrapeResult :=
  if TikTokScraper.is_single url && isinstance_list (data result)
     && (len (TikTokScraper.items_of (data result)) =? 1)
  then set_data (TikTokScraper.item0 (TikTokScraper.items_of (data result)))
         (set_url (TikTokScraper.first_url url) result)
  else result.

Definition videos_payload (url : str_or_list string)
    (country transcription_language : option string) : payload :=
  map (fun u =>
         let item := [("url", PStr u); ("country", PStr (or_empty country))] in
         add_if_truthy "transcription_language" transcription_language item)
      (TikTokScraper.url_list_of url).

Definition videos (url : str_or_list string)
    (country transcription_language : option string) (timeout : Z)
    : io W ScrapeResult :=
  (validate url ;;;
   let sdk_function := get_caller_function_name in
   result <- call_execute (videos_payload url country transcription_language)
               DATASET_ID_VIDEOS DEFAULT_POLL_INTERVAL timeout true sdk_function
               normalize_result ;;
   ret (unwrap_single url result))%io.

Definition videos_sync (url : str_or_list string)
    (country transcription_language : option string) (timeout : Z)
    : io W ScrapeResult :=
  let _run := async_with_engine
                (videos url country transcription_language timeout) in
  asyncio_run _run.

Definition channels (url : str_or_list string) (timeout : Z)
    : io W ScrapeResult :=
  (validate url ;;;
   let p := map (fun u => [("url", PStr u)]) (TikTokScraper.url_list_of url) in
   let sdk_function := get_caller_function_name in
   result <- call_execute p DATASET_ID_CHANNELS DEFAULT_POLL_INTERVAL timeout
               true sdk_function normalize_result ;;
   ret (unwrap_single url result))%io.

Definition channels_sync (url : str_or_list string) (timeout : Z)
    : io W ScrapeResult :=
  let _run := async_with_engine (channels url timeout) in
  asyncio_run _run.

Definition comments_payload (url : str_or_list string)
    (num_of_comments : option Z) (load_replies : option bool)
    (sort_by : option string) : payload :=
  map (fun u =>
         let item := [("url", PStr u)] in
         let item := add_if_not_none_int "num_of_comments" num_of_comments item in
         let item := match load_replies with
                     | Some b => item ++ [("load_replies", PBool b)]
                     | None => item
                     end in
         add_if_truthy "sort_by" sort_by item)
      (TikTokScraper.url_list_of url).

Definition comments (url : str_or_list string) (num_of_comments : option Z)
    (load_replies : option bool) (sort_by : option string) (timeout : Z)
    : io W ScrapeResult :=
  (validate url ;;;
   let sdk_function := get_caller_function_name in
   result <- call_execute
               (comments_payload url num_of_comments load_replies sort_by)
               DATASET_ID_COMMENTS DEFAULT_POLL_INTERVAL timeout true
               sdk_function normalize_result ;;
   ret (unwrap_single url result))%io.

Definition comments_sync (url : str_or_list string) (num_of_comments : option Z)
    (load_replies : option bool) (sort_by : option string) (timeout : Z)
    : io W ScrapeResult :=
  let _run := async_with_engine
                (comments url num_of_comments load_replies sort_by timeout) in
  asyncio_run _run.

End YouTubeScraper.
End YouTubeScraper.

(** ** [brightdata/api/scrape_service.py]: [ScrapeService] *)

Module ScrapeService.
Section ScrapeService.
(** The scraper objects, the engine, and what constructing a scraper may
    touch; [new_scraper cls token engine] is [cls(bearer_token=token,
    engine=engine)] for the scraper class named [cls], whose constructors
    are not all among the sources. *)
Variable Scraper Engine Heap : Type.
Variable new_scraper : string -> string -> Engine -> Heap -> outcome Scraper * Heap.

Record client : Type := Client {
  token : string;
  engine : Engine
}.

Record t : Type := Service {
  _client : client;
  _amazon : option Scraper;
  _linkedin : option Scraper;
  _chatgpt : option Scraper;
  _facebook : option Scraper;
  _instagram : option Scraper;
  _perplexity : option Scraper;
  _tiktok : option Scraper;
  _youtube : option Scraper
}.

Definition __init__ (c : client) : t :=
  Service c None None None None None None None None.

Definition amazon (self : t) (h : Heap) : outcome Scraper * t * Heap :=
  match _amazon self with
  | None =>
      match new_scraper "AmazonScraper" (token (_client self)) (engine (_client self)) h with
      | (Return s, h') =>
          (Return s, Service (_client self) (Some s) (_linkedin self) (_chatgpt self) (_facebook self) (_instagram self) (_perplexity self) (_tiktok self) (_youtube self), h')
      | (Raise e, h') => (Raise e, self, h')
      end
  | Some s => (Return s, self, h)
  end.

Definition linkedin (self : t) (h : Heap) : outcome Scraper * t * Heap :=
  match _linkedin self with
  | None =>
      match new_scraper "LinkedInScraper" (token (_client self)) (engine (_client self)) h with
      | (Return s, h') =>
          (Return s, Service (_client self) (_amazon self) (Some s) (_chatgpt self) (_facebook self) (_instagram self) (_perplexity self) (_tiktok self) (_youtube self), h')
      | (Raise e, h') => (Raise e, self, h')
      end
  | Some s => (Return s, self, h)
  end.

Definition chatgpt (self : t) (h : Heap) : outcome Scraper * t * Heap :=
  match _chatgpt self with
  | None =>
      match new_scraper "ChatGPTScraper" (token (_client self)) (engine (_client self)) h with
      | (Return s, h') =>
          (Return s, Service (_client self) (_amazon self) (_linkedin self) (Some s) (_facebook self) (_instagram self) (_perplexity self) (_tiktok self) (_youtube self), h')
      | (Raise e, h') => (Raise e, self, h')
      end
  | Some s => (Return s, self, h)
  end.

Definition facebook (self : t) (h : Heap) : outcome Scraper * t * Heap :=
  match _facebook self with
  | None =>
      match new_scraper "FacebookScraper" (token (_client self)) (engine (_client self)) h with
      | (Return s, h') =>
          (Return s, Service (_client self) (_amazon self) (_linkedin self) (_chatgpt self) (Some s) (_instagram self) (_perplexity self) (_tiktok self) (_youtube self), h')
      | (Raise e, h') => (Raise e, self, h')
      end
  | Some s => (Return s, self, h)
  end.

Definition instagram (self : t) (h : Heap) : outcome Scraper * t * Heap :=
  match _instagram self with
  | None =>
      match new_scraper "InstagramScraper" (token (_client self)) (engine (_client self)) h with
      | (Return s, h') =>
          (Return s, Service (_client self) (_amazon self) (_linkedin self) (_chatgpt self) (_facebook self) (Some s) (_perplexity self) (_tiktok self) (_youtube self), h')
      | (Raise e, h') => (Raise e, self, h')
      end
  | Some s => (Return s, self, h)
  end.

Definition perplexity (self : t) (h : Heap) : outcome Scraper * t * Heap :=
  match _perplexity self with
  | None =>
      match new_scraper "PerplexityScraper" (token (_client self)) (engine (_client self)) h with
      | (Return s, h') =>
          (Return s, Service (_client self) (_amazon self) (_linkedin self) (_chatgpt self) (_facebook self) (_instagram self) (Some s) (_tiktok self) (_youtube self), h')
      | (Raise e, h') => (Raise e, self, h')
      end
  | Some s => (Return s, self, h)
  end.

Definition tiktok (self : t) (h : Heap) : outcome Scraper * t * Heap :=
  match _tiktok self with
  | None =>
      match new_scraper "TikTokScraper" (token (_client self)) (engine (_client self)) h with
      | (Return s, h') =>
          (Return s, Service (_client self) (_amazon self) (_linkedin self) (_chatgpt self) (_facebook self) (_instagram self) (_perplexity self) (Some s) (_youtube self), h')
      | (Raise e, h') => (Raise e, self, h')
      end
  | Some s => (Return s, self, h)
  end.

Definition youtube (self : t) (h : Heap) : outcome Scraper * t * Heap :=
  match _youtube self with
  | None =>
      match new_scraper "YouTubeScraper" (token (_client self)) (engine (_client self)) h with
      | (Return s, h') =>
          (Return s, Service (_client self) (_amazon self) (_linkedin self) (_chatgpt self) (_facebook self) (_instagram self) (_perplexity self) (_tiktok self) (Some s), h')
      | (Raise e, h') => (Raise e, self, h')
      end
  | Some s => (Return s, self, h)
  end.

End ScrapeService.
End ScrapeService.

(** ** [brightdata/scrapers/amazon/schemas.py]: [AmazonProductResult] *)

Module AmazonProductResult.

(** The fields of the dataclass, in declaration order. *)
Definition field_names : list string :=
  ["title"; "brand"; "description"; "manufacturer"; "department";
   "model_number"; "asin"; "parent_asin"; "upc"; "url"; "domain";
   "image_url"; "image"; "seller_url"; "store_url"; "currency";
   "final_price_high"; "prices_breakdown"; "other_sellers_prices";
   "coupon"; "coupon_description"; "rating"; "reviews_count"; "top_review";
   "customer_says"; "customers_say"; "answered_questions"; "seller_name";
   "seller_id"; "number_of_sellers"; "ships_from"; "buybox_seller_rating";
   "inactive_buy_box"; "categories"; "root_bs_category"; "bs_category";
   "root_bs_rank"; "bs_rank"; "subcategory_rank"; "features";
   "product_details"; "product_description"; "product_dimensions";
   "item_weight"; "country_of_origin"; "date_first_available"; "language";
   "images"; "images_count"; "video"; "videos"; "video_count";
   "downloadable_videos"; "is_available"; "max_quantity_available";
   "amazon_choice"; "amazon_prime"; "badge"; "all_badges"; "premium_brand";
   "climate_pledge_friendly"; "plus_content"; "from_the_brand";
   "editorial_reviews"; "about_the_author"; "sustainability_features";
   "return_policy"; "variations_values"; "zipcode"; "city"; "sponsored";
   "sponsered"; "timestamp"; "input"].

(** An instance: the value of every field, in declaration order (what
    [dataclasses.fields] and [getattr] enumerate). *)
Record t : Type := Instance {
  attrs : list (string * pyval)
}.

(** The generated [__init__]: every field takes its keyword argument or
    the default [None]; a keyword that names no field is a [TypeError]. *)
Definition init (kwargs : gmap string pyval) : outcome t :=
  if decide (map_Forall (fun k _ => k ∈ field_names) kwargs)
  then Return (Instance (map (fun f => (f, default PNone (kwargs !! f)))
                           field_names))
  else Raise (TypeError "__init__() got an unexpected keyword argument").

(** [{k: v for k, v in data.items() if k in field_names}] *)
Definition filtered_data (data : gmap string pyval) : gmap string pyval :=
  filter (fun kv => kv.1 ∈ field_names) data.

Definition from_dict (data : gmap string pyval) : outcome t :=
  init (filtered_data data).

(** The copy [dataclasses.asdict] makes of a field value: lists and dicts
    are rebuilt item by item, other values are copied. *)
Fixpoint asdict_inner (v : pyval) : pyval :=
  match v with
  | PList l => PList (map asdict_inner l)
  | PDict d => PDict (map (fun kv => (kv.1, asdict_inner kv.2)) d)
  | _ => v
  end.

(** [asdict(self).items()] *)
Definition asdict (self : t) : list (string * pyval) :=
  map (fun kv => (kv.1, asdict_inner kv.2)) (attrs self).

(** A dict display or comprehension over [items]: of two items with the
    same key the later one stays. *)
Definition dict_of_items (items : list (string * pyval)) : gmap string pyval :=
  list_to_map (reverse items).

(** [{k: v for k, v in asdict(self).items() if v is not None}] *)
Definition to_dict (self : t) : gmap string pyval :=
  dict_of_items (filter (fun kv => is_none kv.2 = false) (asdict self)).

End AmazonProductResult.

(** ** The shared workflow executor *)

Module WorkflowExecutor.

(** The three calls of the vendor API, and what the executor does between
    them. *)
Inductive request : Type :=
| Trigger (p : payload) (dataset_id : string)
| Status (snapshot_id : string)
| Fetch (snapshot_id : string).

Inductive step : Type :=
| Sent (r : request)
| Slept (seconds : Z).

(** Modelled from the spec: the remote service behind the trigger, status
    and fetch endpoints, which the repository does not own.  A job has the
    snapshot id the trigger request answers with, a status that depends on
    the time since the trigger only, and the data a fetch returns.  Time
    is logical: [now] counts the seconds slept, and a request takes none. *)
Record remote : Type := Remote {
  now : Z;
  trace : list step;
  job_snapshot_id : string;
  job_status : Z -> string;
  job_result : pyval
}.

Definition record_step (s : step) (r : remote) : remote :=
  Remote (now r) (trace r ++ [s]) (job_snapshot_id r) (job_status r) (job_result r).

Definition trigger (p : payload) (dataset_id : string) (r : remote)
    : string * remote :=
  (job_snapshot_id r, record_step (Sent (Trigger p dataset_id)) r).

Definition check_status (snapshot_id : string) (r : remote) : string * remote :=
  (job_status r (now r), record_step (Sent (Status snapshot_id)) r).

Definition fetch (snapshot_id : string) (r : remote) : pyval * remote :=
  (job_result r, record_step (Sent (Fetch snapshot_id)) r).

(** [await asyncio.sleep(seconds)] *)
Definition sleep (seconds : Z) (r : remote) : remote :=
  record_step (Slept seconds)
    (Remote (now r + seconds) (trace r) (job_snapshot_id r) (job_status r)
       (job_result r)).

(** Modelled from the spec: the polling loop of the shared workflow
    executor ([WorkflowExecutor.execute], not among the sources), which
    the spec describes as a thin loop: re-check the status, fetch once it
    is ready and normalize, sleep [poll_interval] seconds otherwise, and
    give up with a timeout error once more than [poll_timeout] seconds
    have been slept.  [fuel] bounds the number of status checks; [None]
    means it ran out. *)
Fixpoint poll (fuel : nat) (snapshot_id : string) (poll_interval poll_timeout : Z)
    (normalize_func : pyval -> pyval) (elapsed : Z) (r : remote)
    : option (outcome pyval * remote) :=
  match fuel with
  | O => None
  | S fuel' =>
      if poll_timeout <? elapsed
      then Some (Raise (TimeoutError "Polling timed out"), r)
      else
        let '(job_state, r1) := check_status snapshot_id r in
        if String.eqb job_state "ready"
        then let '(raw, r2) := fetch snapshot_id r1 in
             Some (Return (normalize_func raw), r2)
        else poll fuel' snapshot_id poll_interval poll_timeout normalize_func
               (elapsed + poll_interval) (sleep poll_interval r1)
  end.

(** Modelled from the spec: [WorkflowExecutor.execute], the trigger
    request followed by the polling loop. *)
Definition execute (fuel : nat) (p : payload) (dataset_id : string)
    (poll_interval poll_timeout : Z) (normalize_func : pyval -> pyval)
    (r : remote) : option (outcome pyval * remote) :=
  let '(snapshot_id, r1) := trigger p dataset_id r in
  poll fuel snapshot_id poll_interval poll_timeout normalize_func 0 r1.

(** The requests of a trace that are triggers, and those that are fetches. *)
Definition is_trigger (s : step) : bool :=
  match s with Sent (Trigger _ _) => true | _ => false end.

Definition is_fetch (s : step) : bool :=
  match s with Sent (Fetch _) => true | _ => false end.

Definition count_steps (f : step -> bool) (tr : list step) : nat :=
  length (filter (fun s => f s = true) tr).

(** [k] rounds of "check the status, sleep". *)
Fixpoint rounds (k : nat) (snapshot_id : string) (poll_interval : Z) : list step :=
  match k with
  | O => []
  | S k' => Sent (Status snapshot_id) :: Slept poll_interval
            :: rounds k' snapshot_id poll_interval
  end.

(** The job is ready at the [j]-th status check after the trigger. *)
Definition ready_at_check (r : remote) (poll_interval : Z) (j : nat) : bool :=
  String.eqb (job_status r (now r + Z.of_nat j * poll_interval)) "ready".

(** The remote after [k] rounds of checking and sleeping. *)
Definition after_rounds (r : remote) (k : nat) (sid : string) (i : Z)
    (last : list step) : remote :=
  Remote (now r + Z.of_nat k * i) (trace r ++ rounds k sid i ++ last)
    (job_snapshot_id r) (job_status r) (job_result r).

(** A job that turns ready twenty seconds after the trigger. *)
Definition slow_job : remote :=
  Remote 0 [] "s_1a2b3c"
    (fun t => if t <? 20 then "running" else "ready")
    (PList [PDict [("answer_html", PStr "<p>42</p>")]]).

(** A job that is ready at once. *)
Definition ready_job : remote :=
  Remote 0 [] "s_9z8y7x" (fun _ => "ready") (PList [PInt 1; PInt 2; PInt 3]).

End WorkflowExecutor.

(** ** Vocabulary of the properties *)

(** The value a coroutine produces, and the collaborator state it leaves,
    depend on the collaborator state it starts from and on nothing else
    of the world (not on the call record, not on the loop flag). *)
Definition sees_only_st {W A} (m : io W A) : Prop :=
  forall w1 w2 : world W,
    st w1 = st w2 ->
    fst (m w1) = fst (m w2) /\ st (snd (m w1)) = st (snd (m w2)).

(** A coroutine that records no call of its own. *)
Definition silent {W A} (m : io W A) : Prop :=
  forall w : world W, events (snd (m w)) = events w.

(** The workflow executions among the recorded calls. *)
Definition executions (evs : list event) : list payload :=
  omap (fun e => match e with EvExecute p _ => Some p | _ => None end) evs.

(** An outcome other than a [ValidationError]. *)
Definition not_validation_error {A} (o : outcome A) : Prop :=
  match o with
  | Raise (ValidationError _) => False
  | _ => True
  end.

(** A country that the payload loop of [PerplexityScraper] can handle:
    one it skips (falsy) or one that has [upper] (a str). *)
Definition country_ok (c : pyval) : bool :=
  negb (truthy c) || isinstance_str c.

(** What a search of the LinkedIn scraper does once its arguments are
    accepted, said of the coroutine [run] for the payload, the dataset,
    the failure message and the poll settings it uses: the engine is
    entered, the trigger request is posted once, and
    - a response other than 200 is raised as an [APIError];
    - a response without a (truthy) snapshot id gives the failure result,
      with no poll;
    - otherwise the clock is read twice and the poll is awaited with the
      snapshot id, the second reading as [request_sent_at] and the first
      as [snapshot_id_received_at], and its outcome is the outcome;
    in each case the engine is left, and entry and exit are the only calls
    on record. *)
Section SearchContract.
Context {W : Type} `{Collaborators W} `{Session W} `{SearchBase W}.

Definition search_contract (run : io W SearchResult) (p : payload)
    (ds error : string) (poll_interval timeout : Z) : Prop :=
  forall w : world W,
    let posted := session_post TRIGGER_URL p
                    [("dataset_id", ds); ("include_errors", "true")]
                    (engine_aenter (st w)) in
    let r := fst posted in
    let left s := World (loop_running w)
                    (events w ++ [EvEngineEnter; EvEngineExit])
                    (engine_aexit s) in
    (status r <> 200 ->
     run w = (Raise (APIError
                       (LinkedInScraper.trigger_failed_message (status r) (text r))
                       (status r)),
              left (snd posted))) /\
    (forall d, status r = 200 -> json r = PDict d ->
       truthy (dict_get d "snapshot_id") = false ->
       run w = (Return (LinkedInScraper.trigger_failure error),
                left (snd posted))) /\
    (forall d, status r = 200 -> json r = PDict d ->
       truthy (dict_get d "snapshot_id") = true ->
       let t1 := datetime_now (snd posted) in
       let t2 := datetime_now (snd t1) in
       let polled := _poll_and_fetch_async (dict_get d "snapshot_id")
                       poll_interval timeout (fst t2) (fst t1) (snd t2) in
       run w = (fst polled, left (snd polled))).

(** A search that constrains a value of the response: a 200 response
    whose JSON object has the field [snapshot_id], holding a falsy value
    (an empty string, 0, [None], an empty list), is answered with the
    failure result; the poll is not reached, the engine is left. *)
Definition refuses_falsy_snapshot_id (run : io W SearchResult) (p : payload)
    (ds error : string) : Prop :=
  forall (w : world W) (d : list (string * pyval)) (v : pyval),
    let posted := session_post TRIGGER_URL p
                    [("dataset_id", ds); ("include_errors", "true")]
                    (engine_aenter (st w)) in
    status (fst posted) = 200 -> json (fst posted) = PDict d ->
    NoDup d.*1 -> ("snapshot_id", v) ∈ d -> truthy v = false ->
    run w = (Return (LinkedInScraper.trigger_failure error),
             World (loop_running w)
               (events w ++ [EvEngineEnter; EvEngineExit])
               (engine_aexit (snd posted))).

End SearchContract.

(** [key in item] for a payload item. *)
Definition has_key (item : list (string * pyval)) (key : string) : bool :=
  existsb (String.eqb key) (map fst item).

(** [x is not None] for an optional argument. *)
Definition is_given {A} (x : option A) : bool :=
  match x with Some _ => true | None => false end.

(** What an optional string argument puts under its key: the string
    when it is given and not empty; otherwise the key is left out, and
    [.get] gives [None]. *)
Definition sent (x : option string) : pyval :=
  match x with
  | Some s => if String.eqb s "" then PNone else PStr s
  | None => PNone
  end.

(** The scraper properties of [ScrapeService], by name: reading one
    ([getattr(service, name)]), the slot that caches it, the class it is
    built from, and reading several one after the other, whatever each
    read gives. *)
Inductive scraper_name : Type :=
  | Amazon | LinkedIn | ChatGPT | Facebook | Instagram | Perplexity | TikTok
  | YouTube.

Section ServiceVocabulary.
Variable Scraper Engine Heap : Type.
Variable new_scraper : string -> string -> Engine -> Heap -> outcome Scraper * Heap.

Definition access (name : scraper_name)
    : ScrapeService.t Scraper Engine -> Heap ->
      outcome Scraper * ScrapeService.t Scraper Engine * Heap :=
  match name with
  | Amazon => ScrapeService.amazon Scraper Engine Heap new_scraper
  | LinkedIn => ScrapeService.linkedin Scraper Engine Heap new_scraper
  | ChatGPT => ScrapeService.chatgpt Scraper Engine Heap new_scraper
  | Facebook => ScrapeService.facebook Scraper Engine Heap new_scraper
  | Instagram => ScrapeService.instagram Scraper Engine Heap new_scraper
  | Perplexity => ScrapeService.perplexity Scraper Engine Heap new_scraper
  | TikTok => ScrapeService.tiktok Scraper Engine Heap new_scraper
  | YouTube => ScrapeService.youtube Scraper Engine Heap new_scraper
  end.

Definition slot (name : scraper_name) (self : ScrapeService.t Scraper Engine)
    : option Scraper :=
  match name with
  | Amazon => ScrapeService._amazon Scraper Engine self
  | LinkedIn => ScrapeService._linkedin Scraper Engine self
  | ChatGPT => ScrapeService._chatgpt Scraper Engine self
  | Facebook => ScrapeService._facebook Scraper Engine self
  | Instagram => ScrapeService._instagram Scraper Engine self
  | Perplexity => ScrapeService._perplexity Scraper Engine self
  | TikTok => ScrapeService._tiktok Scraper Engine self
  | YouTube => ScrapeService._youtube Scraper Engine self
  end.

Definition class_of (name : scraper_name) : string :=
  match name with
  | Amazon => "AmazonScraper"
  | LinkedIn => "LinkedInScraper"
  | ChatGPT => "ChatGPTScraper"
  | Facebook => "FacebookScraper"
  | Instagram => "InstagramScraper"
  | Perplexity => "PerplexityScraper"
  | TikTok => "TikTokScraper"
  | YouTube => "YouTubeScraper"
  end.

Fixpoint accesses (names : list scraper_name)
    (self : ScrapeService.t Scraper Engine) (h : Heap)
    : ScrapeService.t Scraper Engine * Heap :=
  match names with
  | [] => (self, h)
  | name :: names' =>
      let '(_, self', h') := access name self h in accesses names' self' h'
  end.

End ServiceVocabulary.

(** A recorded call that is a workflow execution. *)
Definition is_execute (e : event) : bool :=
  match e with EvExecute _ _ => true | _ => false end.

(** A coroutine that records workflow executions and nothing else, after
    what is on record already. *)
Definition only_executes {W A} (m : io W A) : Prop :=
  forall w : world W,
    exists mid, events (snd (m w)) = events w ++ mid /\
                forallb is_execute mid = true.

(** A sync wrapper that brackets its coroutine with the engine: called
    with no event loop running it starts a loop, enters the engine, leaves
    it after the coroutine (whatever the coroutine came to) and stops the
    loop; called inside a running loop it raises the [RuntimeError] of
    [asyncio.run] and the engine is not entered. *)
Definition brackets_engine {W A} (m : io W A) : Prop :=
  forall w : world W,
    (loop_running w = false ->
     loop_running (snd (m w)) = false /\
     exists mid,
       events (snd (m w))
       = events w ++ [EvAsyncioRun; EvEngineEnter] ++ mid ++ [EvEngineExit] /\
       forallb is_execute mid = true) /\
    (loop_running w = true ->
     m w = (Raise (RuntimeError
                     "asyncio.run() cannot be called from a running event loop"),
            log_event EvAsyncioRun w)).

(** ** Test doubles *)

(** A request needs the session of the engine to be open. *)
Definition needs_session {A} (a : A) (session_open : bool)
    : outcome A * bool :=
  if session_open then (Return a, session_open)
  else (Raise (RuntimeError "Engine not initialized. Use async context manager."),
        session_open).

(** An engine whose session exists between [__aenter__] and [__aexit__]
    only, and a remote that answers every request made through an open
    session with canned data.  It stands in for the collaborators where a
    property is run on concrete input. *)
Definition fixture (canned : ScrapeResult) : Collaborators bool := {|
  engine_aenter := fun _ => true;
  engine_aexit := fun _ => false;
  workflow_execute := fun _ _ _ _ _ _ normalize_func =>
    needs_session (set_data (normalize_func (data canned)) canned);
  api_client_trigger := fun _ _ => needs_session "s_1a2b3c";
  _check_status_async := fun _ => needs_session "ready";
  _fetch_results_async := fun _ => needs_session (data canned);
  base_normalize_result := fun v => v;
  get_caller_function_name := None;
  validate_url := fun _ => Return tt;
  validate_url_list := fun _ => Return tt;
  DEFAULT_POLL_INTERVAL := 10;
  DEFAULT_TIMEOUT_SHORT := 180;
  DEFAULT_TIMEOUT_MEDIUM := 240;
  COST_PER_RECORD_TIKTOK := 0.0009765625%float;
  COST_PER_RECORD_PERPLEXITY := 0.00390625%float
|}.

(** A workflow result with two data items and a total cost of 0.5. *)
Definition canned_result : ScrapeResult :=
  SR true (PList [PDict [("id", PInt 1)]; PDict [("id", PInt 2)]]) ""
     (Some "tiktok") (Some "web_scraper") (Some 1000) (Some 2000) [3000; 4000]
     (Some 5000) (Some "s_1a2b3c") (Some 0.5%float).

(** A synchronous caller: no event loop runs, the session is closed. *)
Definition sync_caller : world bool := World false [] false.

(** A caller inside a coroutine: an event loop runs. *)
Definition async_caller : world bool := World true [] true.

(** A vendor that answers every request with the same response. *)
Definition answering (r : response) : Session unit := {|
  TRIGGER_URL := "https://api.brightdata.com/datasets/v3/trigger";
  session_post := fun _ _ _ s => (r, s)
|}.

(** A product with two known fields. *)
Definition laptop : gmap string pyval :=
  {[ "title" := PStr "Laptop"; "rating" := PFloat 4.5 ]}.

(** Validators that refuse the empty URL, and the fixture with them. *)
Definition refuse_empty (u : string) : outcome unit :=
  if String.eqb u "" then Raise (ValidationError "URL cannot be empty")
  else Return tt.

Definition strict_fixture (canned : ScrapeResult) : Collaborators bool := {|
  engine_aenter := fun _ => true;
  engine_aexit := fun _ => false;
  workflow_execute := fun _ _ _ _ _ _ normalize_func =>
    needs_session (set_data (normalize_func (data canned)) canned);
  api_client_trigger := fun _ _ => needs_session "s_1a2b3c";
  _check_status_async := fun _ => needs_session "ready";
  _fetch_results_async := fun _ => needs_session (data canned);
  base_normalize_result := fun v => v;
  get_caller_function_name := None;
  validate_url := refuse_empty;
  validate_url_list := fun l =>
    obind (for_each refuse_empty l) (fun _ => Return tt);
  DEFAULT_POLL_INTERVAL := 10;
  DEFAULT_TIMEOUT_SHORT := 180;
  DEFAULT_TIMEOUT_MEDIUM := 240;
  COST_PER_RECORD_TIKTOK := 0.0009765625%float;
  COST_PER_RECORD_PERPLEXITY := 0.00390625%float
|}.

(** A vendor that answers every request with the same response, for the
    engine of [fixture]. *)
Definition vendor (r : response) : Session bool := {|
  TRIGGER_URL := "https://api.brightdata.com/datasets/v3/trigger";
  session_post := fun _ _ _ s => (r, s)
|}.

(** A base scraper whose poll and workflow need the open session and
    answer with canned data, and whose clock stands still. *)
Definition canned_search : SearchResult :=
  SearchResultOf true "" "ready" None (Some "linkedin").

Definition polling : SearchBase bool := {|
  _execute_workflow_async := fun _ _ _ _ => needs_session canned_search;
  _poll_and_fetch_async := fun _ _ _ _ _ => needs_session canned_search;
  datetime_now := fun s => (1700000000, s);
  base_validate_url := refuse_empty
|}.

(** Scraper constructors that count how often they are called: a scraper
    is its class and its token, the heap is the number of scrapers built
    so far. *)
Definition counting_constructor (cls token : string) (_ : unit) (built : nat)
    : outcome (string * string) * nat :=
  (Return (cls, token), S built).




(** * Properties *)

(** ** Parameter normalization *)

Lemma len_nonneg {A} (l : list A) : 0 <= len l.
Proof. unfold len. lia. Qed.

Lemma len_list_mul {A} (x : A) (n : Z) : 0 <= n -> len (list_mul x n) = n.
Proof. intros Hn. unfold len, list_mul. rewrite repeat_length. lia. Qed.

Lemma slice_to_nonneg {A} (l : list A) (n : Z) :
  0 <= n -> slice_to l n = take (Z.to_nat n) l.
Proof.
  intros Hn. unfold slice_to.
  destruct (Z.ltb_spec n 0) as [Hlt | _]; [lia | reflexivity].
Qed.

(** The two scraper classes carry the same helper. *)
Lemma normalize_param_same (param : pyval) (n : Z) (d : pyval) :
  TikTokScraper._normalize_param param n d
  = PerplexityScraper._normalize_param param n d.
Proof. reflexivity. Qed.

(** The last element of a non-empty list does not depend on the default. *)
Lemma last_nonempty {A} (l : list A) (x d d' : A) :
  List.last (x :: l) d = List.last (x :: l) d'.
Proof.
  revert x. induction l as [| y l IH]; intros x; [reflexivity |].
  change (List.last (y :: l) d = List.last (y :: l) d'). apply IH.
Qed.

(** C8. For every param, every target length [n >= 0] and every default
    [d], [_normalize_param param n d] (of [PerplexityScraper] and of
    [TikTokScraper] alike) is a list of length exactly [n]: [[d] * n] when
    param is [None] or neither a str, bool, int nor list; [[param] * n]
    for a scalar str, bool or int; the first [n] elements of a list that
    has at least [n]; and a shorter list padded with copies of its last
    element, or of [d] when the list is empty. *)
Theorem normalize_param_shape (param : pyval) (n : Z) (d : pyval) :
  0 <= n ->
  TikTokScraper._normalize_param param n d
    = PerplexityScraper._normalize_param param n d /\
  len (PerplexityScraper._normalize_param param n d) = n /\
  (param = PNone \/
   (isinstance_str_bool_int param = false /\ isinstance_list param = false) ->
   PerplexityScraper._normalize_param param n d = repeat d (Z.to_nat n)) /\
  (isinstance_str_bool_int param = true ->
   PerplexityScraper._normalize_param param n d = repeat param (Z.to_nat n)) /\
  (forall l, param = PList l -> n <= len l ->
   PerplexityScraper._normalize_param param n d = take (Z.to_nat n) l) /\
  (forall l, param = PList l -> len l < n ->
   PerplexityScraper._normalize_param param n d
   = l ++ repeat (List.last l d) (Z.to_nat (n - len l))).
Proof.
  intros Hn. split; [apply normalize_param_same |].
  unfold PerplexityScraper._normalize_param.
  destruct param as [| b | z | f | s | l | dd]; cbn [is_none isinstance_str_bool_int];
    try (split; [apply len_list_mul; exact Hn |];
         repeat split; try reflexivity; try discriminate;
         intros; intuition discriminate).
  destruct (Z.ltb_spec (len l) n) as [Hshort | Hlong].
  - split.
    + unfold len in *. rewrite length_app. unfold list_mul.
      rewrite repeat_length. lia.
    + repeat split.
      * intros [Hnone | [_ Hl]]; discriminate.
      * discriminate.
      * intros l' [= <-] Hle. lia.
      * intros l' [= <-] _. unfold list_mul. f_equal. f_equal.
        destruct l as [| x l]; [reflexivity |]. cbn [truthy].
        apply last_nonempty.
  - rewrite slice_to_nonneg by exact Hn. split.
    + unfold len in *. rewrite length_take. lia.
    + repeat split.
      * intros [Hnone | [_ Hl]]; discriminate.
      * discriminate.
      * intros l' [= <-] _. reflexivity.
      * intros l' [= <-] Hlt. lia.
Qed.

(** A batch of four with two country codes given. *)
Lemma normalize_param_shape_witness :
  0 <= 4 /\
  PerplexityScraper._normalize_param (PList [PStr "US"; PStr "GB"]) 4 (PStr "US")
  = [PStr "US"; PStr "GB"; PStr "GB"; PStr "GB"].
Proof.
  split; [lia |].
  destruct (normalize_param_shape (PList [PStr "US"; PStr "GB"]) 4 (PStr "US"))
    as (_ & _ & _ & _ & _ & Hpad); [lia |].
  rewrite (Hpad _ eq_refl); [reflexivity | unfold len; simpl; lia].
Defined.

Example normalize_param_none :
  TikTokScraper._normalize_param PNone 3 (PStr "") = [PStr ""; PStr ""; PStr ""].
Proof. reflexivity. Qed.

Example normalize_param_truncates :
  TikTokScraper._normalize_param (PList [PInt 1; PInt 2; PInt 3]) 2 PNone
  = [PInt 1; PInt 2].
Proof. reflexivity. Qed.

Example normalize_param_float_is_default :
  TikTokScraper._normalize_param (PFloat 2.5) 2 (PInt 7) = [PInt 7; PInt 7].
Proof. reflexivity. Qed.

(** ** Amazon normalization *)

(** C7. [AmazonScraper.normalize_result] returns its argument unchanged,
    for a list as for any other value. *)
Theorem amazon_normalize_result_id (v : pyval) :
  AmazonScraper.normalize_result v = v.
Proof.
  unfold AmazonScraper.normalize_result.
  destruct (isinstance_list v); reflexivity.
Qed.

Example amazon_normalize_list :
  AmazonScraper.normalize_result (PList [PDict [("asin", PStr "B0CRMZHDG8")]])
  = PList [PDict [("asin", PStr "B0CRMZHDG8")]].
Proof. reflexivity. Qed.

(** ** Batch fan-out of URL scraping *)

Section FanOut.
Context {W : Type} `{Collaborators W}.

(** What one awaited call of the workflow executor does to the world. *)
Lemma call_execute_run (p : payload) (ds : string) (i t : Z) (ie : bool)
    (fn : option string) (norm : pyval -> pyval) (w : world W) :
  call_execute p ds i t ie fn norm w
  = (fst (workflow_execute p ds i t ie fn norm (st w)),
     World (loop_running w) (events w ++ [EvExecute p ds])
       (snd (workflow_execute p ds i t ie fn norm (st w)))).
Proof.
  unfold call_execute, bind, emit, lift, log_event. cbn.
  destruct (workflow_execute p ds i t ie fn norm (st w)) as [[r | e] s']; reflexivity.
Qed.

(** [_scrape_urls] awaits the executor once and fans its result out. *)
Lemma scrape_urls_run (url : str_or_list string) (ds : string) (timeout : Z)
    (country : option string) (w : world W) :
  TikTokScraper._scrape_urls url ds timeout country w
  = let p := TikTokScraper.trigger_payload url country in
    let r := workflow_execute p ds DEFAULT_POLL_INTERVAL timeout true
               get_caller_function_name TikTokScraper.normalize_result (st w) in
    (match fst r with
     | Return result => Return (TikTokScraper.fan_out url result)
     | Raise e => Raise e
     end,
     World (loop_running w) (events w ++ [EvExecute p ds]) (snd r)).
Proof.
  unfold TikTokScraper._scrape_urls, bind. rewrite call_execute_run.
  unfold TikTokScraper.trigger_payload. cbn zeta.
  destruct (workflow_execute _ _ _ _ _ _ _ _) as [[r | e] s']; reflexivity.
Qed.

(** The collection methods validate their URL argument and hand over to
    [_scrape_urls]. *)
Lemma collection_methods_routed (u : str_or_list string)
    (country : option string) (timeout : Z) (w : world W) :
  TikTokScraper.validate u w = (Return tt, w) ->
  TikTokScraper.profiles u country timeout w
  = TikTokScraper._scrape_urls u TikTokScraper.DATASET_ID_PROFILES timeout
      country w /\
  TikTokScraper.posts u country timeout w
  = TikTokScraper._scrape_urls u TikTokScraper.DATASET_ID_POSTS timeout
      country w /\
  TikTokScraper.posts_by_profile_fast u timeout w
  = TikTokScraper._scrape_urls u TikTokScraper.DATASET_ID_POSTS_BY_PROFILE_FAST
      timeout None w.
Proof.
  intros Hv.
  unfold TikTokScraper.profiles, TikTokScraper.posts,
    TikTokScraper.posts_by_profile_fast, bind.
  rewrite Hv. auto.
Qed.

End FanOut.

(** Looking up the [i]-th pair of a zip. *)
Lemma lookup_map_zip {A B C} (f : A * B -> C) (xs : list A) (ys : list B)
    (i : nat) (c : C) :
  map f (zip xs ys) !! i = Some c <->
  exists x y, xs !! i = Some x /\ ys !! i = Some y /\ c = f (x, y).
Proof.
  revert ys i. induction xs as [| x xs IH]; intros ys i.
  - cbn. split; [discriminate | intros (x & y & Hx & _); discriminate].
  - destruct ys as [| y ys].
    + cbn. split; [discriminate | intros (x' & y' & _ & Hy & _); discriminate].
    + destruct i as [| i]; cbn.
      * split.
        -- intros [= <-]. eauto.
        -- intros (x' & y' & [= <-] & [= <-] & ->). reflexivity.
      * apply IH.
Qed.

Lemma length_map_zip {A B C} (f : A * B -> C) (xs : list A) (ys : list B) :
  length (map f (zip xs ys)) = Nat.min (length xs) (length ys).
Proof.
  rewrite length_map. revert ys.
  induction xs as [| x xs IH]; intros [| y ys]; cbn; auto.
Qed.

(** C1. Batch fan-out of URL scraping.  [_scrape_urls], through which the
    collection methods of [TikTokScraper] are routed, awaits the workflow
    executor once; of its result it makes: (a) for a single URL string and
    data that is a list of length one, the same result with [url] set to
    the input string and [data] to the one item; (b) for a list of URLs
    and data that is a list, a list of results paired by position with the
    input URLs (as long as the shorter of the two), each with
    [success = True], the data item of its position, the URL of its
    position, and as cost the total cost divided by the number of data
    items ([None] when the total cost is falsy); (c) in every other case
    the workflow result, unchanged. *)
Theorem scrape_urls_fan_out {W : Type} `{Collaborators W}
    (url_arg : str_or_list string) (ds : string) (timeout : Z)
    (country : option string) (w : world W) :
  (forall result s',
     workflow_execute (TikTokScraper.trigger_payload url_arg country) ds
       DEFAULT_POLL_INTERVAL timeout true get_caller_function_name
       TikTokScraper.normalize_result (st w) = (Return result, s') ->
     fst (TikTokScraper._scrape_urls url_arg ds timeout country w)
     = Return (TikTokScraper.fan_out url_arg result)) /\
  (forall result : ScrapeResult,
     (forall u item,
        url_arg = OneStr u -> data result = PList [item] ->
        exists r, TikTokScraper.fan_out url_arg result = OneResult r /\
                  url r = u /\ data r = item /\
                  r = set_data item (set_url u result)) /\
     (forall urls items,
        url_arg = ManyOf urls -> data result = PList items ->
        exists rs, TikTokScraper.fan_out url_arg result = ResultList rs /\
          length rs = Nat.min (length urls) (length items) /\
          forall i r, rs !! i = Some r ->
            exists u item, urls !! i = Some u /\ items !! i = Some item /\
              success r = true /\ data r = item /\ url r = u /\
              cost r = match cost result with
                       | Some c => if float_truthy c
                                   then Some (PrimFloat.div c (float_of_len (len items)))
                                   else None
                       | None => None
                       end) /\
     ((forall u item, url_arg = OneStr u -> data result <> PList [item]) ->
      (forall urls items, url_arg = ManyOf urls -> data result <> PList items) ->
      TikTokScraper.fan_out url_arg result = OneResult result)).
Proof.
  split.
  - intros result s' Hex. rewrite scrape_urls_run. cbn zeta. rewrite Hex.
    reflexivity.
  - intros result. split; [| split].
    + intros u item -> Hdata. eexists. split; [| split; [| split]].
      * unfold TikTokScraper.fan_out. rewrite Hdata. cbn. reflexivity.
      * reflexivity.
      * reflexivity.
      * reflexivity.
    + intros urls items -> Hdata. eexists. split; [| split].
      * unfold TikTokScraper.fan_out. rewrite Hdata. cbn. reflexivity.
      * apply length_map_zip.
      * intros i r Hr. apply lookup_map_zip in Hr as (u & item & Hu & Hi & ->).
        exists u, item. repeat split; assumption.
    + intros Hone Hmany. unfold TikTokScraper.fan_out.
      destruct url_arg as [u | urls]; cbn.
      * destruct (data result) as [| | | | | items |] eqn:Hdata; cbn;
          try reflexivity.
        destruct (Z.eqb_spec (len items) 1) as [Hlen | _]; [| reflexivity].
        exfalso. destruct items as [| item [| item' items]].
        -- discriminate Hlen.
        -- exact (Hone u item eq_refl eq_refl).
        -- unfold len in Hlen. cbn [length] in Hlen. lia.
      * destruct (data result) as [| | | | | items |] eqn:Hdata; cbn;
          try reflexivity.
        exfalso. exact (Hmany urls items eq_refl eq_refl).
Qed.

(** Two URLs, two data items and a total cost of 0.5. *)
Example fan_out_two_urls :
  fst (@TikTokScraper.profiles_sync bool (fixture canned_result)
         (ManyOf ["https://www.tiktok.com/@a"; "https://www.tiktok.com/@b"])
         None 240 sync_caller)
  = Return (ResultList
      [SR true (PDict [("id", PInt 1)]) "https://www.tiktok.com/@a"
          (Some "tiktok") (Some "web_scraper") (Some 1000) (Some 2000)
          [3000; 4000] (Some 5000) (Some "s_1a2b3c") (Some 0.25%float);
       SR true (PDict [("id", PInt 2)]) "https://www.tiktok.com/@b"
          (Some "tiktok") (Some "web_scraper") (Some 1000) (Some 2000)
          [3000; 4000] (Some 5000) (Some "s_1a2b3c") (Some 0.25%float)]).
Proof. vm_compute. reflexivity. Qed.

(** A single URL whose workflow result holds two items is not unwrapped. *)
Example fan_out_single_url_keeps_list_of_two :
  fst (@TikTokScraper.profiles_sync bool (fixture canned_result)
         (OneStr "https://www.tiktok.com/@a") None 240 sync_caller)
  = Return (OneResult canned_result).
Proof. vm_compute. reflexivity. Qed.

(** A single URL whose workflow result holds one item. *)
Example fan_out_single_url_unwraps :
  fst (@TikTokScraper.posts_sync bool
         (fixture (set_data (PList [PDict [("id", PInt 1)]]) canned_result))
         (OneStr "https://www.tiktok.com/@a/video/1") None 240 sync_caller)
  = Return (OneResult
              (set_data (PDict [("id", PInt 1)])
                 (set_url "https://www.tiktok.com/@a/video/1" canned_result))).
Proof. vm_compute. reflexivity. Qed.

(** More URLs than data items: the pairs stop with the shorter list, and
    a total cost of zero gives no cost. *)
Example fan_out_zip_truncates :
  TikTokScraper.fan_out (ManyOf ["u1"; "u2"; "u3"])
    (SR true (PList [PInt 1; PInt 2]) "" None None None None [] None None
        (Some 0%float))
  = ResultList [SR true (PInt 1) "u1" None None None None [] None None None;
                SR true (PInt 2) "u2" None None None None [] None None None].
Proof. vm_compute. reflexivity. Qed.

(** ** Error translation on trigger *)

Lemma append_empty_r (s : string) : s +:+ "" = s.
Proof.
  induction s as [| c s IH]; [reflexivity |].
  change (String c (s +:+ "") = String c s). congruence.
Qed.

Lemma append_assoc (s1 s2 s3 : string) :
  (s1 +:+ s2) +:+ s3 = s1 +:+ (s2 +:+ s3).
Proof.
  induction s1 as [| c s1 IH]; [reflexivity |].
  change (String c ((s1 +:+ s2) +:+ s3) = String c (s1 +:+ (s2 +:+ s3))).
  congruence.
Qed.

Lemma dict_get_absent (d : list (string * pyval)) (key : string) :
  (forall v, (key, v) ∉ d) -> dict_get d key = PNone.
Proof.
  induction d as [| [k v] d IH]; intros Habs; cbn; [reflexivity |].
  destruct (String.eqb_spec k key) as [-> | _].
  - exfalso. apply (Habs v). left.
  - apply IH. intros v' Hin. apply (Habs v'). now right.
Qed.

Lemma dict_get_present (d : list (string * pyval)) (key : string) (v : pyval) :
  NoDup d.*1 -> (key, v) ∈ d -> dict_get d key = v.
Proof.
  induction d as [| [k v'] d IH]; intros Hnd Hin; cbn.
  - inversion Hin.
  - cbn in Hnd. apply NoDup_cons in Hnd as [Hk Hnd].
    destruct (String.eqb_spec k key) as [-> | Hne].
    + apply elem_of_cons in Hin as [[= ->] | Hin]; [reflexivity |].
      exfalso. apply Hk. apply list_elem_of_fmap. exists (key, v). auto.
    + apply elem_of_cons in Hin as [[= ? ?] | Hin]; [congruence |].
      now apply IH.
Qed.

Section Trigger.
Context {W : Type} `{Session W}.

(** The method posts once and decides on the response alone. *)
Lemma trigger_with_dataset_run (p : payload) (ds : string) (ie : bool)
    (w : world W) :
  fst (LinkedInScraper._trigger_async_with_dataset p ds ie w)
  = LinkedInScraper.on_response
      (fst (session_post TRIGGER_URL p
              [("dataset_id", ds); ("include_errors", str_of_bool_lower ie)]
              (st w))).
Proof.
  unfold LinkedInScraper._trigger_async_with_dataset, bind, lift, lift_pure.
  destruct (session_post _ _ _ _) as [r s']. reflexivity.
Qed.

End Trigger.

(** C3 (amended).  Error translation on trigger.
    [_trigger_async_with_dataset] decides on the vendor's response: on
    status 200 with a JSON object as body it returns the [snapshot_id]
    field of the body, [None] when the body has no such field; on status
    200 with a JSON body that is no object (a list, a string, a number,
    [null]) the call [data.get] raises [AttributeError]; on any other
    status it raises an [APIError] whose message contains the status code
    and the response text and whose [status_code] is that status.  Once
    the request and the decoding of the body have returned, these three
    are the only outcomes. *)
Theorem trigger_with_dataset_outcomes {W : Type} `{Session W}
    (p : payload) (ds : string) (ie : bool) (w : world W) :
  let r := fst (session_post TRIGGER_URL p
                  [("dataset_id", ds); ("include_errors", str_of_bool_lower ie)]
                  (st w)) in
  let out := fst (LinkedInScraper._trigger_async_with_dataset p ds ie w) in
  (status r = 200 -> forall d, json r = PDict d ->
     out = Return (dict_get d "snapshot_id") /\
     ((forall v, ("snapshot_id", v) ∉ d) -> out = Return PNone) /\
     (forall v, NoDup d.*1 -> ("snapshot_id", v) ∈ d -> out = Return v)) /\
  (status r = 200 -> (forall d, json r <> PDict d) ->
     out = Raise (AttributeError
                    ("'" +:+ type_name (json r)
                     +:+ "' object has no attribute 'get'"))) /\
  (status r <> 200 ->
     out = Raise (APIError
                    (LinkedInScraper.trigger_failed_message (status r) (text r))
                    (status r)) /\
     str_contains (LinkedInScraper.trigger_failed_message (status r) (text r))
       (str_of_int (status r)) /\
     str_contains (LinkedInScraper.trigger_failed_message (status r) (text r))
       (text r)) /\
  ((exists v d, status r = 200 /\ json r = PDict d /\ out = Return v) \/
   (exists msg, status r = 200 /\ (forall d, json r <> PDict d) /\
                out = Raise (AttributeError msg)) \/
   (exists msg, status r <> 200 /\ out = Raise (APIError msg (status r)))).
Proof.
  intros r out. subst out. rewrite trigger_with_dataset_run. fold r.
  unfold LinkedInScraper.on_response.
  destruct (Z.eqb_spec (status r) 200) as [H200 | Hne].
  - split; [| split; [| split]].
    + intros _ d Hd. rewrite Hd. cbn. split; [reflexivity | split].
      * intros Habs. now rewrite dict_get_absent.
      * intros v Hnd Hin. now rewrite (dict_get_present d _ v).
    + intros _ Hobj. destruct (json r) as [| | | | | |d]; try reflexivity.
      exfalso. apply (Hobj d). reflexivity.
    + intros Hne. contradiction.
    + destruct (json r) as [| | | | | |d] eqn:Hj; cbn;
        try (right; left; eexists; split; [exact H200 |];
             split; [intros d; discriminate | reflexivity]).
      left. exists (dict_get d "snapshot_id"), d. auto.
  - split; [| split; [| split]].
    + intros H200. contradiction.
    + intros H200. contradiction.
    + intros _. split; [reflexivity | split].
      * exists "Trigger failed (HTTP ", ("): " +:+ text r). reflexivity.
      * exists ("Trigger failed (HTTP " +:+ str_of_int (status r) +:+ "): "), "".
        unfold LinkedInScraper.trigger_failed_message.
        rewrite append_empty_r, !append_assoc. reflexivity.
    + right. right. eauto.
Qed.

(** C3 as stated fails: a 200 response whose JSON body is a list is
    neither answered with a snapshot id nor with an [APIError]. *)
Lemma trigger_has_a_third_outcome :
  fst (@LinkedInScraper._trigger_async_with_dataset unit
         (answering (Response 200 (PList []) "[]"))
         [[("keyword", PStr "python developer")]] "gd_lj4v2v5oqpp3qb79j" true
         (World true [] tt))
  = Raise (AttributeError "'list' object has no attribute 'get'") /\
  ~ (forall (r : response) (p : payload) (ds : string) (ie : bool),
       let out := fst (@LinkedInScraper._trigger_async_with_dataset unit
                         (answering r) p ds ie (World true [] tt)) in
       (status r = 200 -> exists v, out = Return v) /\
       (status r <> 200 ->
        exists msg, out = Raise (APIError msg (status r)))).
Proof.
  split; [reflexivity |].
  intros Hall.
  destruct (Hall (Response 200 (PList []) "[]") [] "gd_lj4v2v5oqpp3qb79j" true)
    as [H200 _].
  destruct (H200 eq_refl) as [v Hv]. discriminate Hv.
Qed.

Example trigger_returns_snapshot_id :
  fst (@LinkedInScraper._trigger_async_with_dataset unit
         (answering (Response 200 (PDict [("snapshot_id", PStr "s_m4x7")]) ""))
         [[("keyword", PStr "python developer")]] "gd_lj4v2v5oqpp3qb79j" true
         (World true [] tt))
  = Return (PStr "s_m4x7").
Proof. reflexivity. Qed.

Example trigger_returns_none_without_snapshot_id :
  fst (@LinkedInScraper._trigger_async_with_dataset unit
         (answering (Response 200 (PDict [("status", PStr "queued")]) ""))
         [[("keyword", PStr "python developer")]] "gd_lj4v2v5oqpp3qb79j" true
         (World true [] tt))
  = Return PNone.
Proof. reflexivity. Qed.

Example trigger_raises_on_401 :
  fst (@LinkedInScraper._trigger_async_with_dataset unit
         (answering (Response 401 PNone "Unauthorized"))
         [[("keyword", PStr "python developer")]] "gd_lj4v2v5oqpp3qb79j" true
         (World true [] tt))
  = Raise (APIError "Trigger failed (HTTP 401): Unauthorized" 401).
Proof. reflexivity. Qed.

Example trigger_raises_on_202 :
  fst (@LinkedInScraper._trigger_async_with_dataset unit
         (answering (Response 202 (PDict [("snapshot_id", PStr "s_m4x7")]) "Accepted"))
         [[("keyword", PStr "python developer")]] "gd_lj4v2v5oqpp3qb79j" true
         (World true [] tt))
  = Raise (APIError "Trigger failed (HTTP 202): Accepted" 202).
Proof. reflexivity. Qed.

(** ** Amazon schema round trip *)

Lemma field_names_NoDup : NoDup AmazonProductResult.field_names.
Proof.
  apply (bool_decide_unpack (NoDup AmazonProductResult.field_names)).
  vm_compute. reflexivity.
Qed.

(** The copy made by [asdict] is equal to the value copied. *)
Lemma asdict_inner_id (v : pyval) : AmazonProductResult.asdict_inner v = v.
Proof.
  induction v as [| b | z | f | s | l IH | d IH] using pyval_ind';
    try reflexivity; cbn [AmazonProductResult.asdict_inner]; f_equal.
  - induction IH as [| x l Hx _ IHl]; cbn; [reflexivity | now rewrite Hx, IHl].
  - induction IH as [| [k x] d Hx _ IHd]; cbn; [reflexivity |].
    cbn in Hx. now rewrite Hx, IHd.
Qed.

Lemma asdict_attrs (self : AmazonProductResult.t) :
  AmazonProductResult.asdict self = AmazonProductResult.attrs self.
Proof.
  unfold AmazonProductResult.asdict.
  induction (AmazonProductResult.attrs self) as [| [k v] l IH]; cbn;
    [reflexivity |].
  now rewrite asdict_inner_id, IH.
Qed.

(** The keyword arguments [from_dict] passes on name fields only. *)
Lemma filtered_data_known (d : gmap string pyval) :
  map_Forall (fun k _ => k ∈ AmazonProductResult.field_names)
    (AmazonProductResult.filtered_data d).
Proof.
  intros k v Hk. unfold AmazonProductResult.filtered_data in Hk.
  apply map_lookup_filter_Some in Hk as [_ Hk]. exact Hk.
Qed.

Lemma filtered_data_lookup (d : gmap string pyval) (k : string) :
  k ∈ AmazonProductResult.field_names ->
  AmazonProductResult.filtered_data d !! k = d !! k.
Proof.
  intros Hk. unfold AmazonProductResult.filtered_data.
  destruct (d !! k) as [v |] eqn:Hd.
  - apply map_lookup_filter_Some. split; [exact Hd | exact Hk].
  - apply map_lookup_filter_None. left. exact Hd.
Qed.

Lemma filtered_data_idem (d : gmap string pyval) :
  AmazonProductResult.filtered_data (AmazonProductResult.filtered_data d)
  = AmazonProductResult.filtered_data d.
Proof.
  apply map_eq. intros k.
  destruct (decide (k ∈ AmazonProductResult.field_names)) as [Hk | Hk].
  - now apply filtered_data_lookup.
  - unfold AmazonProductResult.filtered_data.
    transitivity (@None pyval); [| symmetry];
      apply map_lookup_filter_None; right; intros v _; exact Hk.
Qed.

Lemma from_dict_value (d : gmap string pyval) :
  AmazonProductResult.from_dict d
  = Return (AmazonProductResult.Instance
              (map (fun f => (f, default PNone
                                   (AmazonProductResult.filtered_data d !! f)))
                 AmazonProductResult.field_names)).
Proof.
  unfold AmazonProductResult.from_dict, AmazonProductResult.init.
  destruct (decide _) as [_ | Hbad]; [reflexivity |].
  exfalso. apply Hbad, filtered_data_known.
Qed.

(** Lookup in the dict built from the non-[None] values of a field list. *)
Lemma lookup_non_none_fields (fields : list string) (g : string -> pyval)
    (k : string) (v : pyval) :
  NoDup fields ->
  AmazonProductResult.dict_of_items
    (filter (fun kv : string * pyval => is_none kv.2 = false)
       (map (fun f => (f, g f)) fields)) !! k
    = Some v <->
  k ∈ fields /\ is_none v = false /\ v = g k.
Proof.
  intros Hnd. unfold AmazonProductResult.dict_of_items.
  rewrite <- elem_of_list_to_map.
  - rewrite elem_of_reverse, list_elem_of_filter, list_elem_of_In, in_map_iff.
    cbn. split.
    + intros (Hv & f & [= -> <-] & Hf). apply list_elem_of_In in Hf. auto.
    + intros (Hk & Hv & ->). split; [exact Hv |].
      exists k. split; [reflexivity | now apply list_elem_of_In].
  - rewrite fmap_reverse, reverse_Permutation.
    apply (sublist_NoDup _ fields); [exact Hnd |]. clear Hnd.
    induction fields as [| f fs IH]; [constructor |].
    cbn [map]. rewrite filter_cons. destruct (decide _).
    + rewrite fmap_cons. now apply sublist_skip.
    + now apply sublist_cons.
Qed.

(** The non-[None] attributes of the instance [from_dict] builds. *)
Lemma to_dict_lookup (d : gmap string pyval) (k : string) (v : pyval) :
  AmazonProductResult.to_dict
    (AmazonProductResult.Instance
       (map (fun f => (f, default PNone
                            (AmazonProductResult.filtered_data d !! f)))
          AmazonProductResult.field_names)) !! k = Some v <->
  k ∈ AmazonProductResult.field_names /\ is_none v = false /\
  v = default PNone (d !! k).
Proof.
  unfold AmazonProductResult.to_dict. rewrite asdict_attrs.
  unfold AmazonProductResult.attrs.
  rewrite (lookup_non_none_fields AmazonProductResult.field_names
             (fun f => default PNone (AmazonProductResult.filtered_data d !! f))
             k v field_names_NoDup).
  split; intros (Hk & Hv & ->); rewrite filtered_data_lookup in * by exact Hk; auto.
Qed.

(** C9. Amazon schema round trip.  [from_dict] never raises: keys that
    name no field of the dataclass are dropped before the instance is
    built, so the result is the one the known keys alone give.  For a
    dictionary whose keys are all field names and whose values are all
    non-[None], [to_dict] of the instance [from_dict] builds is that
    dictionary. *)
Theorem amazon_from_dict_to_dict (d : gmap string pyval) :
  exists obj,
    AmazonProductResult.from_dict d = Return obj /\
    AmazonProductResult.from_dict (AmazonProductResult.filtered_data d)
      = Return obj /\
    (map_Forall (fun k v => k ∈ AmazonProductResult.field_names /\
                            is_none v = false) d ->
     AmazonProductResult.to_dict obj = d).
Proof.
  eexists. split; [apply from_dict_value | split].
  - rewrite from_dict_value, filtered_data_idem. reflexivity.
  - intros Hd. apply map_eq. intros k. apply option_eq. intros v.
    rewrite to_dict_lookup. split.
    + intros (Hk & Hv & ->). destruct (d !! k) as [v |]; [reflexivity |].
      discriminate Hv.
    + intros Hk. destruct (Hd k v Hk) as [Hf Hv]. rewrite Hk. auto.
Qed.

Lemma amazon_from_dict_to_dict_witness :
  map_Forall (fun k v => k ∈ AmazonProductResult.field_names /\
                         is_none v = false) laptop /\
  exists obj, AmazonProductResult.from_dict laptop = Return obj /\
              AmazonProductResult.to_dict obj = laptop.
Proof.
  assert (Hok : map_Forall (fun k v => k ∈ AmazonProductResult.field_names /\
                                       is_none v = false) laptop).
  { unfold laptop. apply map_Forall_insert_2.
    - split; [| reflexivity].
      apply (bool_decide_unpack ("title" ∈ AmazonProductResult.field_names)).
      vm_compute. reflexivity.
    - apply map_Forall_singleton. split; [| reflexivity].
      apply (bool_decide_unpack ("rating" ∈ AmazonProductResult.field_names)).
      vm_compute. reflexivity. }
  split; [exact Hok |].
  destruct (amazon_from_dict_to_dict laptop) as (obj & Hfrom & _ & Hto).
  exists obj. split; [exact Hfrom | exact (Hto Hok)].
Defined.

Example from_dict_drops_unknown_keys :
  AmazonProductResult.from_dict (<["shoe_size" := PInt 42]> laptop)
  = AmazonProductResult.from_dict laptop.
Proof.
  rewrite !from_dict_value. vm_compute. reflexivity.
Qed.

Example to_dict_drops_none :
  AmazonProductResult.to_dict
    (AmazonProductResult.Instance [("title", PStr "Laptop"); ("brand", PNone)])
  = {[ "title" := PStr "Laptop" ]}.
Proof. reflexivity. Qed.

(** ** Coroutines that look at the collaborator state only *)

Create HintDb oblivious discriminated.

Section Oblivious.
Context {W : Type} `{Collaborators W}.

Lemma sees_only_st_ret {A} (a : A) : sees_only_st (ret (W:=W) a).
Proof. intros w1 w2 Hst. cbn. auto. Qed.

Lemma sees_only_st_raise {A} (e : exn) : sees_only_st (raise (W:=W) (A:=A) e).
Proof. intros w1 w2 Hst. cbn. auto. Qed.

Lemma sees_only_st_lift_pure {A} (o : outcome A) :
  sees_only_st (lift_pure (W:=W) o).
Proof. intros w1 w2 Hst. cbn. auto. Qed.

Lemma sees_only_st_emit (e : event) : sees_only_st (emit (W:=W) e).
Proof. intros w1 w2 Hst. cbn. auto. Qed.

Lemma sees_only_st_lift {A} (f : W -> outcome A * W) : sees_only_st (lift f).
Proof.
  intros w1 w2 Hst. unfold lift. rewrite Hst.
  destruct (f (st w2)) as [r s']. cbn. auto.
Qed.

Lemma sees_only_st_bind {A B} (m : io W A) (k : A -> io W B) :
  sees_only_st m -> (forall a, sees_only_st (k a)) -> sees_only_st (bind m k).
Proof.
  intros Hm Hk w1 w2 Hst. unfold bind.
  destruct (Hm w1 w2 Hst) as [Hr Hs].
  destruct (m w1) as [[a1 | e1] w1'], (m w2) as [[a2 | e2] w2']; cbn in *;
    try discriminate Hr.
  - injection Hr as ->. apply Hk. exact Hs.
  - injection Hr as ->. split; [reflexivity | exact Hs].
Qed.

Lemma sees_only_st_async_with_engine {A} (body : io W A) :
  sees_only_st body -> sees_only_st (async_with_engine body).
Proof.
  intros Hb w1 w2 Hst. unfold async_with_engine.
  set (a := log_event EvEngineEnter
              (World (loop_running w1) (events w1) (engine_aenter (st w1)))).
  set (b := log_event EvEngineEnter
              (World (loop_running w2) (events w2) (engine_aenter (st w2)))).
  assert (Hab : st a = st b) by (subst a b; cbn; now rewrite Hst).
  destruct (Hb a b Hab) as [Hr Hs].
  destruct (body a) as [r1 v1], (body b) as [r2 v2].
  cbn in *. split; [exact Hr | now rewrite Hs].
Qed.

Lemma sees_only_st_call_execute (p : payload) (ds : string) (i t : Z)
    (ie : bool) (fn : option string) (norm : pyval -> pyval) :
  sees_only_st (call_execute p ds i t ie fn norm).
Proof.
  unfold call_execute. apply sees_only_st_bind.
  - apply sees_only_st_emit.
  - intros _. apply sees_only_st_lift.
Qed.

End Oblivious.

#[export] Hint Resolve sees_only_st_ret sees_only_st_raise sees_only_st_lift_pure
  sees_only_st_emit sees_only_st_lift sees_only_st_bind
  sees_only_st_async_with_engine sees_only_st_call_execute : oblivious.

(** ** The sync wrappers *)

Section SyncWrappers.
Context {W : Type} `{Collaborators W}.

(** [asyncio.run] outside a running loop drives the coroutine to the end. *)
Lemma asyncio_run_no_loop {A} (coro : io W A) (w : world W) :
  loop_running w = false ->
  asyncio_run coro w = run_until_complete coro (log_event EvAsyncioRun w).
Proof. intros Hl. unfold asyncio_run. cbn. now rewrite Hl. Qed.

Lemma asyncio_run_value {A} (coro : io W A) (w : world W) :
  loop_running w = false -> sees_only_st coro ->
  fst (asyncio_run coro w) = fst (coro w).
Proof.
  intros Hl Hc. rewrite asyncio_run_no_loop by exact Hl.
  unfold run_until_complete.
  destruct (Hc (set_loop true (log_event EvAsyncioRun w)) w eq_refl) as [Hr _].
  destruct (coro (set_loop true (log_event EvAsyncioRun w))) as [r w'].
  exact Hr.
Qed.

(** A wrapper of the shape
    [async def _run(): async with self.engine: return await coro]
    followed by [return asyncio.run(_run())]. *)
Lemma engine_wrapper_value {A} (coro : io W A) (w : world W) :
  loop_running w = false -> sees_only_st coro ->
  fst (asyncio_run (async_with_engine coro) w) = awaited_in_engine_context coro w.
Proof.
  intros Hl Hc. apply asyncio_run_value; [exact Hl |].
  now apply sees_only_st_async_with_engine.
Qed.

End SyncWrappers.

(** ** The sync-from-async guard of [BaseAPI] *)

Section ExecuteSync.
Context {W : Type} `{Collaborators W}.
Variable Args R : Type.
Variable _execute_async : Args -> io W R.

(** The body of the [try] always raises [RuntimeError]: the one of
    [get_running_loop] when no loop runs, the guard's own otherwise. *)
Lemma execute_sync_try_body_raises (w : world W) :
  exists msg,
    (get_running_loop ;;;
     raise (A:=R)
       (RuntimeError
          "Cannot call sync method from async context. Use async method instead."))%io
      w
    = (Raise (RuntimeError msg), w).
Proof.
  unfold bind, get_running_loop, raise.
  destruct (loop_running w); eauto.
Qed.

(** So the handler runs in either case. *)
Lemma execute_sync_run (args : Args) (w : world W) :
  BaseAPI._execute_sync Args R _execute_async args w
  = asyncio_run (async_with_engine (_execute_async args)) w.
Proof.
  unfold BaseAPI._execute_sync, try_except_RuntimeError.
  destruct (execute_sync_try_body_raises w) as [msg ->]. reflexivity.
Qed.

(** C10 (what the code does).  Called while an event loop runs,
    [_execute_sync] raises its guard's [RuntimeError] inside the [try]
    whose [except RuntimeError] then catches it: [asyncio.run] is invoked
    after all, and the error that reaches the caller is the one of
    [asyncio.run], not the guard's message.  Called with no loop running,
    it returns what [_execute_async] gives when driven to completion
    inside the engine context. *)
Theorem execute_sync_guard_is_swallowed (args : Args) (w : world W) :
  (loop_running w = true ->
     BaseAPI._execute_sync Args R _execute_async args w
     = (Raise (RuntimeError
                 "asyncio.run() cannot be called from a running event loop"),
        log_event EvAsyncioRun w) /\
     EvAsyncioRun ∈ events (snd (BaseAPI._execute_sync Args R _execute_async args w)) /\
     fst (BaseAPI._execute_sync Args R _execute_async args w)
     <> Raise (RuntimeError
                 "Cannot call sync method from async context. Use async method instead.")) /\
  (loop_running w = false ->
     BaseAPI._execute_sync Args R _execute_async args w
     = run_until_complete (async_with_engine (_execute_async args))
         (log_event EvAsyncioRun w)).
Proof.
  rewrite execute_sync_run. split; intros Hl.
  - unfold asyncio_run. cbn. rewrite Hl. cbn. split; [reflexivity | split].
    + apply elem_of_app. right. left.
    + discriminate.
  - now apply asyncio_run_no_loop.
Qed.

End ExecuteSync.

(** The guard on concrete input: a coroutine calls the sync method of an
    API whose async method would return 7. *)
Example execute_sync_from_coroutine :
  @BaseAPI._execute_sync bool (fixture canned_result) unit Z
    (fun _ => ret 7) tt async_caller
  = (Raise (RuntimeError
              "asyncio.run() cannot be called from a running event loop"),
     World true [EvAsyncioRun] true).
Proof. reflexivity. Qed.

Example execute_sync_from_sync_code :
  @BaseAPI._execute_sync bool (fixture canned_result) unit Z
    (fun _ => ret 7) tt sync_caller
  = (Return 7, World false [EvAsyncioRun; EvEngineEnter; EvEngineExit] false).
Proof. reflexivity. Qed.

(** ** Sync and async variants of the scraper methods *)

Section Silent.
Context {W : Type} `{Collaborators W}.

Lemma silent_ret {A} (a : A) : silent (ret (W:=W) a).
Proof. intros w. reflexivity. Qed.

Lemma silent_lift {A} (f : W -> outcome A * W) : silent (lift f).
Proof. intros w. unfold lift. destruct (f (st w)). reflexivity. Qed.

Lemma silent_lift_pure {A} (o : outcome A) : silent (lift_pure (W:=W) o).
Proof. intros w. reflexivity. Qed.

Lemma silent_bind {A B} (m : io W A) (k : A -> io W B) :
  silent m -> (forall a, silent (k a)) -> silent (bind m k).
Proof.
  intros Hm Hk w. unfold bind. specialize (Hm w).
  destruct (m w) as [[a | e] w']; cbn in *; [| exact Hm].
  now rewrite Hk.
Qed.

(** The calls a sync wrapper records around a silent coroutine. *)
Lemma asyncio_run_events {A} (coro : io W A) (w : world W) :
  loop_running w = false -> silent coro ->
  events (snd (asyncio_run coro w)) = events w ++ [EvAsyncioRun].
Proof.
  intros Hl Hc. rewrite asyncio_run_no_loop by exact Hl.
  unfold run_until_complete.
  specialize (Hc (set_loop true (log_event EvAsyncioRun w))).
  destruct (coro _) as [r w']. exact Hc.
Qed.

Lemma asyncio_run_engine_events {A} (coro : io W A) (w : world W) :
  loop_running w = false -> silent coro ->
  events (snd (asyncio_run (async_with_engine coro) w))
  = events w ++ [EvAsyncioRun; EvEngineEnter; EvEngineExit].
Proof.
  intros Hl Hc. rewrite asyncio_run_no_loop by exact Hl.
  unfold run_until_complete, async_with_engine.
  match goal with |- context [coro ?a] => specialize (Hc a); destruct (coro a) end.
  cbn in *. rewrite Hc. now rewrite <- !app_assoc.
Qed.

End Silent.

#[export] Hint Resolve silent_ret silent_lift silent_lift_pure silent_bind
  : oblivious.

Section Pairs.
Context {W : Type} `{Collaborators W}.

Lemma validate_sees_only_st (u : str_or_list string) :
  sees_only_st (TikTokScraper.validate u).
Proof. destruct u; apply sees_only_st_lift_pure. Qed.

Hint Resolve validate_sees_only_st : oblivious.

(** Closes a goal [sees_only_st m] or [silent m] for a coroutine built
    from the combinators. *)
Ltac oblivious :=
  repeat first
    [ progress intros
    | apply sees_only_st_bind
    | solve [auto with oblivious] ].

Lemma scrape_urls_sees_only_st u ds t c :
  sees_only_st (TikTokScraper._scrape_urls u ds t c).
Proof. unfold TikTokScraper._scrape_urls. oblivious. Qed.

Hint Resolve scrape_urls_sees_only_st : oblivious.

(** X1. For every pair [(X, X_sync)] whose sync variant enters the engine
    context, and every argument tuple, the sync variant called with no
    event loop running returns exactly the value the async variant
    produces when awaited inside the engine context. *)
Theorem sync_variant_returns_awaited_value (w : world W) :
  loop_running w = false ->
  (forall u c t,
     fst (TikTokScraper.profiles_sync u c t w)
     = awaited_in_engine_context (TikTokScraper.profiles u c t) w) /\
  (forall u c t,
     fst (TikTokScraper.posts_sync u c t w)
     = awaited_in_engine_context (TikTokScraper.posts u c t) w) /\
  (forall u t,
     fst (TikTokScraper.comments_sync u t w)
     = awaited_in_engine_context (TikTokScraper.comments u t) w) /\
  (forall u t,
     fst (TikTokScraper.posts_by_profile_fast_sync u t w)
     = awaited_in_engine_context (TikTokScraper.posts_by_profile_fast u t) w) /\
  (forall u t,
     fst (TikTokScraper.posts_by_url_fast_sync u t w)
     = awaited_in_engine_context (TikTokScraper.posts_by_url_fast u t) w) /\
  (forall u n c sd t,
     fst (TikTokScraper.posts_by_search_url_fast_sync u n c sd t w)
     = awaited_in_engine_context
         (TikTokScraper.posts_by_search_url_fast u n c sd t) w) /\
  (forall p c i e pi pt,
     fst (PerplexityScraper.search_sync p c i e pi pt w)
     = awaited_in_engine_context (PerplexityScraper.search p c i e pi pt) w) /\
  (forall p c i e,
     fst (PerplexityScraper.search_trigger_sync p c i e w)
     = awaited_in_engine_context (PerplexityScraper.search_trigger p c i e) w) /\
  (forall sid,
     fst (PerplexityScraper.search_status_sync sid w)
     = awaited_in_engine_context (PerplexityScraper.search_status sid) w) /\
  (forall sid,
     fst (PerplexityScraper.search_fetch_sync sid w)
     = awaited_in_engine_context (PerplexityScraper.search_fetch sid) w).
Proof.
  intros Hl.
  repeat split; intros; apply engine_wrapper_value; try exact Hl;
    unfold TikTokScraper.profiles, TikTokScraper.posts, TikTokScraper.comments,
      TikTokScraper.posts_by_profile_fast, TikTokScraper.posts_by_url_fast,
      TikTokScraper.posts_by_search_url_fast, PerplexityScraper.search,
      PerplexityScraper.search_trigger, PerplexityScraper.search_status,
      PerplexityScraper.search_fetch;
    oblivious.
Qed.

(** C4 (what the code does).  The sync variants of the manual-control
    methods of [TikTokScraper] hand the coroutine to [asyncio.run] as it
    is: what they return is the value the async variant produces outside
    the engine context, and the engine is never entered, while the
    corresponding wrapper of [PerplexityScraper] enters and leaves it. *)
Theorem manual_control_sync_skips_engine (w : world W) :
  loop_running w = false ->
  (forall u c,
     fst (TikTokScraper.profiles_trigger_sync u c w)
     = awaited_outside_engine_context (TikTokScraper.profiles_trigger u c) w /\
     fst (TikTokScraper.posts_trigger_sync u c w)
     = awaited_outside_engine_context (TikTokScraper.posts_trigger u c) w /\
     fst (TikTokScraper.comments_trigger_sync u w)
     = awaited_outside_engine_context (TikTokScraper.comments_trigger u) w /\
     events (snd (TikTokScraper.profiles_trigger_sync u c w))
     = events w ++ [EvAsyncioRun]) /\
  (forall sid,
     fst (TikTokScraper.profiles_status_sync sid w)
     = awaited_outside_engine_context (TikTokScraper.profiles_status sid) w /\
     fst (TikTokScraper.posts_status_sync sid w)
     = awaited_outside_engine_context (TikTokScraper.posts_status sid) w /\
     fst (TikTokScraper.comments_status_sync sid w)
     = awaited_outside_engine_context (TikTokScraper.comments_status sid) w /\
     events (snd (TikTokScraper.profiles_status_sync sid w))
     = events w ++ [EvAsyncioRun]) /\
  (forall sid,
     fst (TikTokScraper.profiles_fetch_sync sid w)
     = awaited_outside_engine_context (TikTokScraper.profiles_fetch sid) w /\
     fst (TikTokScraper.posts_fetch_sync sid w)
     = awaited_outside_engine_context (TikTokScraper.posts_fetch sid) w /\
     fst (TikTokScraper.comments_fetch_sync sid w)
     = awaited_outside_engine_context (TikTokScraper.comments_fetch sid) w /\
     events (snd (TikTokScraper.profiles_fetch_sync sid w))
     = events w ++ [EvAsyncioRun]) /\
  (forall sid,
     events (snd (PerplexityScraper.search_status_sync sid w))
     = events w ++ [EvAsyncioRun; EvEngineEnter; EvEngineExit]).
Proof.
  intros Hl.
  repeat split; intros;
    first [ apply asyncio_run_value; [exact Hl |]
          | apply asyncio_run_events; [exact Hl |]
          | apply asyncio_run_engine_events; [exact Hl |] ];
    unfold TikTokScraper.profiles_trigger, TikTokScraper.profiles_status,
      TikTokScraper.profiles_fetch, TikTokScraper.posts_trigger,
      TikTokScraper.posts_status, TikTokScraper.posts_fetch,
      TikTokScraper.comments_trigger, TikTokScraper.comments_status,
      TikTokScraper.comments_fetch, PerplexityScraper.search_status;
    oblivious.
Qed.

End Pairs.

(** The engine-context wrappers on concrete input. *)
Lemma sync_variant_returns_awaited_value_witness :
  loop_running sync_caller = false /\
  fst (@TikTokScraper.profiles_sync bool (fixture canned_result)
         (OneStr "https://www.tiktok.com/@a") (Some "US") 240 sync_caller)
  = Return (OneResult canned_result).
Proof.
  split; [reflexivity |].
  destruct (@sync_variant_returns_awaited_value bool (fixture canned_result)
              sync_caller eq_refl) as [Hprofiles _].
  rewrite Hprofiles. vm_compute. reflexivity.
Defined.

(** The manual-control wrappers on concrete input: with the session
    closed, the status check of [TikTokScraper] fails for want of the
    engine context. *)
Lemma manual_control_sync_skips_engine_witness :
  loop_running sync_caller = false /\
  fst (@TikTokScraper.profiles_status_sync bool (fixture canned_result)
         "s_1a2b3c" sync_caller)
  = Raise (RuntimeError "Engine not initialized. Use async context manager.").
Proof.
  split; [reflexivity |].
  destruct (@manual_control_sync_skips_engine bool (fixture canned_result)
              sync_caller eq_refl) as (_ & Hstatus & _).
  rewrite (proj1 (Hstatus "s_1a2b3c")). reflexivity.
Defined.

Example status_sync_tiktok_against_perplexity :
  fst (@TikTokScraper.profiles_status_sync bool (fixture canned_result)
         "s_1a2b3c" sync_caller)
  = Raise (RuntimeError "Engine not initialized. Use async context manager.") /\
  @awaited_in_engine_context bool (fixture canned_result) _
    (@TikTokScraper.profiles_status bool (fixture canned_result) "s_1a2b3c")
    sync_caller
  = Return "ready" /\
  fst (@PerplexityScraper.search_status_sync bool (fixture canned_result)
         "s_1a2b3c" sync_caller)
  = Return "ready".
Proof. repeat split; reflexivity. Qed.

(** ** One workflow execution per batch *)

Lemma executions_app (e1 e2 : list event) :
  executions (e1 ++ e2) = executions e1 ++ executions e2.
Proof. unfold executions. apply omap_app. Qed.




(** With the executor as the specification describes it, a batch costs
    the requests of one workflow whatever its size: here five inputs and
    three requests. *)
Example batch_of_five_sends_three_requests :
  (WorkflowExecutor.trace ∘ snd)
    <$> WorkflowExecutor.execute 5
          (map (fun x => [("url", PStr x); ("country", PStr "")])
             ["u1"; "u2"; "u3"; "u4"; "u5"])
          TikTokScraper.DATASET_ID_PROFILES 10 240 (fun v => v)
          WorkflowExecutor.ready_job
  = Some [WorkflowExecutor.Sent
            (WorkflowExecutor.Trigger
               (map (fun x => [("url", PStr x); ("country", PStr "")])
                  ["u1"; "u2"; "u3"; "u4"; "u5"])
               TikTokScraper.DATASET_ID_PROFILES);
          WorkflowExecutor.Sent (WorkflowExecutor.Status "s_9z8y7x");
          WorkflowExecutor.Sent (WorkflowExecutor.Fetch "s_9z8y7x")].
Proof. reflexivity. Qed.

(** ** The trigger and poll of the LinkedIn searches *)

Section LinkedInSearch.
Context {W : Type} `{Collaborators W} `{Session W} `{SearchBase W}.

Lemma trigger_and_poll_contract (p : payload) (ds error : string)
    (poll_interval timeout : Z) :
  search_contract (LinkedInScraper.trigger_and_poll p ds error poll_interval
                     timeout) p ds error poll_interval timeout.
Proof.
  intros w posted r left.
  unfold LinkedInScraper.trigger_and_poll, async_with_engine,
    LinkedInScraper._trigger_async_with_dataset, LinkedInScraper.now, bind,
    lift, lift_pure, ret, log_event.
  cbn [st events loop_running str_of_bool_lower].
  subst r posted. cbn zeta.
  destruct (session_post _ _ _ _) as [r s1] eqn:Hpost. cbn [fst snd].
  unfold LinkedInScraper.on_response. split; [| split].
  - intros Hne. destruct (Z.eqb_spec (status r) 200) as [| _];
      [contradiction |].
    cbn. rewrite <- app_assoc. reflexivity.
  - intros d H200 Hd Hfalsy. rewrite H200, Hd. cbn.
    rewrite Hfalsy. cbn. rewrite <- app_assoc. reflexivity.
  - intros d H200 Hd Htruthy. rewrite H200, Hd. cbn.
    rewrite Htruthy. cbn.
    destruct (datetime_now s1) as [t1 s2]. cbn.
    destruct (datetime_now s2) as [t2 s3]. cbn.
    destruct (_poll_and_fetch_async _ _ _ _ _ _) as [out s4]. cbn.
    rewrite <- app_assoc. reflexivity.
Qed.


Lemma trigger_and_poll_refuses (p : payload) (ds error : string)
    (poll_interval timeout : Z) :
  refuses_falsy_snapshot_id
    (LinkedInScraper.trigger_and_poll p ds error poll_interval timeout)
    p ds error.
Proof.
  intros w d v posted H200 Hd Hnd Hin Hfalsy.
  destruct (trigger_and_poll_contract p ds error poll_interval timeout w)
    as (_ & Hnone & _).
  apply (Hnone d H200 Hd).
  rewrite (dict_get_present d "snapshot_id" v Hnd Hin). exact Hfalsy.
Qed.

Lemma linkedin_searches_refuse
    (keyword location company title industry level job_type : option string)
    (job_keyword : string) (max_results poll_interval : Z)
    (poll_timeout : option Z) :
  (existsb opt_truthy [keyword; location; company; title] = true ->
   refuses_falsy_snapshot_id
     (LinkedInScraper.profiles_async keyword location company title
        max_results poll_interval poll_timeout)
     (LinkedInScraper.profiles_payload keyword location company title
        max_results)
     "gd_l1oojb10z2jye29kh" "Failed to trigger profile search") /\
  (existsb opt_truthy [keyword; location; industry] = true ->
   refuses_falsy_snapshot_id
     (LinkedInScraper.companies_async keyword location industry max_results
        poll_interval poll_timeout)
     (LinkedInScraper.companies_payload keyword location industry max_results)
     "gd_lhkq90okie75oj8mo" "Failed to trigger company search") /\
  (job_keyword <> "" ->
   refuses_falsy_snapshot_id
     (LinkedInScraper.jobs_async job_keyword location level job_type
        max_results poll_interval poll_timeout)
     (LinkedInScraper.jobs_payload job_keyword location level job_type
        max_results)
     "gd_lj4v2v5oqpp3qb79j" "Failed to trigger job search").
Proof.
  split; [| split].
  - unfold LinkedInScraper.profiles_async. intros ->.
    apply trigger_and_poll_refuses.
  - unfold LinkedInScraper.companies_async. intros ->.
    apply trigger_and_poll_refuses.
  - unfold LinkedInScraper.jobs_async. intros Hk.
    destruct (String.eqb_spec job_keyword "") as [| _];
      [contradiction | apply trigger_and_poll_refuses].
Qed.

End LinkedInSearch.

(** ** Input validation of the Perplexity search *)

(** Building the payload can fail on a country that has no [upper], never
    with a [ValidationError]. *)
Lemma build_item_not_validation_error (p c i e : pyval) :
  not_validation_error (PerplexityScraper.build_item p c i e).
Proof.
  unfold PerplexityScraper.build_item.
  destruct (truthy c); [| exact I].
  destruct c; exact I.
Qed.

Lemma for_each_not_validation_error {A B} (f : A -> outcome B) (l : list A) :
  (forall x, not_validation_error (f x)) ->
  not_validation_error (for_each f l).
Proof.
  intros Hf. induction l as [| x l IH]; cbn; [exact I |].
  specialize (Hf x). destruct (f x) as [y | e]; cbn.
  - destruct (for_each f l) as [ys | e']; cbn; [exact I | exact IH].
  - exact Hf.
Qed.

Lemma build_payload_not_validation_error (ps cs ixs es : list pyval) :
  not_validation_error (PerplexityScraper.build_payload ps cs ixs es).
Proof.
  unfold PerplexityScraper.build_payload.
  apply for_each_not_validation_error. intros i.
  apply build_item_not_validation_error.
Qed.

Lemma existsb_bad_prompt (prompts : list pyval) :
  existsb PerplexityScraper.bad_prompt prompts = true <->
  exists p, p ∈ prompts /\ (truthy p = false \/ isinstance_str p = false).
Proof.
  rewrite existsb_exists. unfold PerplexityScraper.bad_prompt. split.
  - intros (p & Hin & Hbad). exists p. split; [now apply list_elem_of_In |].
    apply orb_true_iff in Hbad as [Hb | Hb]; apply negb_true_iff in Hb; auto.
  - intros (p & Hin & Hbad). exists p. split; [now apply list_elem_of_In |].
    apply orb_true_iff. destruct Hbad as [-> | ->]; auto using orb_true_r.
Qed.

(** C6 (amended).  The repository does constrain values beyond field
    presence.  On input, [PerplexityScraper.search] raises
    [ValidationError], before any request is made, exactly when the prompt
    is empty (an empty string or an empty list) or when an element of the
    prompt list is empty or not a string; no other prompt, whatever it
    holds, is rejected with a [ValidationError].  On responses, the
    searches of the LinkedIn scraper answer a 200 trigger response whose
    [snapshot_id] field is present but falsy with the failure result
    instead of polling. *)
Theorem search_rejects_exactly_bad_prompts {W : Type} `{Collaborators W}
    `{Session W} `{SearchBase W}
    (prompt : str_or_list pyval) (country index export_markdown_file : pyval)
    (poll_interval : Z) (poll_timeout : option Z) (w : world W)
    (keyword location company title industry level job_type : option string)
    (job_keyword : string) (max_results : Z) :
  (truthy (PerplexityScraper.prompt_value prompt) = false ->
     PerplexityScraper.search prompt country index export_markdown_file
       poll_interval poll_timeout w
     = (Raise (ValidationError "Prompt is required"), w)) /\
  (truthy (PerplexityScraper.prompt_value prompt) = true ->
   (exists p, p ∈ PerplexityScraper.prompts_of prompt /\
              (truthy p = false \/ isinstance_str p = false)) ->
     PerplexityScraper.search prompt country index export_markdown_file
       poll_interval poll_timeout w
     = (Raise (ValidationError "Each prompt must be a non-empty string"), w)) /\
  ((exists msg,
      PerplexityScraper.search_payload prompt country index export_markdown_file
      = Raise (ValidationError msg)) <->
   truthy (PerplexityScraper.prompt_value prompt) = false \/
   exists p, p ∈ PerplexityScraper.prompts_of prompt /\
             (truthy p = false \/ isinstance_str p = false)) /\
  (existsb opt_truthy [keyword; location; company; title] = true ->
   refuses_falsy_snapshot_id
     (LinkedInScraper.profiles_async keyword location company title
        max_results poll_interval poll_timeout)
     (LinkedInScraper.profiles_payload keyword location company title
        max_results)
     "gd_l1oojb10z2jye29kh" "Failed to trigger profile search") /\
  (existsb opt_truthy [keyword; location; industry] = true ->
   refuses_falsy_snapshot_id
     (LinkedInScraper.companies_async keyword location industry max_results
        poll_interval poll_timeout)
     (LinkedInScraper.companies_payload keyword location industry max_results)
     "gd_lhkq90okie75oj8mo" "Failed to trigger company search") /\
  (job_keyword <> "" ->
   refuses_falsy_snapshot_id
     (LinkedInScraper.jobs_async job_keyword location level job_type
        max_results poll_interval poll_timeout)
     (LinkedInScraper.jobs_payload job_keyword location level job_type
        max_results)
     "gd_lj4v2v5oqpp3qb79j" "Failed to trigger job search").
Proof.
  pose proof (linkedin_searches_refuse keyword location company title industry
                level job_type job_keyword max_results poll_interval
                poll_timeout) as Hlinkedin.
  unfold PerplexityScraper.search, PerplexityScraper.search_payload, bind, lift_pure.
  destruct (truthy (PerplexityScraper.prompt_value prompt)) eqn:Hprompt; cbn [negb].
  - split; [discriminate | split; [| split; [| exact Hlinkedin]]].
    + intros _ Hbad. apply existsb_bad_prompt in Hbad. rewrite Hbad. reflexivity.
    + rewrite <- existsb_bad_prompt.
      destruct (existsb PerplexityScraper.bad_prompt _) eqn:Hbad.
      * split; [auto | eauto].
      * split; [| intros [Hf | Hf]; discriminate Hf].
        intros [msg Hmsg]. exfalso.
        pose proof (build_payload_not_validation_error
                      (PerplexityScraper.prompts_of prompt)
                      (PerplexityScraper._normalize_param country
                         (len (PerplexityScraper.prompts_of prompt)) (PStr "US"))
                      (PerplexityScraper._normalize_param index
                         (len (PerplexityScraper.prompts_of prompt)) PNone)
                      (PerplexityScraper._normalize_param export_markdown_file
                         (len (PerplexityScraper.prompts_of prompt)) PNone))
          as Hnv.
        rewrite Hmsg in Hnv.
        exact Hnv.
  - split; [reflexivity | split; [discriminate | split; [| exact Hlinkedin]]].
    split; [auto | eauto].
Qed.

(** C6 as stated fails: a prompt that is present is rejected for the
    value it holds (an empty string, a list with an empty string, a list
    with an integer), while another value is accepted; and a response in
    which [snapshot_id] is present is refused for the value it holds (the
    empty string), while another value is polled. *)
Lemma search_rejects_a_present_value :
  fst (@PerplexityScraper.search bool (fixture canned_result) (OneStr "")
         (PStr "US") PNone PNone 10 None async_caller)
  = Raise (ValidationError "Prompt is required") /\
  fst (@PerplexityScraper.search bool (fixture canned_result)
         (ManyOf [PStr "What is Python?"; PStr ""])
         (PStr "US") PNone PNone 10 None async_caller)
  = Raise (ValidationError "Each prompt must be a non-empty string") /\
  fst (@PerplexityScraper.search bool (fixture canned_result)
         (ManyOf [PStr "What is Python?"; PInt 5])
         (PStr "US") PNone PNone 10 None async_caller)
  = Raise (ValidationError "Each prompt must be a non-empty string") /\
  fst (@PerplexityScraper.search bool (fixture canned_result)
         (OneStr "What is Python?") (PStr "us") PNone PNone 10 None async_caller)
  = Return (set_url "https://www.perplexity.ai" canned_result) /\
  @PerplexityScraper.search_payload
    (OneStr "What is Python?") (PStr "us") PNone PNone
  = Return [[("url", PStr "https://www.perplexity.ai");
             ("prompt", PStr "What is Python?"); ("country", PStr "US")]] /\
  ~ (forall (prompt : str_or_list pyval) (country index export_markdown_file : pyval),
       not_validation_error
         (PerplexityScraper.search_payload prompt country index
            export_markdown_file)) /\
  fst (@LinkedInScraper.jobs_async bool (fixture canned_result)
         (vendor (Response 200 (PDict [("snapshot_id", PStr "")]) ""))
         polling "python developer" None None None 10 10 None async_caller)
  = Return (SearchResultOf false "" "error"
              (Some "Failed to trigger job search") (Some "linkedin")) /\
  fst (@LinkedInScraper.jobs_async bool (fixture canned_result)
         (vendor (Response 200 (PDict [("snapshot_id", PStr "s_9z")]) ""))
         polling "python developer" None None None 10 10 None async_caller)
  = Return canned_search.
Proof.
  repeat split; try (vm_compute; reflexivity).
  intros Hall. exact (Hall (OneStr "") (PStr "US") PNone PNone).
Qed.

(** ** The trigger, poll and fetch workflow *)

(** A search validates its arguments, builds one payload and awaits the
    workflow executor once, with the caller's poll interval and with
    [poll_timeout or MIN_POLL_TIMEOUT] as the timeout. *)
Lemma search_runs_workflow_once {W : Type} `{Collaborators W}
    (prompt : str_or_list pyval) (country index export_markdown_file : pyval)
    (poll_interval : Z) (poll_timeout : option Z) (p : payload) (w : world W) :
  PerplexityScraper.search_payload prompt country index export_markdown_file
    = Return p ->
  PerplexityScraper.search prompt country index export_markdown_file
    poll_interval poll_timeout w
  = let r := workflow_execute p PerplexityScraper.DATASET_ID poll_interval
               (PerplexityScraper.timeout_or_min poll_timeout) true
               get_caller_function_name PerplexityScraper.normalize_result
               (st w) in
    (match fst r with
     | Return result => Return (set_url PerplexityScraper.PERPLEXITY_URL result)
     | Raise e => Raise e
     end,
     World (loop_running w)
       (events w ++ [EvExecute p PerplexityScraper.DATASET_ID]) (snd r)).
Proof.
  intros Hp. unfold PerplexityScraper.search, bind, lift_pure. rewrite Hp.
  rewrite call_execute_run. cbn zeta.
  destruct (workflow_execute _ _ _ _ _ _ _ _) as [[r | e] s']; reflexivity.
Qed.

Module WorkflowFacts.
Import WorkflowExecutor.

(** Among the first [n] checks either none finds the job ready, or there
    is a first one that does. *)
Lemma first_ready_check (P : nat -> bool) (n : nat) :
  (forall j, (j < n)%nat -> P j = false) \/
  (exists k, (k < n)%nat /\ P k = true /\ forall j, (j < k)%nat -> P j = false).
Proof.
  induction n as [| n [Hnone | (k & Hk & Hready & Hfirst)]].
  - left. intros j Hj. lia.
  - destruct (P n) eqn:Hn.
    + right. exists n. repeat split; [lia | exact Hn |].
      intros j Hj. apply Hnone. exact Hj.
    + left. intros j Hj. destruct (decide (j = n)) as [-> | Hne]; [exact Hn |].
      apply Hnone. lia.
  - right. exists k. repeat split; [lia | exact Hready | exact Hfirst].
Qed.

Lemma count_steps_app (f : step -> bool) (t1 t2 : list step) :
  count_steps f (t1 ++ t2) = (count_steps f t1 + count_steps f t2)%nat.
Proof. unfold count_steps. now rewrite filter_app, length_app. Qed.

Lemma count_steps_rounds (f : step -> bool) (k : nat) (sid : string) (i : Z) :
  (forall s, f (Sent (Status s)) = false) -> (forall z, f (Slept z) = false) ->
  count_steps f (rounds k sid i) = 0%nat.
Proof.
  intros Hs Hz. induction k as [| k IH]; [reflexivity |].
  unfold count_steps in *. cbn [rounds].
  rewrite !filter_cons, Hs, Hz.
  destruct (decide (false = true)) as [Hf | _]; [discriminate Hf | exact IH].
Qed.

Lemma ready_after_sleep (r : remote) (sid : string) (i : Z) (j : nat) :
  ready_at_check (sleep i (snd (check_status sid r))) i j
  = ready_at_check r i (S j).
Proof.
  unfold ready_at_check. cbn. do 2 f_equal. lia.
Qed.

Lemma after_rounds_sleep (r : remote) (sid : string) (i : Z) (k : nat)
    (last : list step) :
  after_rounds (sleep i (snd (check_status sid r))) k sid i last
  = after_rounds r (S k) sid i last.
Proof.
  unfold after_rounds. cbn. f_equal; [lia |].
  now rewrite <- !app_assoc.
Qed.

(** The job is first found ready at the [k]-th check, in time. *)
Lemma poll_finds_ready (k : nat) :
  forall (fuel : nat) (sid : string) (i t : Z) (norm : pyval -> pyval)
         (elapsed : Z) (r : remote),
    (k < fuel)%nat -> 0 <= i -> elapsed + Z.of_nat k * i <= t ->
    (forall j, (j < k)%nat -> ready_at_check r i j = false) ->
    ready_at_check r i k = true ->
    poll fuel sid i t norm elapsed r
    = Some (Return (norm (job_result r)),
            after_rounds r k sid i [Sent (Status sid); Sent (Fetch sid)]).
Proof.
  induction k as [| k IH]; intros fuel sid i t norm elapsed r Hfuel Hi Ht Hnot Hready;
    (destruct fuel as [| fuel]; [lia |]); cbn [poll].
  - destruct (Z.ltb_spec t elapsed) as [Hlate | _]; [lia |].
    unfold ready_at_check in Hready. cbn in Hready.
    rewrite Z.add_0_r in Hready. cbn. rewrite Hready.
    unfold after_rounds, record_step. cbn. do 2 f_equal.
    f_equal; [lia | now rewrite <- app_assoc].
  - destruct (Z.ltb_spec t elapsed) as [Hlate | _]; [lia |].
    pose proof (Hnot 0%nat ltac:(lia)) as H0.
    unfold ready_at_check in H0. cbn in H0. rewrite Z.add_0_r in H0.
    change (check_status sid r)
      with (job_status r (now r), snd (check_status sid r)).
    cbn iota beta. rewrite H0.
    rewrite (IH fuel sid i t norm (elapsed + i)
               (sleep i (snd (check_status sid r)))).
    + now rewrite after_rounds_sleep.
    + lia.
    + exact Hi.
    + lia.
    + intros j Hj. rewrite ready_after_sleep. apply Hnot. lia.
    + rewrite ready_after_sleep. exact Hready.
Qed.

(** No check within the timeout finds the job ready: [m] checks are made,
    the last one at most [t] seconds in, and the loop gives up. *)
Lemma poll_times_out (m : nat) :
  forall (fuel : nat) (sid : string) (i t : Z) (norm : pyval -> pyval)
         (elapsed : Z) (r : remote),
    (m < fuel)%nat -> t < elapsed + Z.of_nat m * i ->
    (forall j, (j < m)%nat -> elapsed + Z.of_nat j * i <= t) ->
    (forall j, (j < m)%nat -> ready_at_check r i j = false) ->
    poll fuel sid i t norm elapsed r
    = Some (Raise (TimeoutError "Polling timed out"), after_rounds r m sid i []).
Proof.
  induction m as [| m IH]; intros fuel sid i t norm elapsed r Hfuel Hover Hin Hnot;
    (destruct fuel as [| fuel]; [lia |]); cbn [poll].
  - destruct (Z.ltb_spec t elapsed) as [_ | Hearly]; [| lia].
    unfold after_rounds. cbn. destruct r as [n tr sn js jr]. cbn.
    do 3 f_equal; [lia | now rewrite app_nil_r].
  - pose proof (Hin 0%nat ltac:(lia)) as Hin0.
    destruct (Z.ltb_spec t elapsed) as [Hlate | _]; [lia |].
    pose proof (Hnot 0%nat ltac:(lia)) as H0.
    unfold ready_at_check in H0. cbn in H0. rewrite Z.add_0_r in H0.
    change (check_status sid r)
      with (job_status r (now r), snd (check_status sid r)).
    cbn iota beta. rewrite H0.
    rewrite (IH fuel sid i t norm (elapsed + i)
               (sleep i (snd (check_status sid r)))).
    + now rewrite after_rounds_sleep.
    + lia.
    + lia.
    + intros j Hj. specialize (Hin (S j) ltac:(lia)). lia.
    + intros j Hj. rewrite ready_after_sleep. apply Hnot. lia.
Qed.

(** C2. The trigger, poll and fetch workflow.  With a positive poll
    interval the executor terminates.  It sends exactly one trigger
    request, first; it then checks the job status, sleeping
    [poll_interval] seconds between two checks; at the first check that
    finds the job ready it fetches the results, once, and returns them
    normalized; and when no check made within [poll_timeout] seconds finds
    the job ready it stops with a timeout error, having fetched nothing. *)
Theorem execute_trigger_poll_fetch (p : payload) (ds : string)
    (poll_interval poll_timeout : Z) (norm : pyval -> pyval) (r : remote) :
  0 < poll_interval -> 0 <= poll_timeout ->
  exists fuel0, forall fuel, (fuel0 <= fuel)%nat ->
  exists out r' rest,
    execute fuel p ds poll_interval poll_timeout norm r = Some (out, r') /\
    trace r' = trace r ++ Sent (Trigger p ds) :: rest /\
    count_steps is_trigger rest = 0%nat /\
    ((exists k,
        Z.of_nat k * poll_interval <= poll_timeout /\
        ready_at_check r poll_interval k = true /\
        (forall j, (j < k)%nat -> ready_at_check r poll_interval j = false) /\
        out = Return (norm (job_result r)) /\
        rest = rounds k (job_snapshot_id r) poll_interval
               ++ [Sent (Status (job_snapshot_id r));
                   Sent (Fetch (job_snapshot_id r))] /\
        count_steps is_fetch rest = 1%nat /\
        now r' = now r + Z.of_nat k * poll_interval)
     \/
     ((forall j, Z.of_nat j * poll_interval <= poll_timeout ->
                 ready_at_check r poll_interval j = false) /\
      (exists msg, out = Raise (TimeoutError msg)) /\
      rest = rounds (Z.to_nat (poll_timeout / poll_interval) + 1)
               (job_snapshot_id r) poll_interval /\
      count_steps is_fetch rest = 0%nat)).
Proof.
  intros Hi Ht.
  set (m := (Z.to_nat (poll_timeout / poll_interval) + 1)%nat).
  set (sid := job_snapshot_id r).
  set (r1 := snd (trigger p ds r)).
  assert (Hdiv : 0 <= poll_timeout / poll_interval) by (apply Z.div_pos; lia).
  assert (Hm : Z.of_nat m = poll_timeout / poll_interval + 1) by (subst m; lia).
  assert (Hin : forall j, (j < m)%nat -> Z.of_nat j * poll_interval <= poll_timeout).
  { intros j Hj.
    pose proof (Z.mul_div_le poll_timeout poll_interval Hi). nia. }
  assert (Hready1 : forall j, ready_at_check r1 poll_interval j
                              = ready_at_check r poll_interval j) by reflexivity.
  exists (S m). intros fuel Hfuel. unfold execute.
  change (trigger p ds r) with (sid, r1). cbn iota beta.
  destruct (first_ready_check (ready_at_check r poll_interval) m)
    as [Hnone | (k & Hk & Hready & Hfirst)].
  - rewrite (poll_times_out m fuel sid poll_interval poll_timeout norm 0 r1).
    + do 3 eexists. split; [reflexivity |]. split; [| split].
      * cbn. rewrite app_nil_r, <- app_assoc. reflexivity.
      * apply count_steps_rounds; reflexivity.
      * right. repeat split.
        -- intros j Hj. apply Hnone.
           assert (Z.of_nat j <= poll_timeout / poll_interval)
             by (apply Z.div_le_lower_bound; lia).
           lia.
        -- eauto.
        -- apply count_steps_rounds; reflexivity.
    + lia.
    + pose proof (Z.mul_succ_div_gt poll_timeout poll_interval Hi). nia.
    + intros j Hj. specialize (Hin j Hj). lia.
    + intros j Hj. rewrite Hready1. now apply Hnone.
  - rewrite (poll_finds_ready k fuel sid poll_interval poll_timeout norm 0 r1).
    + do 3 eexists. split; [reflexivity |]. split; [| split].
      * cbn. rewrite <- app_assoc. reflexivity.
      * rewrite count_steps_app, count_steps_rounds by reflexivity. reflexivity.
      * left. exists k. repeat split; try assumption.
        -- now apply Hin.
        -- rewrite count_steps_app, count_steps_rounds by reflexivity.
           reflexivity.
    + lia.
    + lia.
    + specialize (Hin k Hk). lia.
    + intros j Hj. rewrite Hready1. now apply Hfirst.
    + rewrite Hready1. exact Hready.
Qed.

Lemma execute_trigger_poll_fetch_witness :
  0 < 10 /\ 0 <= 180 /\
  exists fuel0, forall fuel, (fuel0 <= fuel)%nat ->
  exists out r' rest,
    execute fuel [[("url", PStr "https://www.perplexity.ai")]]
      "gd_m7dhdot1vw9a7gc1n" 10 180 (fun v => v) slow_job = Some (out, r') /\
    trace r' = trace slow_job
               ++ Sent (Trigger [[("url", PStr "https://www.perplexity.ai")]]
                          "gd_m7dhdot1vw9a7gc1n") :: rest /\
    count_steps is_trigger rest = 0%nat.
Proof.
  split; [lia | split; [lia |]].
  destruct (execute_trigger_poll_fetch
              [[("url", PStr "https://www.perplexity.ai")]]
              "gd_m7dhdot1vw9a7gc1n" 10 180 (fun v => v) slow_job
              ltac:(lia) ltac:(lia)) as [fuel0 Hrun].
  exists fuel0. intros fuel Hfuel.
  destruct (Hrun fuel Hfuel) as (out & r' & rest & Hex & Htrace & Hone & _).
  exists out, r', rest. auto.
Defined.

Example slow_job_is_fetched_after_two_sleeps :
  execute 30 [[("url", PStr "https://www.perplexity.ai")]]
    "gd_m7dhdot1vw9a7gc1n" 10 180 (fun v => v) slow_job
  = Some (Return (PList [PDict [("answer_html", PStr "<p>42</p>")]]),
          Remote 20
            [Sent (Trigger [[("url", PStr "https://www.perplexity.ai")]]
                     "gd_m7dhdot1vw9a7gc1n");
             Sent (Status "s_1a2b3c"); Slept 10;
             Sent (Status "s_1a2b3c"); Slept 10;
             Sent (Status "s_1a2b3c"); Sent (Fetch "s_1a2b3c")]
            "s_1a2b3c" (job_status slow_job) (job_result slow_job)).
Proof. reflexivity. Qed.

Example slow_job_times_out_in_fifteen_seconds :
  fst <$> execute 30 [[("url", PStr "https://www.perplexity.ai")]]
            "gd_m7dhdot1vw9a7gc1n" 10 15 (fun v => v) slow_job
  = Some (Raise (TimeoutError "Polling timed out")) /\
  (trace ∘ snd) <$> execute 30 [[("url", PStr "https://www.perplexity.ai")]]
                      "gd_m7dhdot1vw9a7gc1n" 10 15 (fun v => v) slow_job
  = Some [Sent (Trigger [[("url", PStr "https://www.perplexity.ai")]]
                  "gd_m7dhdot1vw9a7gc1n");
          Sent (Status "s_1a2b3c"); Slept 10;
          Sent (Status "s_1a2b3c"); Slept 10].
Proof. split; reflexivity. Qed.

End WorkflowFacts.

(** * Further properties of the scrapers *)

(** ** Parameter normalization, continued *)

Lemma normalize_param_len (param : pyval) (n : Z) (d : pyval) :
  0 <= n -> len (TikTokScraper._normalize_param param n d) = n.
Proof.
  intros Hn. unfold TikTokScraper._normalize_param.
  destruct (is_none param); [apply len_list_mul; exact Hn |].
  destruct (isinstance_str_bool_int param); [apply len_list_mul; exact Hn |].
  destruct param; try (apply len_list_mul; exact Hn).
  destruct (Z.ltb_spec (len l) n) as [Hlt | Hge].
  - unfold len in *. rewrite length_app. unfold list_mul.
    rewrite repeat_length. lia.
  - rewrite slice_to_nonneg by exact Hn. unfold len in *.
    rewrite length_take. lia.
Qed.

Lemma normalize_param_list (l : list pyval) (n : Z) (d : pyval) :
  TikTokScraper._normalize_param (PList l) n d
  = if len l <? n
    then l ++ list_mul (if truthy (PList l) then List.last l PNone else d)
                (n - len l)
    else slice_to l n.
Proof. reflexivity. Qed.

(** X2. Normalising keeps what it was given and is stable: a list
    parameter keeps every element that lies before the target length at
    its position; and a list that [_normalize_param] produced for a target
    length passes through a second normalisation to the same length
    unchanged, whatever the default of the second. *)
Theorem normalize_param_stable (param : pyval) (n : Z) (d d' : pyval) :
  0 <= n ->
  (forall l i x,
     param = PList l -> l !! i = Some x -> Z.of_nat i < n ->
     TikTokScraper._normalize_param param n d !! i = Some x) /\
  TikTokScraper._normalize_param
    (PList (TikTokScraper._normalize_param param n d)) n d'
  = TikTokScraper._normalize_param param n d.
Proof.
  intros Hn. split.
  - intros l i x -> Hi Hlt. rewrite normalize_param_list.
    destruct (Z.ltb_spec (len l) n) as [Hshort | Hlong].
    + apply lookup_app_l_Some. exact Hi.
    + rewrite slice_to_nonneg by exact Hn.
      rewrite lookup_take_lt by lia. exact Hi.
  - pose proof (normalize_param_len param n d Hn) as Hlen.
    rewrite normalize_param_list. rewrite Hlen.
    rewrite Z.ltb_irrefl. rewrite slice_to_nonneg by exact Hn.
    apply take_ge. unfold len in Hlen. lia.
Qed.

Lemma normalize_param_stable_witness :
  TikTokScraper._normalize_param
    (PList (TikTokScraper._normalize_param (PList [PStr "US"; PStr "GB"]) 3
              (PStr ""))) 3 PNone
  = TikTokScraper._normalize_param (PList [PStr "US"; PStr "GB"]) 3 (PStr "").
Proof.
  apply (normalize_param_stable (PList [PStr "US"; PStr "GB"]) 3 (PStr "") PNone).
  lia.
Defined.

(** ** Validation comes before any request *)

Section FailFast.
Context {W : Type} `{Collaborators W}.

Lemma validate_raises (url : str_or_list string) (e : exn) (w : world W) :
  fst (TikTokScraper.validate url w) = Raise e ->
  TikTokScraper.validate url w = (Raise e, w).
Proof.
  destruct url; unfold TikTokScraper.validate, lift_pure; cbn; intros ->;
    reflexivity.
Qed.

Lemma validate_returns (url : str_or_list string) (w : world W) :
  fst (TikTokScraper.validate url w) = Return tt ->
  TikTokScraper.validate url w = (Return tt, w).
Proof.
  destruct url; unfold TikTokScraper.validate, lift_pure; cbn; intros ->;
    reflexivity.
Qed.

End FailFast.

(** X3. The collection methods of [TikTokScraper] and [YouTubeScraper]
    that take URLs validate them before anything else: when the validator
    ([validate_url] for a string, [validate_url_list] for a list) raises,
    [profiles], [posts], [comments], [posts_by_profile_fast],
    [posts_by_url_fast], and YouTube's [videos], [channels] and [comments]
    raise that very error, with no call of the workflow executor and
    nothing else done. *)
Theorem collection_methods_fail_fast {W : Type} `{Collaborators W}
    (url_arg : str_or_list string) (e : exn)
    (country language sort_by : option string) (n : option Z)
    (load_replies : option bool) (timeout : Z) (w : world W) :
  fst (TikTokScraper.validate url_arg w) = Raise e ->
  TikTokScraper.profiles url_arg country timeout w = (Raise e, w) /\
  TikTokScraper.posts url_arg country timeout w = (Raise e, w) /\
  TikTokScraper.comments url_arg timeout w = (Raise e, w) /\
  TikTokScraper.posts_by_profile_fast url_arg timeout w = (Raise e, w) /\
  TikTokScraper.posts_by_url_fast url_arg timeout w = (Raise e, w) /\
  YouTubeScraper.videos url_arg country language timeout w = (Raise e, w) /\
  YouTubeScraper.channels url_arg timeout w = (Raise e, w) /\
  YouTubeScraper.comments url_arg n load_replies sort_by timeout w
  = (Raise e, w).
Proof.
  intros Hv. apply validate_raises in Hv.
  unfold TikTokScraper.profiles, TikTokScraper.posts, TikTokScraper.comments,
    TikTokScraper.posts_by_profile_fast, TikTokScraper.posts_by_url_fast,
    YouTubeScraper.videos, YouTubeScraper.channels, YouTubeScraper.comments,
    bind.
  change (YouTubeScraper.validate url_arg) with (TikTokScraper.validate url_arg).
  rewrite Hv. repeat split.
Qed.

Lemma collection_methods_fail_fast_witness :
  fst (@TikTokScraper.validate bool (strict_fixture canned_result)
         (ManyOf ["https://www.tiktok.com/@a/video/1"; ""]) sync_caller)
  = Raise (ValidationError "URL cannot be empty") /\
  @TikTokScraper.comments bool (strict_fixture canned_result)
    (ManyOf ["https://www.tiktok.com/@a/video/1"; ""]) 240 sync_caller
  = (Raise (ValidationError "URL cannot be empty"), sync_caller).
Proof.
  split; [reflexivity |].
  apply (@collection_methods_fail_fast bool (strict_fixture canned_result)
           (ManyOf ["https://www.tiktok.com/@a/video/1"; ""])
           (ValidationError "URL cannot be empty") None None None None None
           240 sync_caller).
  reflexivity.
Defined.

(** ** The methods that return one result *)

Section SingleResult.
Context {W : Type} `{Collaborators W}.

(** A validated call of the executor followed by the single-URL
    unwrapping. *)
Lemma validated_execute_run (url_arg : str_or_list string) (p : payload)
    (ds : string) (timeout : Z) (norm : pyval -> pyval)
    (unwrap : ScrapeResult -> ScrapeResult) (w : world W) :
  fst (TikTokScraper.validate url_arg w) = Return tt ->
  fst (bind (TikTokScraper.validate url_arg)
         (fun _ =>
            bind (call_execute p ds DEFAULT_POLL_INTERVAL timeout true
                    get_caller_function_name norm)
                 (fun result => ret (unwrap result))) w)
  = obind (fst (workflow_execute p ds DEFAULT_POLL_INTERVAL timeout true
                  get_caller_function_name norm (st w)))
      (fun result => Return (unwrap result)).
Proof.
  intros Hv. apply validate_returns in Hv. unfold bind at 1. rewrite Hv.
  unfold bind. rewrite call_execute_run. cbn.
  destruct (workflow_execute _ _ _ _ _ _ _ _) as [[r | e] s']; reflexivity.
Qed.

End SingleResult.

(** X4. [comments] and [posts_by_url_fast] of [TikTokScraper], and
    [videos], [channels] and [comments] of [YouTubeScraper], never split a
    batch: once the URLs are validated, what they return is what the one
    workflow execution returns, passed through an unwrapping that leaves
    the result of a URL list untouched (one result holding all the data,
    its [url] as the executor set it), that turns the result of a single
    URL whose data is a list of one item into that item under that URL,
    and that leaves every other result of a single URL untouched. *)
Theorem single_result_methods_keep_batch_whole {W : Type} `{Collaborators W}
    (url_arg : str_or_list string) (country language sort_by : option string)
    (n : option Z) (load_replies : option bool) (timeout : Z) (w : world W) :
  fst (TikTokScraper.validate url_arg w) = Return tt ->
  let executed p ds norm :=
    obind (fst (workflow_execute p ds DEFAULT_POLL_INTERVAL timeout true
                  get_caller_function_name norm (st w)))
      (fun result => Return (TikTokScraper.unwrap_single url_arg result)) in
  (fst (TikTokScraper.comments url_arg timeout w)
   = executed (TikTokScraper.url_only_payload url_arg)
       TikTokScraper.DATASET_ID_COMMENTS TikTokScraper.normalize_result /\
   fst (TikTokScraper.posts_by_url_fast url_arg timeout w)
   = executed (TikTokScraper.url_only_payload url_arg)
       TikTokScraper.DATASET_ID_POSTS_BY_URL_FAST
       TikTokScraper.normalize_result /\
   fst (YouTubeScraper.videos url_arg country language timeout w)
   = executed (YouTubeScraper.videos_payload url_arg country language)
       YouTubeScraper.DATASET_ID_VIDEOS YouTubeScraper.normalize_result /\
   fst (YouTubeScraper.channels url_arg timeout w)
   = executed (TikTokScraper.url_only_payload url_arg)
       YouTubeScraper.DATASET_ID_CHANNELS YouTubeScraper.normalize_result /\
   fst (YouTubeScraper.comments url_arg n load_replies sort_by timeout w)
   = executed (YouTubeScraper.comments_payload url_arg n load_replies sort_by)
       YouTubeScraper.DATASET_ID_COMMENTS YouTubeScraper.normalize_result) /\
  forall result : ScrapeResult,
    (forall urls, url_arg = ManyOf urls ->
       TikTokScraper.unwrap_single url_arg result = result) /\
    (forall u item, url_arg = OneStr u -> data result = PList [item] ->
       TikTokScraper.unwrap_single url_arg result
       = set_data item (set_url u result)) /\
    (forall u, url_arg = OneStr u ->
       (forall item, data result <> PList [item]) ->
       TikTokScraper.unwrap_single url_arg result = result).
Proof.
  intros Hv executed. split.
  - unfold executed. repeat split;
      apply (validated_execute_run url_arg _ _ timeout _ _ w Hv).
  - intros result. split; [| split].
    + intros urls ->. reflexivity.
    + intros u item -> Hd. unfold TikTokScraper.unwrap_single.
      rewrite Hd. reflexivity.
    + intros u -> Hne. unfold TikTokScraper.unwrap_single.
      destruct (data result) as [| | | | | l |] eqn:Hd; try reflexivity.
      destruct l as [| x [| y l]]; try reflexivity.
      * exfalso. apply (Hne x). reflexivity.
      * cbn [TikTokScraper.is_single isinstance_list TikTokScraper.items_of
             andb].
        destruct (Z.eqb_spec (len (x :: y :: l)) 1) as [Hlen | _];
          [| reflexivity].
        unfold len in Hlen. cbn [length] in Hlen. lia.
Qed.

Lemma single_result_methods_keep_batch_whole_witness :
  fst (@TikTokScraper.validate bool (fixture canned_result)
         (ManyOf ["https://www.tiktok.com/@a/video/1";
                  "https://www.tiktok.com/@a/video/2"]) async_caller)
  = Return tt /\
  fst (@TikTokScraper.comments bool (fixture canned_result)
         (ManyOf ["https://www.tiktok.com/@a/video/1";
                  "https://www.tiktok.com/@a/video/2"]) 240 async_caller)
  = Return canned_result.
Proof.
  split; [reflexivity |].
  destruct (@single_result_methods_keep_batch_whole bool (fixture canned_result)
              (ManyOf ["https://www.tiktok.com/@a/video/1";
                       "https://www.tiktok.com/@a/video/2"])
              None None None None None 240 async_caller eq_refl)
    as [[Hcomments _] _].
  rewrite Hcomments. reflexivity.
Defined.

(** ** What the fan-out keeps of the workflow result *)

Lemma map_zip_fst {A B C} (f : A * B -> C) (g : C -> A) (xs : list A)
    (ys : list B) :
  (forall x y, g (f (x, y)) = x) -> length xs = length ys ->
  map g (map f (zip xs ys)) = xs.
Proof.
  intros Hg. revert ys.
  induction xs as [| x xs IH]; intros [| y ys] Hlen; try discriminate;
    [reflexivity |].
  cbn. rewrite Hg. f_equal. apply IH. cbn in Hlen. lia.
Qed.

Lemma map_zip_snd {A B C} (f : A * B -> C) (g : C -> B) (xs : list A)
    (ys : list B) :
  (forall x y, g (f (x, y)) = y) -> length xs = length ys ->
  map g (map f (zip xs ys)) = ys.
Proof.
  intros Hg. revert ys.
  induction xs as [| x xs IH]; intros [| y ys] Hlen; try discriminate;
    [reflexivity |].
  cbn. rewrite Hg. f_equal. apply IH. cbn in Hlen. lia.
Qed.

(** X5. The per-URL results of the fan-out are cut from the workflow
    result: for a list of URLs and data that is a list, every result of
    the fan-out carries the platform, the method, the snapshot id and the
    four time stamps of the workflow result, and they all carry the same
    cost; and when there are as many data items as URLs nothing is lost or
    reordered: the URLs of the results are the input URLs and their data
    are the data items, in order. *)
Theorem fan_out_keeps_metadata (urls : list string) (items : list pyval)
    (result : ScrapeResult) :
  data result = PList items ->
  exists rs,
    TikTokScraper.fan_out (ManyOf urls) result = ResultList rs /\
    (forall r, r ∈ rs ->
       platform r = platform result /\ method r = method result /\
       snapshot_id r = snapshot_id result /\
       trigger_sent_at r = trigger_sent_at result /\
       snapshot_id_received_at r = snapshot_id_received_at result /\
       snapshot_polled_at r = snapshot_polled_at result /\
       data_fetched_at r = data_fetched_at result) /\
    (forall r r', r ∈ rs -> r' ∈ rs -> cost r = cost r') /\
    (length urls = length items ->
     map url rs = urls /\ map data rs = items).
Proof.
  intros Hd. eexists. split; [| split; [| split]].
  - unfold TikTokScraper.fan_out. rewrite Hd. cbn. reflexivity.
  - intros r Hr. apply list_elem_of_In, in_map_iff in Hr.
    destruct Hr as ([u item] & <- & _). cbn. repeat split.
  - intros r r' Hr Hr'.
    apply list_elem_of_In, in_map_iff in Hr, Hr'.
    destruct Hr as ([u item] & <- & _). destruct Hr' as ([u' item'] & <- & _).
    reflexivity.
  - intros Hlen. split.
    + apply map_zip_fst; [reflexivity | exact Hlen].
    + apply map_zip_snd; [reflexivity | exact Hlen].
Qed.

Lemma fan_out_keeps_metadata_witness :
  data canned_result
  = PList [PDict [("id", PInt 1)]; PDict [("id", PInt 2)]] /\
  exists rs,
    TikTokScraper.fan_out (ManyOf ["https://t/1"; "https://t/2"]) canned_result
    = ResultList rs /\
    map url rs = ["https://t/1"; "https://t/2"] /\
    map snapshot_id rs = [Some "s_1a2b3c"; Some "s_1a2b3c"].
Proof.
  split; [reflexivity |].
  destruct (fan_out_keeps_metadata ["https://t/1"; "https://t/2"]
              [PDict [("id", PInt 1)]; PDict [("id", PInt 2)]]
              canned_result eq_refl) as (rs & Hrs & _ & _ & Hlossless).
  exists rs. split; [exact Hrs |].
  destruct (Hlossless eq_refl) as [Hurls _]. split; [exact Hurls |].
  cbn in Hrs. injection Hrs as <-. reflexivity.
Defined.

(** ** Payloads built by position *)

(** A comprehension over [range(len(xs))] that indexes two lists of the
    same length is the comprehension over their pairs. *)
Lemma map_seq_nth_zip {A B C} (f : A -> B -> C) (xs : list A) (ys : list B)
    (dx : A) (dy : B) :
  length ys = length xs ->
  map (fun i => f (nth i xs dx) (nth i ys dy)) (seq 0 (length xs))
  = map (fun '(x, y) => f x y) (zip xs ys).
Proof.
  revert ys. induction xs as [| x xs IH]; intros [| y ys] Hlen;
    try discriminate; [reflexivity |].
  cbn [length seq map zip zip_with nth]. f_equal.
  rewrite <- seq_shift, map_map. cbn [nth]. apply IH.
  cbn in Hlen. lia.
Qed.

Lemma map_seq_nth_zip3 {A B C D} (f : A -> B -> C -> D) (xs : list A)
    (ys : list B) (zs : list C) (dx : A) (dy : B) (dz : C) :
  length ys = length xs -> length zs = length xs ->
  map (fun i => f (nth i xs dx) (nth i ys dy) (nth i zs dz))
      (seq 0 (length xs))
  = map (fun '(x, (y, z)) => f x y z) (zip xs (zip ys zs)).
Proof.
  revert ys zs.
  induction xs as [| x xs IH]; intros [| y ys] [| z zs] Hy Hz;
    try discriminate; [reflexivity |].
  cbn [length seq map zip zip_with nth]. f_equal.
  rewrite <- seq_shift, map_map. cbn [nth]. apply IH.
  - cbn in Hy. lia.
  - cbn in Hz. lia.
Qed.

Lemma normalize_param_length {A} (param : pyval) (xs : list A) (d : pyval) :
  length (TikTokScraper._normalize_param param (len xs) d) = length xs.
Proof.
  pose proof (normalize_param_len param (len xs) d (len_nonneg xs)) as Hlen.
  unfold len at 1 3 in Hlen. lia.
Qed.

Lemma to_nat_len {A} (l : list A) : Z.to_nat (len l) = length l.
Proof. unfold len. apply Nat2Z.id. Qed.

(** What a scalar, an absent and a list parameter become at a position. *)
Lemma normalize_param_at (param : pyval) (n : Z) (d : pyval) (i : nat)
    (c : pyval) :
  0 <= n ->
  TikTokScraper._normalize_param param n d !! i = Some c ->
  (param = PNone -> c = d) /\
  (isinstance_str_bool_int param = true -> c = param) /\
  (forall l x, param = PList l -> l !! i = Some x -> c = x).
Proof.
  intros Hn Hc. split; [| split].
  - intros ->. cbn in Hc. unfold list_mul in Hc.
    apply list_elem_of_lookup_2, list_elem_of_In, repeat_spec in Hc.
    exact Hc.
  - intros Hs. unfold TikTokScraper._normalize_param in Hc. rewrite Hs in Hc.
    destruct (is_none param) eqn:Hnone.
    + destruct param; discriminate.
    + unfold list_mul in Hc.
      apply list_elem_of_lookup_2, list_elem_of_In, repeat_spec in Hc.
      exact Hc.
  - intros l x -> Hx. rewrite normalize_param_list in Hc.
    destruct (Z.ltb_spec (len l) n) as [Hshort | Hlong].
    + rewrite (lookup_app_l_Some _ _ _ _ Hx) in Hc. congruence.
    + rewrite slice_to_nonneg in Hc by exact Hn.
      apply lookup_take_Some in Hc. destruct Hc as [Hc _]. congruence.
Qed.

(** X6. [posts_by_search_url_fast] sends its URLs unvalidated in one
    workflow execution whose payload has one item per URL, in input
    order: the normalised [country] and [num_of_posts] lists are exactly
    as long as the URL list (no index of the loop is out of range), and
    item [i] is built from URL [i], country [i] and number [i].  A
    [country] that is [None] puts the empty string on every item, a scalar
    [country] or [num_of_posts] is repeated on every item. *)
Theorem search_url_payload_by_position {W : Type} `{Collaborators W}
    (url_arg : str_or_list string) (num_of_posts country : pyval)
    (start_date : option string) (timeout : Z) (w : world W) :
  let urls := TikTokScraper.url_list_of url_arg in
  let countries := TikTokScraper._normalize_param country (len urls) (PStr "") in
  let nums := TikTokScraper._normalize_param num_of_posts (len urls) PNone in
  let p := map (fun '(u, (c, n)) =>
                  TikTokScraper.search_url_item u c n start_date)
               (zip urls (zip countries nums)) in
  length countries = length urls /\
  length nums = length urls /\
  length p = length urls /\
  executions
    (events (snd (TikTokScraper.posts_by_search_url_fast url_arg num_of_posts
                    country start_date timeout w)))
  = executions (events w) ++ [p] /\
  (forall i c, countries !! i = Some c ->
     (country = PNone -> c = PStr "") /\
     (isinstance_str_bool_int country = true -> c = country)) /\
  (forall i n, nums !! i = Some n ->
     (num_of_posts = PNone -> n = PNone) /\
     (isinstance_str_bool_int num_of_posts = true -> n = num_of_posts)).
Proof.
  intros urls countries nums p.
  assert (Hc : length countries = length urls)
    by apply normalize_param_length.
  assert (Hn : length nums = length urls) by apply normalize_param_length.
  split; [exact Hc |]. split; [exact Hn |]. split; [| split; [| split]].
  - unfold p. rewrite length_map, !length_zip. lia.
  - unfold TikTokScraper.posts_by_search_url_fast. rewrite call_execute_run.
    cbn [snd events]. rewrite executions_app. cbn [executions omap].
    rewrite to_nat_len.
    fold urls countries nums.
    rewrite (map_seq_nth_zip3
               (fun u c n => TikTokScraper.search_url_item u c n start_date)
               urls countries nums "" PNone PNone Hc Hn).
    reflexivity.
  - intros i c Hi.
    destruct (normalize_param_at country (len urls) (PStr "") i c
                (len_nonneg urls) Hi) as (H1 & H2 & _).
    split; assumption.
  - intros i n Hi.
    destruct (normalize_param_at num_of_posts (len urls) PNone i n
                (len_nonneg urls) Hi) as (H1 & H2 & _).
    split; assumption.
Qed.

(** ** The payload of the Perplexity search *)

Lemma for_each_Return_inv {A B} (f : A -> outcome B) (l : list A)
    (ys : list B) :
  for_each f l = Return ys ->
  length ys = length l /\
  forall i y, ys !! i = Some y -> exists x, l !! i = Some x /\ f x = Return y.
Proof.
  revert ys. induction l as [| x l IH]; intros ys; cbn.
  - intros [= <-]. split; [reflexivity | intros i y Hy; discriminate].
  - destruct (f x) as [y0 | e] eqn:Hx; cbn; [| discriminate].
    destruct (for_each f l) as [ys0 | e]; cbn; [| discriminate].
    intros [= <-]. destruct (IH ys0 eq_refl) as [Hlen Hith].
    split; [cbn; congruence |].
    intros [| i] y Hy; cbn in Hy.
    + injection Hy as <-. exists x. split; [reflexivity | exact Hx].
    + apply Hith. exact Hy.
Qed.

Lemma for_each_Raise_inv {A B} (f : A -> outcome B) (l : list A) (e : exn) :
  for_each f l = Raise e -> exists x, x ∈ l /\ f x = Raise e.
Proof.
  induction l as [| x l IH]; cbn; [discriminate |].
  destruct (f x) as [y0 | e0] eqn:Hx; cbn.
  - destruct (for_each f l) as [ys0 | e0]; cbn; [discriminate |].
    intros [= <-]. destruct (IH eq_refl) as (x' & Hin & Hx').
    exists x'. split; [now apply list_elem_of_further | exact Hx'].
  - intros [= <-]. exists x. split; [apply list_elem_of_here | exact Hx].
Qed.

Lemma for_each_total {A B} (f : A -> outcome B) (l : list A) :
  (forall x, x ∈ l -> exists y, f x = Return y) ->
  exists ys, for_each f l = Return ys.
Proof.
  induction l as [| x l IH]; intros Hf; cbn; [eauto |].
  destruct (Hf x (list_elem_of_here _ _)) as [y ->]. cbn.
  destruct IH as [ys ->].
  - intros x' Hin. apply Hf. now apply list_elem_of_further.
  - cbn. eauto.
Qed.

(** Closes an equation between boolean tests of a key [k] by cases on
    the tests. *)
Ltac by_key k :=
  unfold has_key; cbn;
  repeat match goal with
         | |- context [String.eqb k ?s] => destruct (String.eqb k s)
         end;
  reflexivity.

(** The keys of an item that was built. *)
Lemma build_item_keys (p c i e : pyval) (item : list (string * pyval)) :
  PerplexityScraper.build_item p c i e = Return item ->
  forall k,
    has_key item k
    = String.eqb k "url" || String.eqb k "prompt"
      || (String.eqb k "country" && truthy c)
      || (String.eqb k "index" && negb (is_none i))
      || (String.eqb k "export_markdown_file" && negb (is_none e)).
Proof.
  unfold PerplexityScraper.build_item.
  destruct (truthy c) eqn:Hc.
  - destruct c; cbn; try discriminate.
    destruct i, e; cbn; intros [= <-] k; by_key k.
  - destruct i, e; cbn; intros [= <-] k; by_key k.
Qed.

(** What an item that was built holds under each of its keys. *)
Lemma build_item_Return (p c i e : pyval) (item : list (string * pyval)) :
  PerplexityScraper.build_item p c i e = Return item ->
  country_ok c = true /\
  dict_get item "url" = PStr PerplexityScraper.PERPLEXITY_URL /\
  dict_get item "prompt" = p /\
  dict_get item "country"
  = (match c with
     | PStr s => if String.eqb s "" then PNone else PStr (str_upper s)
     | _ => PNone
     end) /\
  dict_get item "index" = i /\
  dict_get item "export_markdown_file" = e.
Proof.
  unfold PerplexityScraper.build_item, country_ok.
  destruct (truthy c) eqn:Hc.
  - destruct c; cbn; try discriminate.
    destruct (String.eqb_spec s "") as [-> | Hs]; [discriminate Hc |].
    destruct i, e; cbn; intros [= <-]; repeat split.
  - assert (Hcountry : match c with
                       | PStr s => if String.eqb s "" then PNone
                                   else PStr (str_upper s)
                       | _ => PNone
                       end = PNone).
    { destruct c; try reflexivity. cbn in Hc.
      destruct (String.eqb s ""); [reflexivity | discriminate]. }
    rewrite Hcountry.
    destruct i, e; cbn; intros [= <-]; repeat split.
Qed.

Lemma build_item_total (p c i e : pyval) :
  country_ok c = true ->
  exists item, PerplexityScraper.build_item p c i e = Return item.
Proof.
  unfold PerplexityScraper.build_item, country_ok.
  destruct (truthy c) eqn:Hc; cbn.
  - destruct c; cbn; try discriminate. intros _. eauto.
  - intros _. eauto.
Qed.

Lemma build_item_Raise (p c i e : pyval) (err : exn) :
  PerplexityScraper.build_item p c i e = Raise err ->
  country_ok c = false /\ exists msg, err = AttributeError msg.
Proof.
  unfold PerplexityScraper.build_item, country_ok.
  destruct (truthy c) eqn:Hc; cbn; [| discriminate].
  destruct c; cbn; try (intros [= <-]; split; [reflexivity | eauto]).
  discriminate.
Qed.

Lemma build_payload_Return (ps cs ixs es : list pyval) (p : payload) :
  length cs = length ps ->
  PerplexityScraper.build_payload ps cs ixs es = Return p ->
  length p = length ps /\
  forallb country_ok cs = true /\
  forall i item, p !! i = Some item ->
    (i < length ps)%nat /\
    PerplexityScraper.build_item (nth i ps PNone) (nth i cs PNone)
      (nth i ixs PNone) (nth i es PNone) = Return item.
Proof.
  intros Hcs Hp. unfold PerplexityScraper.build_payload in Hp.
  apply for_each_Return_inv in Hp. destruct Hp as [Hlen Hith].
  rewrite length_seq in Hlen.
  assert (Hitems : forall i item, p !! i = Some item ->
            (i < length ps)%nat /\
            PerplexityScraper.build_item (nth i ps PNone) (nth i cs PNone)
              (nth i ixs PNone) (nth i es PNone) = Return item).
  { intros i item Hi. destruct (Hith i item Hi) as (x & Hx & Hbuild).
    apply lookup_seq in Hx. destruct Hx as [-> Hlt]. cbn in Hbuild.
    split; [exact Hlt | exact Hbuild]. }
  split; [exact Hlen |]. split; [| exact Hitems].
  apply forallb_forall. intros c Hin.
  destruct (In_nth cs c PNone Hin) as (i & Hlt & <-).
  destruct (lookup_lt_is_Some_2 p i) as [item Hitem]; [lia |].
  destruct (Hitems i item Hitem) as [_ Hbuild].
  apply build_item_Return in Hbuild. apply Hbuild.
Qed.

Lemma build_payload_total (ps cs ixs es : list pyval) :
  length cs = length ps ->
  forallb country_ok cs = true ->
  exists p, PerplexityScraper.build_payload ps cs ixs es = Return p.
Proof.
  intros Hcs Hok. unfold PerplexityScraper.build_payload.
  apply for_each_total. intros i Hi. apply elem_of_seq in Hi.
  apply build_item_total.
  rewrite forallb_forall in Hok. apply Hok. apply nth_In. lia.
Qed.

Lemma build_payload_Raise (ps cs ixs es : list pyval) (err : exn) :
  PerplexityScraper.build_payload ps cs ixs es = Raise err ->
  exists msg, err = AttributeError msg.
Proof.
  intros Hp. unfold PerplexityScraper.build_payload in Hp.
  apply for_each_Raise_inv in Hp. destruct Hp as (i & _ & Hbuild).
  apply build_item_Raise in Hbuild. apply Hbuild.
Qed.

Lemma search_payload_accepted (prompt : str_or_list pyval)
    (country index e : pyval) (p : payload) :
  PerplexityScraper.search_payload prompt country index e = Return p ->
  truthy (PerplexityScraper.prompt_value prompt) = true /\
  existsb PerplexityScraper.bad_prompt (PerplexityScraper.prompts_of prompt)
  = false /\
  PerplexityScraper.search_trigger_payload prompt country index e = Return p.
Proof.
  unfold PerplexityScraper.search_payload,
    PerplexityScraper.search_trigger_payload.
  destruct (truthy (PerplexityScraper.prompt_value prompt)); cbn;
    [| discriminate].
  destruct (existsb PerplexityScraper.bad_prompt _); [discriminate |].
  auto.
Qed.

(** X7. The payload of an accepted Perplexity search has one item per
    prompt, in input order.  Item [i] is made of prompt [i] and of the
    values at position [i] of the normalised [country], [index] and
    [export_markdown_file]: it holds the fixed Perplexity URL and the
    prompt; it has the key [country] exactly when the country is truthy,
    and then, for a country of ASCII characters, its upper-cased form; it
    has the keys [index] and [export_markdown_file] exactly when the value
    is not [None], and then that value; it has no other key.  The values
    at a position are: for [country], ["US"] when the argument is [None],
    the argument when it is a str (so the empty string leaves the key
    out), the element at that position when it is a list; for [index] and
    [export_markdown_file], [None] when the argument is [None] and the
    argument when it is a scalar. *)
Theorem search_payload_by_position (prompt : str_or_list pyval)
    (country index export_markdown_file : pyval) (p : payload) :
  PerplexityScraper.search_payload prompt country index export_markdown_file
  = Return p ->
  length p = length (PerplexityScraper.prompts_of prompt) /\
  forall i item, p !! i = Some item ->
    exists q c ix ex,
      PerplexityScraper.prompts_of prompt !! i = Some q /\
      dict_get item "url" = PStr PerplexityScraper.PERPLEXITY_URL /\
      dict_get item "prompt" = q /\
      has_key item "country" = truthy c /\
      (forall s, c = PStr s -> s <> "" -> is_ascii s = true ->
         dict_get item "country" = PStr (str_upper s)) /\
      has_key item "index" = negb (is_none ix) /\
      dict_get item "index" = ix /\
      has_key item "export_markdown_file" = negb (is_none ex) /\
      dict_get item "export_markdown_file" = ex /\
      (forall k,
         has_key item k
         = String.eqb k "url" || String.eqb k "prompt"
           || (String.eqb k "country" && truthy c)
           || (String.eqb k "index" && negb (is_none ix))
           || (String.eqb k "export_markdown_file" && negb (is_none ex))) /\
      (country = PNone -> c = PStr "US") /\
      (forall s, country = PStr s -> c = PStr s) /\
      (forall l x, country = PList l -> l !! i = Some x -> c = x) /\
      (index = PNone -> ix = PNone) /\
      (isinstance_str_bool_int index = true -> ix = index) /\
      (export_markdown_file = PNone -> ex = PNone) /\
      (isinstance_str_bool_int export_markdown_file = true ->
       ex = export_markdown_file).
Proof.
  intros Hp. pose proof (search_payload_accepted _ _ _ _ _ Hp)
    as (Hprompt & Hbad & _).
  unfold PerplexityScraper.search_payload in Hp.
  rewrite Hprompt, Hbad in Hp. cbn [negb] in Hp.
  set (prompts := PerplexityScraper.prompts_of prompt) in *.
  set (countries := PerplexityScraper._normalize_param country _ _) in Hp.
  set (indices := PerplexityScraper._normalize_param index _ _) in Hp.
  set (exports := PerplexityScraper._normalize_param export_markdown_file _ _)
    in Hp.
  assert (Hc : length countries = length prompts)
    by apply normalize_param_length.
  assert (Hi : length indices = length prompts)
    by apply normalize_param_length.
  assert (He : length exports = length prompts)
    by apply normalize_param_length.
  destruct (build_payload_Return _ _ _ _ _ Hc Hp) as (Hlen & _ & Hitems).
  split; [exact Hlen |]. intros i item Hitem.
  destruct (Hitems i item Hitem) as [Hlt Hbuild].
  pose proof (build_item_keys _ _ _ _ _ Hbuild) as Hkeys.
  apply build_item_Return in Hbuild.
  destruct Hbuild as (_ & Hurl & Hq & Hcountry & Hindex & Hexport).
  destruct (lookup_lt_is_Some_2 prompts i Hlt) as [q Hqi].
  destruct (lookup_lt_is_Some_2 countries i ltac:(lia)) as [c Hci].
  destruct (lookup_lt_is_Some_2 indices i ltac:(lia)) as [ix Hixi].
  destruct (lookup_lt_is_Some_2 exports i ltac:(lia)) as [ex Hexi].
  rewrite (nth_lookup_Some _ _ _ _ Hqi) in Hq.
  rewrite (nth_lookup_Some _ _ _ _ Hci) in Hcountry, Hkeys.
  rewrite (nth_lookup_Some _ _ _ _ Hixi) in Hindex, Hkeys.
  rewrite (nth_lookup_Some _ _ _ _ Hexi) in Hexport, Hkeys.
  destruct (normalize_param_at country (len prompts) (PStr "US") i c
              (len_nonneg prompts) Hci) as (Hc1 & Hc2 & Hc3).
  destruct (normalize_param_at index (len prompts) PNone i ix
              (len_nonneg prompts) Hixi) as (Hi1 & Hi2 & _).
  destruct (normalize_param_at export_markdown_file (len prompts) PNone i ex
              (len_nonneg prompts) Hexi) as (He1 & He2 & _).
  exists q, c, ix, ex.
  split; [exact Hqi |]. split; [exact Hurl |]. split; [exact Hq |].
  split; [rewrite Hkeys; cbn; rewrite ?orb_false_r; reflexivity |].
  split.
  { intros s -> Hs _. rewrite Hcountry.
    destruct (String.eqb_spec s "") as [| _]; [contradiction | reflexivity]. }
  split; [rewrite Hkeys; cbn; rewrite ?orb_false_r; reflexivity |]. split; [exact Hindex |].
  split; [rewrite Hkeys; cbn; rewrite ?orb_false_r; reflexivity |]. split; [exact Hexport |].
  split; [exact Hkeys |].
  split; [exact Hc1 |].
  split; [intros s Hs; rewrite <- Hs; apply Hc2; rewrite Hs; reflexivity |].
  split; [exact Hc3 |].
  split; [exact Hi1 |]. split; [exact Hi2 |]. split; [exact He1 | exact He2].
Qed.

Lemma search_payload_by_position_witness :
  PerplexityScraper.search_payload
    (ManyOf [PStr "What is Python?"; PStr "What is Rust?"]) (PStr "gb")
    PNone PNone
  = Return [[("url", PStr "https://www.perplexity.ai");
             ("prompt", PStr "What is Python?"); ("country", PStr "GB")];
            [("url", PStr "https://www.perplexity.ai");
             ("prompt", PStr "What is Rust?"); ("country", PStr "GB")]] /\
  length [[("url", PStr "https://www.perplexity.ai");
           ("prompt", PStr "What is Python?"); ("country", PStr "GB")];
          [("url", PStr "https://www.perplexity.ai");
           ("prompt", PStr "What is Rust?"); ("country", PStr "GB")]]
  = length (PerplexityScraper.prompts_of
              (ManyOf [PStr "What is Python?"; PStr "What is Rust?"])).
Proof.
  split; [reflexivity |].
  apply (search_payload_by_position
           (ManyOf [PStr "What is Python?"; PStr "What is Rust?"]) (PStr "gb")
           PNone PNone).
  reflexivity.
Defined.

(** X8. Past the prompt check, the Perplexity search fails only on a
    country without [upper]: for a prompt that [search] accepts, the
    payload is built when every normalised country is falsy or a str, and
    otherwise payload construction raises an [AttributeError], which is
    what [search] raises, before any request.  A [country] that is [None]
    or a str never fails. *)
Theorem search_payload_fails_only_on_country {W : Type} `{Collaborators W}
    (prompt : str_or_list pyval) (country index export_markdown_file : pyval)
    (poll_interval : Z) (poll_timeout : option Z) (w : world W) :
  truthy (PerplexityScraper.prompt_value prompt) = true ->
  existsb PerplexityScraper.bad_prompt (PerplexityScraper.prompts_of prompt)
  = false ->
  let countries :=
    PerplexityScraper._normalize_param country
      (len (PerplexityScraper.prompts_of prompt)) (PStr "US") in
  (forallb country_ok countries = true ->
   exists p,
     PerplexityScraper.search_payload prompt country index export_markdown_file
     = Return p) /\
  (forallb country_ok countries = false ->
   exists msg,
     PerplexityScraper.search prompt country index export_markdown_file
       poll_interval poll_timeout w
     = (Raise (AttributeError msg), w)) /\
  (country = PNone \/ isinstance_str country = true ->
   forallb country_ok countries = true).
Proof.
  intros Hprompt Hbad countries.
  assert (Hc : length countries = length (PerplexityScraper.prompts_of prompt))
    by apply normalize_param_length.
  assert (Heq : PerplexityScraper.search_payload prompt country index
                  export_markdown_file
                = PerplexityScraper.build_payload
                    (PerplexityScraper.prompts_of prompt) countries
                    (PerplexityScraper._normalize_param index
                       (len (PerplexityScraper.prompts_of prompt)) PNone)
                    (PerplexityScraper._normalize_param export_markdown_file
                       (len (PerplexityScraper.prompts_of prompt)) PNone)).
  { unfold PerplexityScraper.search_payload. rewrite Hprompt, Hbad.
    reflexivity. }
  split; [| split].
  - intros Hok. rewrite Heq. apply build_payload_total; assumption.
  - intros Hko. unfold PerplexityScraper.search, bind, lift_pure.
    rewrite Heq.
    destruct (PerplexityScraper.build_payload _ _ _ _) as [p | err] eqn:Hp.
    + destruct (build_payload_Return _ _ _ _ _ Hc Hp) as (_ & Hok & _).
      congruence.
    + destruct (build_payload_Raise _ _ _ _ _ Hp) as [msg ->]. eauto.
  - intros Htyped. apply forallb_forall. intros c Hin.
    apply list_elem_of_In, list_elem_of_lookup_1 in Hin.
    destruct Hin as [i Hi].
    destruct (normalize_param_at country _ (PStr "US") i c
                (len_nonneg _) Hi) as (Hc1 & Hc2 & _).
    destruct Htyped as [Hnone | Hstr].
    + rewrite (Hc1 Hnone). reflexivity.
    + destruct country; try discriminate.
      rewrite (Hc2 eq_refl). unfold country_ok. cbn [isinstance_str].
      apply orb_true_r.
Qed.

Lemma search_payload_fails_only_on_country_witness :
  truthy (PerplexityScraper.prompt_value (OneStr "What is Python?")) = true /\
  existsb PerplexityScraper.bad_prompt
    (PerplexityScraper.prompts_of (OneStr "What is Python?")) = false /\
  exists msg,
    @PerplexityScraper.search bool (fixture canned_result)
      (OneStr "What is Python?") (PInt 44) PNone PNone 10 None sync_caller
    = (Raise (AttributeError msg), sync_caller).
Proof.
  split; [reflexivity |]. split; [reflexivity |].
  apply (@search_payload_fails_only_on_country bool (fixture canned_result)
           (OneStr "What is Python?") (PInt 44) PNone PNone 10 None sync_caller
           eq_refl eq_refl).
  reflexivity.
Defined.

(** X9. [search_trigger] does not check the prompts one by one as
    [search] does: whenever [search] accepts its arguments,
    [search_trigger] builds the very same payload; an empty prompt is
    refused with the same [ValidationError]; but for every non-empty
    prompt, also a list with elements that are empty or no strings (which
    [search] refuses), no [ValidationError] is raised and, the countries
    being falsy or strings, the payload is built and handed to the
    trigger request. *)
Theorem search_trigger_skips_prompt_check (prompt : str_or_list pyval)
    (country index export_markdown_file : pyval) :
  (forall p,
     PerplexityScraper.search_payload prompt country index export_markdown_file
     = Return p ->
     PerplexityScraper.search_trigger_payload prompt country index
       export_markdown_file = Return p) /\
  (truthy (PerplexityScraper.prompt_value prompt) = false ->
   PerplexityScraper.search_trigger_payload prompt country index
     export_markdown_file = Raise (ValidationError "Prompt is required")) /\
  (truthy (PerplexityScraper.prompt_value prompt) = true ->
   not_validation_error
     (PerplexityScraper.search_trigger_payload prompt country index
        export_markdown_file) /\
   (forallb country_ok
      (PerplexityScraper._normalize_param country
         (len (PerplexityScraper.prompts_of prompt)) (PStr "US")) = true ->
    exists p,
      PerplexityScraper.search_trigger_payload prompt country index
        export_markdown_file = Return p /\
      length p = length (PerplexityScraper.prompts_of prompt))).
Proof.
  split; [| split].
  - intros p Hp. apply (search_payload_accepted _ _ _ _ _ Hp).
  - intros Hempty. unfold PerplexityScraper.search_trigger_payload.
    rewrite Hempty. reflexivity.
  - intros Hprompt. unfold PerplexityScraper.search_trigger_payload.
    rewrite Hprompt. cbn [negb]. split.
    + apply build_payload_not_validation_error.
    + intros Hok.
      assert (Hc : length (PerplexityScraper._normalize_param country
                             (len (PerplexityScraper.prompts_of prompt))
                             (PStr "US"))
                   = length (PerplexityScraper.prompts_of prompt))
        by apply normalize_param_length.
      destruct (build_payload_total (PerplexityScraper.prompts_of prompt) _
                  (PerplexityScraper._normalize_param index
                     (len (PerplexityScraper.prompts_of prompt)) PNone)
                  (PerplexityScraper._normalize_param export_markdown_file
                     (len (PerplexityScraper.prompts_of prompt)) PNone)
                  Hc Hok) as [p Hp].
      exists p. split; [exact Hp |].
      apply (build_payload_Return _ _ _ _ _ Hc Hp).
Qed.

(** A batch with an element that is no string: refused by [search],
    sent by [search_trigger]. *)
Example trigger_sends_what_search_refuses :
  PerplexityScraper.search_payload (ManyOf [PStr "What is Python?"; PInt 7])
    PNone PNone PNone
  = Raise (ValidationError "Each prompt must be a non-empty string") /\
  PerplexityScraper.search_trigger_payload
    (ManyOf [PStr "What is Python?"; PInt 7]) PNone PNone PNone
  = Return [[("url", PStr "https://www.perplexity.ai");
             ("prompt", PStr "What is Python?"); ("country", PStr "US")];
            [("url", PStr "https://www.perplexity.ai");
             ("prompt", PInt 7); ("country", PStr "US")]].
Proof. split; reflexivity. Qed.

(** ** The searches of the LinkedIn scraper *)


(** X10. The three searches of the LinkedIn scraper refuse a call without
    a search term before anything is done: [profiles_async] when keyword,
    location, company and title are all absent or empty,
    [companies_async] when keyword, location and industry are, and
    [jobs_async] when the keyword is empty.  They raise [ValidationError]
    and leave the world as it was: the engine is not entered and no
    request is posted.  With a search term the engine is entered and left
    exactly once. *)
Theorem linkedin_search_needs_a_term {W : Type} `{Collaborators W}
    `{Session W} `{SearchBase W}
    (keyword location company title industry level job_type : option string)
    (job_keyword : string) (max_results poll_interval : Z)
    (poll_timeout : option Z) (w : world W) :
  (existsb opt_truthy [keyword; location; company; title] = false ->
   LinkedInScraper.profiles_async keyword location company title max_results
     poll_interval poll_timeout w
   = (Raise (ValidationError
        "At least one search parameter required (keyword, location, company, or title)"),
      w)) /\
  (existsb opt_truthy [keyword; location; industry] = false ->
   LinkedInScraper.companies_async keyword location industry max_results
     poll_interval poll_timeout w
   = (Raise (ValidationError
        "At least one search parameter required (keyword, location, or industry)"),
      w)) /\
  (job_keyword = "" ->
   LinkedInScraper.jobs_async job_keyword location level job_type max_results
     poll_interval poll_timeout w
   = (Raise (ValidationError "Keyword required for job search"), w)) /\
  (existsb opt_truthy [keyword; location; company; title] = true ->
   events (snd (LinkedInScraper.profiles_async keyword location company title
                  max_results poll_interval poll_timeout w))
   = events w ++ [EvEngineEnter; EvEngineExit]) /\
  (existsb opt_truthy [keyword; location; industry] = true ->
   events (snd (LinkedInScraper.companies_async keyword location industry
                  max_results poll_interval poll_timeout w))
   = events w ++ [EvEngineEnter; EvEngineExit]) /\
  (job_keyword <> "" ->
   events (snd (LinkedInScraper.jobs_async job_keyword location level job_type
                  max_results poll_interval poll_timeout w))
   = events w ++ [EvEngineEnter; EvEngineExit]).
Proof.
  assert (Hrun : forall p ds error pi t,
            events (snd (LinkedInScraper.trigger_and_poll p ds error pi t w))
            = events w ++ [EvEngineEnter; EvEngineExit]).
  { intros p ds error pi t.
    unfold LinkedInScraper.trigger_and_poll, async_with_engine,
      LinkedInScraper._trigger_async_with_dataset, LinkedInScraper.now, bind,
      lift, lift_pure, ret, log_event.
    cbn [st events loop_running].
    destruct (session_post _ _ _ _) as [r s1].
    destruct (LinkedInScraper.on_response r) as [sid | e]; cbn.
    - destruct (truthy sid); cbn.
      + destruct (datetime_now s1) as [t1 s2]. cbn.
        destruct (datetime_now s2) as [t2 s3]. cbn.
        destruct (_poll_and_fetch_async _ _ _ _ _ _) as [out s4]. cbn.
        rewrite <- app_assoc. reflexivity.
      + rewrite <- app_assoc. reflexivity.
    - rewrite <- app_assoc. reflexivity. }
  unfold LinkedInScraper.profiles_async, LinkedInScraper.companies_async,
    LinkedInScraper.jobs_async.
  repeat split.
  - intros ->. reflexivity.
  - intros ->. reflexivity.
  - intros ->. reflexivity.
  - intros ->. apply Hrun.
  - intros ->. apply Hrun.
  - intros Hk. destruct (String.eqb_spec job_keyword "") as [| _];
      [contradiction | apply Hrun].
Qed.

(** X11. Once a search of the LinkedIn scraper has a search term, it
    enters the engine, posts one trigger request for its payload on its
    own dataset (profiles, companies or jobs), and then: raises the
    [APIError] of a response other than 200; returns a failure result
    (not successful, empty URL, status error, the message of that search)
    without polling when the response holds no snapshot id; and otherwise
    returns what the poll returns, which is awaited with that snapshot id,
    the given poll interval, the given timeout (300 seconds when it is
    absent or zero), the second clock reading as [request_sent_at] and
    the first as [snapshot_id_received_at].  The engine is left in every
    case. *)
Theorem linkedin_search_outcomes {W : Type} `{Collaborators W}
    `{Session W} `{SearchBase W}
    (keyword location company title industry level job_type : option string)
    (job_keyword : string) (max_results poll_interval : Z)
    (poll_timeout : option Z) :
  (existsb opt_truthy [keyword; location; company; title] = true ->
   search_contract
     (LinkedInScraper.profiles_async keyword location company title
        max_results poll_interval poll_timeout)
     (LinkedInScraper.profiles_payload keyword location company title
        max_results)
     "gd_l1oojb10z2jye29kh" "Failed to trigger profile search" poll_interval
     (match poll_timeout with
      | Some t => if t =? 0 then 300 else t
      | None => 300
      end)) /\
  (existsb opt_truthy [keyword; location; industry] = true ->
   search_contract
     (LinkedInScraper.companies_async keyword location industry max_results
        poll_interval poll_timeout)
     (LinkedInScraper.companies_payload keyword location industry max_results)
     "gd_lhkq90okie75oj8mo" "Failed to trigger company search" poll_interval
     (match poll_timeout with
      | Some t => if t =? 0 then 300 else t
      | None => 300
      end)) /\
  (job_keyword <> "" ->
   search_contract
     (LinkedInScraper.jobs_async job_keyword location level job_type
        max_results poll_interval poll_timeout)
     (LinkedInScraper.jobs_payload job_keyword location level job_type
        max_results)
     "gd_lj4v2v5oqpp3qb79j" "Failed to trigger job search" poll_interval
     (match poll_timeout with
      | Some t => if t =? 0 then 300 else t
      | None => 300
      end)).
Proof.
  unfold LinkedInScraper.profiles_async, LinkedInScraper.companies_async,
    LinkedInScraper.jobs_async.
  split; [| split].
  - intros ->. apply trigger_and_poll_contract.
  - intros ->. apply trigger_and_poll_contract.
  - intros Hk. destruct (String.eqb_spec job_keyword "") as [| _];
      [contradiction | apply trigger_and_poll_contract].
Qed.

(** A vendor that accepts the request but sends no snapshot id: the
    search gives the failure result, and the poll is not reached (it would
    succeed on this engine). *)
Example linkedin_jobs_without_snapshot_id :
  @LinkedInScraper.jobs_async bool (fixture canned_result)
    (vendor (Response 200 (PDict [("status", PStr "queued")]) ""))
    polling "python developer" (Some "NYC") None None 50 10 None async_caller
  = (Return (SearchResultOf false "" "error"
               (Some "Failed to trigger job search") (Some "linkedin")),
     World true [EvEngineEnter; EvEngineExit] false).
Proof. reflexivity. Qed.

Example linkedin_jobs_with_snapshot_id :
  fst (@LinkedInScraper.jobs_async bool (fixture canned_result)
         (vendor (Response 200 (PDict [("snapshot_id", PStr "s_9z")]) ""))
         polling "python developer" (Some "NYC") None None 50 10 None
         async_caller)
  = Return canned_search.
Proof. reflexivity. Qed.

(** ** The keys of the search payloads *)

Lemma lookup_map {A B} (f : A -> B) (l : list A) (i : nat) (y : B) :
  map f l !! i = Some y <-> exists x, l !! i = Some x /\ y = f x.
Proof.
  revert i. induction l as [| x l IH]; intros i.
  - cbn. split; [discriminate | intros (x & Hx & _); discriminate].
  - destruct i as [| i]; cbn.
    + split.
      * intros [= <-]. eauto.
      * intros (x' & [= <-] & ->). reflexivity.
    + apply IH.
Qed.

(** Case analysis on an optional string by its truth value. *)
Ltac by_truth x :=
  let s := fresh "s" in
  destruct x as [s |]; [destruct (String.eqb s "") |].

(** X12. The payloads of the Amazon scraper of [new-sdk].  The product
    search sends one item with the keyword and [max_results] (whatever
    its value, 0 included), the category when it is given and not empty,
    and each of [min_price], [max_price], [min_rating] when it is given,
    a zero included.  [_build_scrape_payload] makes one item per URL, in
    order; [reviews_count] and [images_count] are copied onto every item
    exactly when the keyword was passed (a value of [None] included), and
    no other keyword argument reaches the payload. *)
Theorem amazon_payload_keys (keyword : string) (category : option string)
    (max_results : Z) (min_price max_price min_rating : option float)
    (urls : list string) (kwargs : gmap string pyval) :
  (exists item,
     AmazonScraper.products_payload keyword category max_results min_price
       max_price min_rating = [item] /\
     dict_get item "keyword" = PStr keyword /\
     dict_get item "max_results" = PInt max_results /\
     has_key item "category" = opt_truthy category /\
     dict_get item "category" = sent category /\
     has_key item "min_price" = is_given min_price /\
     has_key item "max_price" = is_given max_price /\
     has_key item "min_rating" = is_given min_rating /\
     (forall f, min_price = Some f -> dict_get item "min_price" = PFloat f) /\
     (forall f, max_price = Some f -> dict_get item "max_price" = PFloat f) /\
     (forall f, min_rating = Some f -> dict_get item "min_rating" = PFloat f)) /\
  length (AmazonScraper._build_scrape_payload urls kwargs) = length urls /\
  (forall i item,
     AmazonScraper._build_scrape_payload urls kwargs !! i = Some item ->
     exists u,
       urls !! i = Some u /\
       dict_get item "url" = PStr u /\
       has_key item "reviews_count" = is_given (kwargs !! "reviews_count") /\
       has_key item "images_count" = is_given (kwargs !! "images_count") /\
       (forall v, kwargs !! "reviews_count" = Some v ->
          dict_get item "reviews_count" = v) /\
       (forall v, kwargs !! "images_count" = Some v ->
          dict_get item "images_count" = v) /\
       (forall k, has_key item k = true ->
          k = "url" \/ k = "reviews_count" \/ k = "images_count")).
Proof.
  split; [| split].
  - unfold AmazonScraper.products_payload, add_if_truthy, sent, opt_truthy.
    by_truth category; destruct min_price, max_price, min_rating;
      eexists; (split; [reflexivity |]); cbn;
      repeat split; try (intros ? [= ->]; reflexivity); intros ? [=].
  - unfold AmazonScraper._build_scrape_payload. apply length_map.
  - intros i item Hitem. unfold AmazonScraper._build_scrape_payload in Hitem.
    apply lookup_map in Hitem. destruct Hitem as (u & Hu & ->).
    exists u. split; [exact Hu |]. unfold AmazonScraper.scrape_item.
    destruct (kwargs !! "reviews_count") as [rc |],
             (kwargs !! "images_count") as [ic |]; cbn;
      repeat split;
      lazymatch goal with
      | |- forall k, _ = true -> _ \/ _ =>
          intros k Hk; unfold has_key in Hk; cbn in Hk;
          repeat (apply orb_prop in Hk; destruct Hk as [Hk | Hk]);
          try discriminate; apply String.eqb_eq in Hk; auto
      | |- forall v, Some _ = Some v -> _ => intros ? [= ->]; reflexivity
      | |- forall v, None = Some v -> _ => intros ? [=]
      | |- _ => reflexivity
      end.
Qed.

(** X13. The payloads of the LinkedIn searches hold one item.  Each
    optional filter is sent under its own key when it is given and not
    empty, and left out otherwise: the item has that key exactly then.
    [max_results] is left out of the profile and the company search when
    it is 0 and sent otherwise, while the job search sends it, and its
    keyword, whatever they are.  The items have no other keys. *)
Theorem linkedin_payload_keys
    (keyword location company title industry level job_type : option string)
    (job_keyword : string) (max_results : Z) :
  (exists item,
     LinkedInScraper.profiles_payload keyword location company title
       max_results = [item] /\
     dict_get item "keyword" = sent keyword /\
     dict_get item "location" = sent location /\
     dict_get item "company" = sent company /\
     dict_get item "title" = sent title /\
     (max_results <> 0 -> dict_get item "max_results" = PInt max_results) /\
     forall k,
       has_key item k
       = (String.eqb k "keyword" && opt_truthy keyword)
         || (String.eqb k "location" && opt_truthy location)
         || (String.eqb k "company" && opt_truthy company)
         || (String.eqb k "title" && opt_truthy title)
         || (String.eqb k "max_results" && negb (max_results =? 0))) /\
  (exists item,
     LinkedInScraper.companies_payload keyword location industry max_results
     = [item] /\
     dict_get item "keyword" = sent keyword /\
     dict_get item "location" = sent location /\
     dict_get item "industry" = sent industry /\
     (max_results <> 0 -> dict_get item "max_results" = PInt max_results) /\
     forall k,
       has_key item k
       = (String.eqb k "keyword" && opt_truthy keyword)
         || (String.eqb k "location" && opt_truthy location)
         || (String.eqb k "industry" && opt_truthy industry)
         || (String.eqb k "max_results" && negb (max_results =? 0))) /\
  (exists item,
     LinkedInScraper.jobs_payload job_keyword location level job_type
       max_results = [item] /\
     dict_get item "keyword" = PStr job_keyword /\
     dict_get item "max_results" = PInt max_results /\
     dict_get item "location" = sent location /\
     dict_get item "experience_level" = sent level /\
     dict_get item "job_type" = sent job_type /\
     forall k,
       has_key item k
       = String.eqb k "keyword" || String.eqb k "max_results"
         || (String.eqb k "location" && opt_truthy location)
         || (String.eqb k "experience_level" && opt_truthy level)
         || (String.eqb k "job_type" && opt_truthy job_type)).
Proof.
  unfold LinkedInScraper.profiles_payload, LinkedInScraper.companies_payload,
    LinkedInScraper.jobs_payload, LinkedInScraper.add_max_results,
    add_if_truthy, sent, opt_truthy.
  split; [| split].
  - by_truth keyword; by_truth location; by_truth company; by_truth title;
      destruct (Z.eqb_spec max_results 0) as [Hz | Hz];
      eexists; (split; [reflexivity |]); cbn;
      (repeat split; [.. | intros k; by_key k]);
      intros Hnz; try reflexivity; contradiction.
  - by_truth keyword; by_truth location; by_truth industry;
      destruct (Z.eqb_spec max_results 0) as [Hz | Hz];
      eexists; (split; [reflexivity |]); cbn;
      (repeat split; [.. | intros k; by_key k]);
      intros Hnz; try reflexivity; contradiction.
  - by_truth location; by_truth level; by_truth job_type;
      eexists; (split; [reflexivity |]); cbn;
      (repeat split; [.. | intros k; by_key k]).
Qed.

(** ** The Amazon schema on arbitrary dictionaries *)

(** X14. For every dictionary [d], whatever its keys and values,
    [to_dict] of the instance [from_dict d] builds is [d] cut down to the
    entries whose key names a field and whose value is not [None]: it
    holds nothing that [d] does not hold.  Converting that dictionary back
    gives the same instance, so that a second round through [from_dict]
    and [to_dict] changes nothing.  The constructor itself is stricter
    than [from_dict]: called with the entries of [d] as keyword arguments
    it builds that instance when every key names a field and raises
    [TypeError] otherwise. *)
Theorem amazon_schema_projection (d : gmap string pyval) :
  exists obj,
    AmazonProductResult.from_dict d = Return obj /\
    AmazonProductResult.to_dict obj
    = filter (fun kv => kv.1 ∈ AmazonProductResult.field_names /\
                        is_none kv.2 = false) d /\
    AmazonProductResult.to_dict obj ⊆ d /\
    AmazonProductResult.from_dict (AmazonProductResult.to_dict obj)
    = Return obj /\
    (map_Forall (fun k _ => k ∈ AmazonProductResult.field_names) d ->
     AmazonProductResult.init d = Return obj) /\
    (~ map_Forall (fun k _ => k ∈ AmazonProductResult.field_names) d ->
     exists msg, AmazonProductResult.init d = Raise (TypeError msg)).
Proof.
  eexists. split; [apply from_dict_value |].
  assert (Hproj :
    AmazonProductResult.to_dict
      (AmazonProductResult.Instance
         (map (fun f => (f, default PNone
                              (AmazonProductResult.filtered_data d !! f)))
            AmazonProductResult.field_names))
    = filter (fun kv => kv.1 ∈ AmazonProductResult.field_names /\
                        is_none kv.2 = false) d).
  { apply map_eq. intros k. apply option_eq. intros v.
    rewrite to_dict_lookup, map_lookup_filter_Some. cbn. split.
    - intros (Hk & Hv & ->). destruct (d !! k) as [v |]; [auto |].
      discriminate Hv.
    - intros (Hd & Hk & Hv). rewrite Hd. auto. }
  split; [exact Hproj |]. split; [| split; [| split]].
  - rewrite Hproj. apply map_filter_subseteq.
  - rewrite from_dict_value. do 2 f_equal.
    apply map_ext_in. intros f Hf. apply list_elem_of_In in Hf. f_equal.
    rewrite !filtered_data_lookup by exact Hf.
    destruct (AmazonProductResult.to_dict _ !! f) as [v |] eqn:Hto.
    + apply to_dict_lookup in Hto. destruct Hto as (_ & _ & ->). reflexivity.
    + destruct (d !! f) as [v |] eqn:Hd; [| reflexivity]. cbn.
      destruct (is_none v) eqn:Hv.
      * destruct v; try discriminate. reflexivity.
      * assert (Hsome : AmazonProductResult.to_dict
                          (AmazonProductResult.Instance
                             (map (fun f => (f, default PNone
                                     (AmazonProductResult.filtered_data d !! f)))
                                AmazonProductResult.field_names)) !! f
                        = Some v).
        { apply to_dict_lookup. rewrite Hd. auto. }
        congruence.
  - intros Hknown. unfold AmazonProductResult.init.
    destruct (decide _) as [_ | Hbad]; [| contradiction].
    do 2 f_equal. apply map_ext_in. intros f Hf. apply list_elem_of_In in Hf.
    rewrite filtered_data_lookup by exact Hf. reflexivity.
  - intros Hunknown. unfold AmazonProductResult.init.
    destruct (decide _) as [Hknown | _]; [contradiction | eauto].
Qed.

Example to_dict_of_from_dict_cuts_down :
  exists obj,
    AmazonProductResult.from_dict
      (<["shoe_size" := PInt 42]> (<["brand" := PNone]> laptop)) = Return obj /\
    AmazonProductResult.to_dict obj = laptop.
Proof.
  eexists. split; [apply from_dict_value |]. vm_compute. reflexivity.
Qed.

(** ** The scraper properties of [ScrapeService] *)

Section Service.
Variable Scraper Engine Heap : Type.
Variable new_scraper : string -> string -> Engine -> Heap -> outcome Scraper * Heap.

Abbreviation service := (ScrapeService.t Scraper Engine).
Abbreviation read := (access Scraper Engine Heap new_scraper).
Abbreviation cached := (slot Scraper Engine).

Lemma access_cached (name : scraper_name) (self : service) (h : Heap)
    (s : Scraper) :
  cached name self = Some s -> read name self h = (Return s, self, h).
Proof.
  destruct name; cbn; intros Hs;
    [unfold ScrapeService.amazon | unfold ScrapeService.linkedin
    | unfold ScrapeService.chatgpt | unfold ScrapeService.facebook
    | unfold ScrapeService.instagram | unfold ScrapeService.perplexity
    | unfold ScrapeService.tiktok | unfold ScrapeService.youtube];
    rewrite Hs; reflexivity.
Qed.

Lemma access_run (name : scraper_name) (self : service) (h : Heap) :
  cached name self = None ->
  match new_scraper (class_of name)
          (ScrapeService.token Engine (ScrapeService._client Scraper Engine self))
          (ScrapeService.engine Engine (ScrapeService._client Scraper Engine self))
          h with
  | (Return s, h') =>
      exists self', read name self h = (Return s, self', h') /\
                    cached name self' = Some s /\
                    ScrapeService._client Scraper Engine self'
                    = ScrapeService._client Scraper Engine self /\
                    forall other, other <> name ->
                                  cached other self' = cached other self
  | (Raise e, h') => read name self h = (Raise e, self, h')
  end.
Proof.
  destruct name; cbn; intros Hs;
    [unfold ScrapeService.amazon | unfold ScrapeService.linkedin
    | unfold ScrapeService.chatgpt | unfold ScrapeService.facebook
    | unfold ScrapeService.instagram | unfold ScrapeService.perplexity
    | unfold ScrapeService.tiktok | unfold ScrapeService.youtube];
    rewrite Hs; destruct (new_scraper _ _ _ _) as [[s | e] h'];
    try reflexivity;
    (eexists; split; [reflexivity |]; split; [reflexivity |];
     split; [reflexivity |]; intros other Hne; destruct other;
     try reflexivity; contradiction).
Qed.

(** A read never empties a slot, and never replaces what a slot holds. *)
Lemma access_keeps (name other : scraper_name) (self : service) (h : Heap)
    (s : Scraper) :
  cached other self = Some s ->
  cached other (snd (fst (read name self h))) = Some s.
Proof.
  intros Hs. destruct (cached name self) as [s' |] eqn:Hname.
  - rewrite (access_cached name self h s' Hname). exact Hs.
  - pose proof (access_run name self h Hname) as Hrun.
    destruct (new_scraper _ _ _ _) as [[s' | e] h'].
    + destruct Hrun as (self' & -> & _ & _ & Hothers). cbn.
      rewrite Hothers; [exact Hs |]. intros ->. congruence.
    + rewrite Hrun. exact Hs.
Qed.

Lemma accesses_keep (names : list scraper_name) (other : scraper_name)
    (self : service) (h : Heap) (s : Scraper) :
  cached other self = Some s ->
  cached other (fst (accesses Scraper Engine Heap new_scraper names self h))
  = Some s.
Proof.
  revert self h. induction names as [| name names IH]; intros self h Hs;
    [exact Hs |].
  cbn [accesses]. pose proof (access_keeps name other self h s Hs) as Hkeep.
  destruct (read name self h) as [[r self'] h']. cbn in Hkeep.
  apply IH. exact Hkeep.
Qed.

Lemma access_returns (name : scraper_name) (self self1 : service)
    (h h1 : Heap) (s : Scraper) :
  read name self h = (Return s, self1, h1) -> cached name self1 = Some s.
Proof.
  intros Hread. destruct (cached name self) as [s' |] eqn:Hname.
  - rewrite (access_cached name self h s' Hname) in Hread.
    injection Hread as <- <- <-. exact Hname.
  - pose proof (access_run name self h Hname) as Hrun.
    destruct (new_scraper _ _ _ _) as [[s' | e] h'].
    + destruct Hrun as (self' & Hself' & Hslot & _). rewrite Hself' in Hread.
      injection Hread as <- <- <-. exact Hslot.
    + rewrite Hrun in Hread. discriminate.
Qed.

(** X15. The scraper properties of [ScrapeService] build their scraper
    at most once.  On a fresh service the first read of a property calls
    the constructor of its class with the client's token and engine and
    gives what the constructor gives; and once a read has returned a
    scraper, every later read of that property, whatever other properties
    were read in between, returns that same scraper without calling a
    constructor and without changing the service. *)
Theorem scrapers_are_built_once (name : scraper_name) (self self1 : service)
    (h h1 : Heap) (s : Scraper) (names : list scraper_name) :
  read name self h = (Return s, self1, h1) ->
  (let later := accesses Scraper Engine Heap new_scraper names self1 h1 in
   read name (fst later) (snd later) = (Return s, fst later, snd later)) /\
  (forall c h0,
     let fresh := ScrapeService.__init__ Scraper Engine c in
     (forall other, cached other fresh = None) /\
     fst (fst (read name fresh h0))
     = fst (new_scraper (class_of name) (ScrapeService.token Engine c)
              (ScrapeService.engine Engine c) h0) /\
     snd (read name fresh h0)
     = snd (new_scraper (class_of name) (ScrapeService.token Engine c)
              (ScrapeService.engine Engine c) h0)).
Proof.
  intros Hread. split.
  - intros later. apply access_cached. unfold later.
    apply accesses_keep. apply (access_returns name self self1 h h1 s Hread).
  - intros c h0 fresh.
    assert (Hfresh : forall other, cached other fresh = None)
      by (intros other; destruct other; reflexivity).
    split; [exact Hfresh |].
    pose proof (access_run name fresh h0 (Hfresh name)) as Hrun.
    change (ScrapeService._client Scraper Engine fresh) with c in Hrun.
    destruct (new_scraper _ _ _ _) as [[s' | e] h'].
    + destruct Hrun as (self' & -> & _). split; reflexivity.
    + rewrite Hrun. split; reflexivity.
Qed.

End Service.

Lemma scrapers_are_built_once_witness :
  access (string * string) unit nat counting_constructor TikTok
    (ScrapeService.__init__ (string * string) unit
       (ScrapeService.Client unit "token-1" tt)) 0%nat
  = (Return ("TikTokScraper", "token-1"),
     ScrapeService.Service (string * string) unit
       (ScrapeService.Client unit "token-1" tt) None None None None None None
       (Some ("TikTokScraper", "token-1")) None,
     1%nat) /\
  access (string * string) unit nat counting_constructor TikTok
    (fst (accesses (string * string) unit nat counting_constructor
            [Amazon; TikTok; YouTube]
            (ScrapeService.Service (string * string) unit
               (ScrapeService.Client unit "token-1" tt) None None None None
               None None (Some ("TikTokScraper", "token-1")) None) 1%nat))
    (snd (accesses (string * string) unit nat counting_constructor
            [Amazon; TikTok; YouTube]
            (ScrapeService.Service (string * string) unit
               (ScrapeService.Client unit "token-1" tt) None None None None
               None None (Some ("TikTokScraper", "token-1")) None) 1%nat))
  = (Return ("TikTokScraper", "token-1"),
     ScrapeService.Service (string * string) unit
       (ScrapeService.Client unit "token-1" tt)
       (Some ("AmazonScraper", "token-1")) None None None None None
       (Some ("TikTokScraper", "token-1")) (Some ("YouTubeScraper", "token-1")),
     3%nat).
Proof.
  split; [reflexivity |].
  destruct (scrapers_are_built_once (string * string) unit nat
              counting_constructor TikTok
              (ScrapeService.__init__ (string * string) unit
                 (ScrapeService.Client unit "token-1" tt))
              (ScrapeService.Service (string * string) unit
                 (ScrapeService.Client unit "token-1" tt) None None None None
                 None None (Some ("TikTokScraper", "token-1")) None)
              0%nat 1%nat ("TikTokScraper", "token-1")
              [Amazon; TikTok; YouTube] eq_refl) as [Hlater _].
  exact Hlater.
Defined.

(** ** The engine is always left *)

Create HintDb executes discriminated.

Section Brackets.
Context {W : Type} `{Collaborators W} `{Discovery W}.

Lemma only_executes_ret {A} (a : A) : only_executes (ret (W:=W) a).
Proof. intros w. exists []. rewrite app_nil_r. auto. Qed.

Lemma only_executes_raise {A} (e : exn) : only_executes (raise (W:=W) (A:=A) e).
Proof. intros w. exists []. rewrite app_nil_r. auto. Qed.

Lemma only_executes_lift_pure {A} (o : outcome A) :
  only_executes (lift_pure (W:=W) o).
Proof. intros w. exists []. rewrite app_nil_r. auto. Qed.

Lemma only_executes_lift {A} (f : W -> outcome A * W) : only_executes (lift f).
Proof.
  intros w. exists []. rewrite app_nil_r. unfold lift.
  destruct (f (st w)). auto.
Qed.

Lemma only_executes_emit (p : payload) (ds : string) :
  only_executes (emit (W:=W) (EvExecute p ds)).
Proof. intros w. exists [EvExecute p ds]. auto. Qed.

Lemma only_executes_bind {A B} (m : io W A) (k : A -> io W B) :
  only_executes m -> (forall a, only_executes (k a)) -> only_executes (bind m k).
Proof.
  intros Hm Hk w. unfold bind. destruct (Hm w) as (mid1 & He1 & Hf1).
  destruct (m w) as [[a | e] w']; cbn in *.
  - destruct (Hk a w') as (mid2 & He2 & Hf2). exists (mid1 ++ mid2).
    rewrite He2, He1, <- app_assoc, forallb_app, Hf1, Hf2. auto.
  - exists mid1. auto.
Qed.

Lemma only_executes_validate (url : str_or_list string) :
  only_executes (TikTokScraper.validate url).
Proof. destruct url; apply only_executes_lift_pure. Qed.

Lemma only_executes_youtube_validate (url : str_or_list string) :
  only_executes (YouTubeScraper.validate url).
Proof. destruct url; apply only_executes_lift_pure. Qed.

(** The wrapper [asyncio.run(_run())] around [async with self.engine]. *)
Lemma engine_wrapper_brackets {A} (coro : io W A) :
  only_executes coro -> brackets_engine (asyncio_run (async_with_engine coro)).
Proof.
  intros Hc w. split.
  - intros Hl. unfold asyncio_run. cbn. rewrite Hl.
    unfold run_until_complete, async_with_engine.
    match goal with |- context [coro ?a] =>
      destruct (Hc a) as (mid & He & Hf); destruct (coro a) as [r w'] end.
    cbn in *. split; [reflexivity |]. exists mid. split; [| exact Hf].
    rewrite He, <- !app_assoc. reflexivity.
  - intros Hl. unfold asyncio_run. cbn. rewrite Hl. reflexivity.
Qed.

End Brackets.

#[export] Hint Resolve only_executes_ret only_executes_raise
  only_executes_lift_pure only_executes_lift only_executes_emit
  only_executes_validate only_executes_youtube_validate : executes.

(** Coroutines put together from the monad's operations. *)
Ltac executes :=
  unfold call_execute, TikTokSearchScraper._execute_discovery;
  repeat first
    [ apply only_executes_bind; [| intros ?]
    | solve [auto with executes] ].

(** X16. The sync wrappers that run their coroutine inside
    [async with self.engine] ([profiles_sync], [posts_sync],
    [comments_sync] and the three fast variants of [TikTokScraper]; the
    four wrappers of [PerplexityScraper]; [profiles_sync],
    [posts_by_keyword_sync], [posts_by_profile_sync] and
    [posts_by_url_sync] of [TikTokSearchScraper]; [videos_sync],
    [channels_sync] and [comments_sync] of [YouTubeScraper]) always leave
    the engine: called with no event loop running they enter the engine
    once, record nothing but workflow executions inside, and leave it
    once, whether the coroutine returned or raised (a [ValidationError]
    included), with the loop stopped afterwards; called inside a running
    loop they raise the [RuntimeError] of [asyncio.run] and do not enter
    the engine. *)
Theorem sync_wrappers_bracket_engine {W : Type} `{Collaborators W}
    `{Discovery W} :
  (forall u c t, brackets_engine (TikTokScraper.profiles_sync u c t)) /\
  (forall u c t, brackets_engine (TikTokScraper.posts_sync u c t)) /\
  (forall u t, brackets_engine (TikTokScraper.comments_sync u t)) /\
  (forall u t, brackets_engine (TikTokScraper.posts_by_profile_fast_sync u t)) /\
  (forall u t, brackets_engine (TikTokScraper.posts_by_url_fast_sync u t)) /\
  (forall u n c sd t,
     brackets_engine (TikTokScraper.posts_by_search_url_fast_sync u n c sd t)) /\
  (forall p c i e pi pt,
     brackets_engine (PerplexityScraper.search_sync p c i e pi pt)) /\
  (forall p c i e, brackets_engine (PerplexityScraper.search_trigger_sync p c i e)) /\
  (forall sid, brackets_engine (PerplexityScraper.search_status_sync sid)) /\
  (forall sid, brackets_engine (PerplexityScraper.search_fetch_sync sid)) /\
  (forall u c t, brackets_engine (TikTokSearchScraper.profiles_sync u c t)) /\
  (forall k n x c t,
     brackets_engine (TikTokSearchScraper.posts_by_keyword_sync k n x c t)) /\
  (forall u n x wc sd ed pt c sb t,
     brackets_engine
       (TikTokSearchScraper.posts_by_profile_sync u n x wc sd ed pt c sb t)) /\
  (forall u t, brackets_engine (TikTokSearchScraper.posts_by_url_sync u t)) /\
  (forall u c l t, brackets_engine (YouTubeScraper.videos_sync u c l t)) /\
  (forall u t, brackets_engine (YouTubeScraper.channels_sync u t)) /\
  (forall u n r s t, brackets_engine (YouTubeScraper.comments_sync u n r s t)).
Proof.
  repeat split; intros; apply engine_wrapper_brackets.
  all: unfold TikTokScraper.profiles, TikTokScraper.posts,
         TikTokScraper.comments, TikTokScraper.posts_by_profile_fast,
         TikTokScraper.posts_by_url_fast, TikTokScraper._scrape_urls,
         TikTokScraper.posts_by_search_url_fast, PerplexityScraper.search,
         PerplexityScraper.search_trigger, PerplexityScraper.search_status,
         PerplexityScraper.search_fetch, TikTokSearchScraper.profiles,
         TikTokSearchScraper.posts_by_keyword,
         TikTokSearchScraper.posts_by_profile, TikTokSearchScraper.posts_by_url,
         YouTubeScraper.videos, YouTubeScraper.channels,
         YouTubeScraper.comments.
  all: executes.
Qed.

(** A refused URL inside the wrapper: the engine is entered and left
    around the [ValidationError]. *)
Example comments_sync_refused_url :
  @TikTokScraper.comments_sync bool (strict_fixture canned_result)
    (OneStr "") 240 sync_caller
  = (Raise (ValidationError "URL cannot be empty"),
     World false [EvAsyncioRun; EvEngineEnter; EvEngineExit] false).
Proof. reflexivity. Qed.

(** ** The discovery scraper of TikTok *)

(** X17. The bearer token of [TikTokSearchScraper].  The constructor
    takes the token it is given when that is not empty, and otherwise the
    environment variable [BRIGHTDATA_API_TOKEN] (an empty token given
    explicitly does not hide the variable); it raises [ValidationError]
    exactly when both are absent or empty.  A scraper that was built has a
    token that is not empty, and the engine it was given or, when it was
    given none, an engine made from that token. *)
Theorem search_scraper_token (AsyncEngine : Type)
    (AsyncEngine_new : string -> AsyncEngine) (getenv : string -> option string)
    (bearer_token : option string) (engine : option AsyncEngine) :
  let built := TikTokSearchScraper.__init__ AsyncEngine AsyncEngine_new getenv
                 bearer_token engine in
  let chosen := if opt_truthy bearer_token then bearer_token
                else getenv "BRIGHTDATA_API_TOKEN" in
  (opt_truthy chosen = false <->
   built = Raise (ValidationError TikTokSearchScraper.token_required)) /\
  (opt_truthy chosen = false <->
   opt_truthy bearer_token = false /\
   opt_truthy (getenv "BRIGHTDATA_API_TOKEN") = false) /\
  (forall scraper, built = Return scraper ->
     chosen = Some (TikTokSearchScraper.bearer_token AsyncEngine scraper) /\
     TikTokSearchScraper.bearer_token AsyncEngine scraper <> "" /\
     TikTokSearchScraper.engine AsyncEngine scraper
     = match engine with
       | Some e => e
       | None => AsyncEngine_new
                   (TikTokSearchScraper.bearer_token AsyncEngine scraper)
       end) /\
  (opt_truthy chosen = true -> exists scraper, built = Return scraper).
Proof.
  intros built chosen. subst built. unfold TikTokSearchScraper.__init__.
  fold chosen. split; [| split; [| split]].
  - unfold opt_truthy. destruct chosen as [tok |].
    + destruct (String.eqb tok ""); cbn; split; try discriminate; reflexivity.
    + split; reflexivity.
  - subst chosen. destruct (opt_truthy bearer_token) eqn:Hb; split.
    + intros Hc. congruence.
    + intros [Hb' _]. discriminate.
    + intros Hc. split; [reflexivity | exact Hc].
    + intros [_ He]. exact He.
  - intros scraper. destruct chosen as [tok |]; [| discriminate].
    destruct (String.eqb_spec tok "") as [| Hne]; [discriminate |].
    intros [= <-]. cbn. split; [reflexivity |]. split; [exact Hne | reflexivity].
  - unfold opt_truthy. destruct chosen as [tok |]; [| discriminate].
    destruct (String.eqb tok ""); [discriminate |]. eauto.
Qed.

(** X18. The discovery methods [profiles] and [posts_by_keyword] of
    [TikTokSearchScraper] send one workflow execution whose payload has
    one item per search URL (per keyword), in input order: the normalised
    country list is exactly as long as the input (no index of the loop is
    out of range), and item [i] pairs input [i] with country [i].  A
    country left at [None] puts the empty string on every item, a single
    country is repeated on every item. *)
Theorem discovery_payload_by_position {W : Type} `{Collaborators W}
    `{Discovery W} (search_url keyword : str_or_list string)
    (num_of_posts : option Z) (excluded : option (list string))
    (country : pyval) (timeout : Z) (w : world W) :
  let urls := TikTokScraper.url_list_of search_url in
  let keywords := TikTokScraper.url_list_of keyword in
  let countries n := TikTokSearchScraper._normalize_param country n (PStr "") in
  length (countries (len urls)) = length urls /\
  length (countries (len keywords)) = length keywords /\
  TikTokSearchScraper.profiles_payload search_url country
  = map (fun '(u, c) => [("search_url", PStr u); ("country", c)])
      (zip urls (countries (len urls))) /\
  TikTokSearchScraper.posts_by_keyword_payload keyword num_of_posts excluded
    country
  = map (fun '(k, c) =>
           add_if_nonempty "posts_to_not_include" excluded
             (add_if_not_none_int "num_of_posts" num_of_posts
                [("search_keyword", PStr k); ("country", c)]))
      (zip keywords (countries (len keywords))) /\
  executions
    (events (snd (TikTokSearchScraper.profiles search_url country timeout w)))
  = executions (events w)
    ++ [TikTokSearchScraper.profiles_payload search_url country] /\
  executions
    (events (snd (TikTokSearchScraper.posts_by_keyword keyword num_of_posts
                    excluded country timeout w)))
  = executions (events w)
    ++ [TikTokSearchScraper.posts_by_keyword_payload keyword num_of_posts
          excluded country] /\
  (forall n i c, 0 <= n -> countries n !! i = Some c ->
     (country = PNone -> c = PStr "") /\
     (isinstance_str_bool_int country = true -> c = country)).
Proof.
  intros urls keywords countries.
  assert (Hu : length (countries (len urls)) = length urls)
    by apply normalize_param_length.
  assert (Hk : length (countries (len keywords)) = length keywords)
    by apply normalize_param_length.
  assert (Hrun : forall p ds by_what,
            executions
              (events (snd (TikTokSearchScraper._execute_discovery p ds by_what
                              timeout w)))
            = executions (events w) ++ [p]).
  { intros p ds by_what.
    unfold TikTokSearchScraper._execute_discovery, bind, emit, lift, log_event.
    cbn. destruct (workflow_execute_discovery _ _ _ _ _ _ _ _) as [r s'].
    cbn. rewrite executions_app. reflexivity. }
  split; [exact Hu |]. split; [exact Hk |].
  split; [| split; [| split; [| split]]].
  - unfold TikTokSearchScraper.profiles_payload. rewrite to_nat_len.
    fold urls. fold (countries (len urls)).
    apply (map_seq_nth_zip
             (fun u c => [("search_url", PStr u); ("country", c)])
             urls (countries (len urls)) "" PNone Hu).
  - unfold TikTokSearchScraper.posts_by_keyword_payload. rewrite to_nat_len.
    fold keywords. fold (countries (len keywords)).
    apply (map_seq_nth_zip
             (fun k c =>
                add_if_nonempty "posts_to_not_include" excluded
                  (add_if_not_none_int "num_of_posts" num_of_posts
                     [("search_keyword", PStr k); ("country", c)]))
             keywords (countries (len keywords)) "" PNone Hk).
  - apply Hrun.
  - apply Hrun.
  - intros n i c Hn Hc.
    destruct (normalize_param_at country n (PStr "") i c Hn Hc)
      as (H1 & H2 & _).
    split; assumption.
Qed.

(** ** The sync searches of [new-sdk] *)

(** Closes [sees_only_st m] for a coroutine of the search scrapers. *)
Ltac sees_only_st_search :=
  repeat first
    [ progress intros
    | apply sees_only_st_bind
    | apply sees_only_st_async_with_engine
    | match goal with
      | |- sees_only_st (if ?b then _ else _) => destruct b
      end
    | solve [auto with oblivious] ].

Section SyncSearches.
Context {W : Type} `{Collaborators W} `{Session W} `{SearchBase W}.

Lemma trigger_and_poll_sees_only_st (p : payload) (ds error : string)
    (pi t : Z) :
  sees_only_st (LinkedInScraper.trigger_and_poll p ds error pi t).
Proof.
  unfold LinkedInScraper.trigger_and_poll,
    LinkedInScraper._trigger_async_with_dataset, LinkedInScraper.now.
  sees_only_st_search.
Qed.

Lemma asyncio_run_in_loop {A} (coro : io W A) (w : world W) :
  loop_running w = true ->
  asyncio_run coro w
  = (Raise (RuntimeError
              "asyncio.run() cannot be called from a running event loop"),
     log_event EvAsyncioRun w).
Proof. intros Hl. unfold asyncio_run. cbn. rewrite Hl. reflexivity. Qed.

End SyncSearches.

(** X19. The sync searches of the LinkedIn and Amazon scrapers of
    [new-sdk] ([profiles], [companies], [jobs]; [products], [reviews]) are
    [asyncio.run] of their async variants and nothing more: called with no
    event loop running they give what the async variant gives for the same
    arguments (a [ValidationError] for a missing search term included);
    called inside a running loop they raise the [RuntimeError] of
    [asyncio.run], and the coroutine does not start: no engine entry, no
    request. *)
Theorem new_sdk_sync_searches {W : Type} `{Collaborators W} `{Session W}
    `{SearchBase W} (w : world W) :
  (loop_running w = false ->
   (forall k l c t m pi pt,
      fst (LinkedInScraper.profiles k l c t m pi pt w)
      = fst (LinkedInScraper.profiles_async k l c t m pi pt w)) /\
   (forall k l i m pi pt,
      fst (LinkedInScraper.companies k l i m pi pt w)
      = fst (LinkedInScraper.companies_async k l i m pi pt w)) /\
   (forall k l e j m pi pt,
      fst (LinkedInScraper.jobs k l e j m pi pt w)
      = fst (LinkedInScraper.jobs_async k l e j m pi pt w)) /\
   (forall k c m p1 p2 r pi pt,
      fst (AmazonScraper.products k c m p1 p2 r pi pt w)
      = fst (AmazonScraper.products_async k c m p1 p2 r pi pt w)) /\
   (forall u m pi pt,
      fst (AmazonScraper.reviews u m pi pt w)
      = fst (AmazonScraper.reviews_async u m pi pt w))) /\
  (loop_running w = true ->
   let refused := (Raise (RuntimeError
                     "asyncio.run() cannot be called from a running event loop"),
                   log_event EvAsyncioRun w) in
   (forall k l c t m pi pt,
      LinkedInScraper.profiles k l c t m pi pt w = refused) /\
   (forall k l i m pi pt,
      LinkedInScraper.companies k l i m pi pt w = refused) /\
   (forall k l e j m pi pt,
      LinkedInScraper.jobs k l e j m pi pt w = refused) /\
   (forall k c m p1 p2 r pi pt,
      AmazonScraper.products k c m p1 p2 r pi pt w = refused) /\
   (forall u m pi pt, AmazonScraper.reviews u m pi pt w = refused)).
Proof.
  split.
  - intros Hl. repeat split; intros; apply asyncio_run_value; try exact Hl.
    + unfold LinkedInScraper.profiles_async.
      destruct (negb _); [apply sees_only_st_raise
                         | apply trigger_and_poll_sees_only_st].
    + unfold LinkedInScraper.companies_async.
      destruct (negb _); [apply sees_only_st_raise
                         | apply trigger_and_poll_sees_only_st].
    + unfold LinkedInScraper.jobs_async.
      destruct (String.eqb _ _); [apply sees_only_st_raise
                                 | apply trigger_and_poll_sees_only_st].
    + unfold AmazonScraper.products_async. apply sees_only_st_lift.
    + unfold AmazonScraper.reviews_async. sees_only_st_search.
  - intros Hl refused. repeat split; intros; apply asyncio_run_in_loop;
      exact Hl.
Qed.
